(** * JSON-to-MDX converter: content normalization, validation and catalog merge

    A shallow embedding of [JsonToMdxConverter] (the converter class of the
    content repository) and the properties of its pure core: identifier
    generation, slug and title clean-up, taxonomy resolution, record
    validation, document composition and the article-index merge.

    Conventions of the embedding.
    - A JavaScript string is a [string]: each [ascii] stands for one UTF-16
      code unit in the range U+0000..U+00FF.  The regular expressions of the
      converter carry no [u] flag and work code unit by code unit.
    - A property that is absent from a parsed JSON object reads as
      [undefined]; it is [None] here.
    - [new Date().toISOString()] is an explicit argument [now].
    - Built-ins whose result depends on floating point or on the date parser
      are the fields of the [Host] class. *)

From Stdlib Require Import ZArith List String Ascii Bool Lia.
From Stdlib Require Import Sorted Permutation DecimalString.
Import ListNotations.

Local Open Scope list_scope.
Local Open Scope string_scope.

(* ================================================================== *)
(** * Part I: the program                                              *)
(* ================================================================== *)

(** ** Strings and characters *)

Module JsString.

Definition code (c : ascii) : N := N_of_ascii c.

Definition in_range (lo hi : N) (c : ascii) : bool :=
  (N.leb lo (code c) && N.leb (code c) hi)%bool.

(** [[a-z]], [[A-Z]], [[0-9]] *)
Definition is_lower (c : ascii) : bool := in_range 97 122 c.
Definition is_upper (c : ascii) : bool := in_range 65 90 c.
Definition is_digit (c : ascii) : bool := in_range 48 57 c.

Definition is_hyphen (c : ascii) : bool := Ascii.eqb c "-".

(** [[a-z0-9]] *)
Definition is_lower_alnum (c : ascii) : bool := (is_lower c || is_digit c)%bool.

(** [[a-z0-9-]] *)
Definition is_kebab_char (c : ascii) : bool := (is_lower_alnum c || is_hyphen c)%bool.

(** [\w], that is [[A-Za-z0-9_]] *)
Definition is_word_char (c : ascii) : bool :=
  (is_lower c || is_upper c || is_digit c || Ascii.eqb c "_")%bool.

(** [[a-f0-9]] *)
Definition is_lower_hex (c : ascii) : bool := (in_range 97 102 c || is_digit c)%bool.

(** [String.prototype.toLowerCase] on one code unit of U+0000..U+00FF:
    A-Z and the Latin-1 capitals U+00C0..U+00DE (but not the
    multiplication sign U+00D7) move up by 32. *)
Definition lower_char (c : ascii) : ascii :=
  if (is_upper c || (in_range 192 222 c && negb (N.eqb (code c) 215)))%bool
  then ascii_of_N (code c + 32)
  else c.

Fixpoint map_chars (f : ascii -> ascii) (s : string) : string :=
  match s with
  | EmptyString => EmptyString
  | String c r => String (f c) (map_chars f r)
  end.

Definition toLowerCase (s : string) : string := map_chars lower_char s.

Fixpoint all_chars (p : ascii -> bool) (s : string) : bool :=
  match s with
  | EmptyString => true
  | String c r => (p c && all_chars p r)%bool
  end.

(** [s.startsWith(p)] and the rest of [s] after [p]. *)
Fixpoint strip_prefix (p s : string) : option string :=
  match p with
  | EmptyString => Some s
  | String a p' =>
      match s with
      | String b s' => if Ascii.eqb a b then strip_prefix p' s' else None
      | EmptyString => None
      end
  end.

(** The longest prefix of [s] whose characters satisfy [p], and the rest. *)
Fixpoint span (p : ascii -> bool) (s : string) : string * string :=
  match s with
  | EmptyString => (EmptyString, EmptyString)
  | String c r =>
      if p c then let (a, b) := span p r in (String c a, b)
      else (EmptyString, s)
  end.

(** A string is falsy exactly when it is empty. *)
Definition nonempty (s : string) : bool :=
  match s with EmptyString => false | String _ _ => true end.

(** Decimal rendering of an integer, as a template literal prints a number
    of magnitude below 10^21 (from there on JavaScript prints an exponent). *)
Definition of_Z (z : Z) : string := NilZero.string_of_int (Z.to_int z).

End JsString.

Import JsString.

(** ** Field clean-up: [normalizeSlug] *)

(** [.replace(/_/g, '-')] *)
Definition replace_underscores (s : string) : string :=
  map_chars (fun c => if Ascii.eqb c "_" then "-"%char else c) s.

(** [.replace(/[^a-z0-9-]/g, '-')] *)
Definition replace_non_kebab (s : string) : string :=
  map_chars (fun c => if is_kebab_char c then c else "-"%char) s.

(** [.replace(/-+/g, '-')]: of a run of hyphens only the last one is kept. *)
Fixpoint collapse_hyphens (s : string) : string :=
  match s with
  | EmptyString => EmptyString
  | String c r =>
      if is_hyphen c then
        match r with
        | String c' _ => if is_hyphen c' then collapse_hyphens r
                         else String c (collapse_hyphens r)
        | EmptyString => String c EmptyString
        end
      else String c (collapse_hyphens r)
  end.

(** The [-$] alternative of [/^-|-$/g] on what follows index 0: a hyphen
    that is the last character is removed. *)
Fixpoint strip_trailing_hyphen (s : string) : string :=
  match s with
  | EmptyString => EmptyString
  | String c r =>
      match r with
      | EmptyString => if is_hyphen c then EmptyString else s
      | String _ _ => String c (strip_trailing_hyphen r)
      end
  end.

(** [.replace(/^-|-$/g, '')].  The scan is left to right: at index 0 the
    first alternative is tried first, and a one-character string ["-"] is
    consumed by it, so the second alternative only ever sees later indices. *)
Definition strip_edge_hyphens (s : string) : string :=
  match s with
  | String c r =>
      if is_hyphen c then strip_trailing_hyphen r
      else String c (strip_trailing_hyphen r)
  | EmptyString => EmptyString
  end.

Definition normalizeSlug (slug : string) : string :=
  strip_edge_hyphens
    (collapse_hyphens (replace_non_kebab (replace_underscores slug))).

(** ** SHA-256 (FIPS 180-4), the digest behind [crypto.createHash('sha256')] *)

Module Sha256.

Local Open Scope Z_scope.

Definition wrap32 (x : Z) : Z := x mod 2 ^ 32.
Definition add32 (x y : Z) : Z := wrap32 (x + y).
Definition not32 (x : Z) : Z := Z.lxor x 4294967295.
Definition rotr (n x : Z) : Z :=
  Z.lor (Z.shiftr x n) (wrap32 (Z.shiftl x (32 - n))).

Definition Ch (x y z : Z) : Z := Z.lxor (Z.land x y) (Z.land (not32 x) z).
Definition Maj (x y z : Z) : Z :=
  Z.lxor (Z.lxor (Z.land x y) (Z.land x z)) (Z.land y z).
Definition Sigma0 (x : Z) : Z := Z.lxor (Z.lxor (rotr 2 x) (rotr 13 x)) (rotr 22 x).
Definition Sigma1 (x : Z) : Z := Z.lxor (Z.lxor (rotr 6 x) (rotr 11 x)) (rotr 25 x).
Definition sigma0 (x : Z) : Z := Z.lxor (Z.lxor (rotr 7 x) (rotr 18 x)) (Z.shiftr x 3).
Definition sigma1 (x : Z) : Z := Z.lxor (Z.lxor (rotr 17 x) (rotr 19 x)) (Z.shiftr x 10).

Definition primes : list Z :=
  [ 2; 3; 5; 7; 11; 13; 17; 19; 23; 29; 31; 37; 41; 43; 47; 53; 59; 61; 67; 71;
    73; 79; 83; 89; 97; 101; 103; 107; 109; 113; 127; 131; 137; 139; 149; 151;
    157; 163; 167; 173; 179; 181; 191; 193; 197; 199; 211; 223; 227; 229; 233;
    239; 241; 251; 257; 263; 269; 271; 277; 281; 283; 293; 307; 311 ].

(** The round constants: the first thirty-two bits of the fractional parts
    of the cube roots of the first sixty-four primes, in decimal. *)
Definition K : list Z :=
  [
    1116352408; 1899447441; 3049323471; 3921009573; 961987163; 1508970993;
    2453635748; 2870763221; 3624381080; 310598401; 607225278; 1426881987;
    1925078388; 2162078206; 2614888103; 3248222580; 3835390401; 4022224774;
    264347078; 604807628; 770255983; 1249150122; 1555081692; 1996064986;
    2554220882; 2821834349; 2952996808; 3210313671; 3336571891; 3584528711;
    113926993; 338241895; 666307205; 773529912; 1294757372; 1396182291;
    1695183700; 1986661051; 2177026350; 2456956037; 2730485921; 2820302411;
    3259730800; 3345764771; 3516065817; 3600352804; 4094571909; 275423344;
    430227734; 506948616; 659060556; 883997877; 958139571; 1322822218;
    1537002063; 1747873779; 1955562222; 2024104815; 2227730452; 2361852424;
    2428436474; 2756734187; 3204031479; 3329325298 ].

(** The eight working words [a .. h]. *)
Definition state : Type := (Z * Z * Z * Z * Z * Z * Z * Z)%type.

(** The initial hash value: the first thirty-two bits of the fractional
    parts of the square roots of the first eight primes, in decimal. *)
Definition H_init : state :=
  (1779033703, 3144134277, 1013904242, 2773480762,
   1359893119, 2600822924, 528734635, 1541459225).

(** [k] is the fraction word of the [n]-th root of [p]: for some integer
    part [i] below 8, [i * 2^32 + k] is the floor of the root of
    [p * 2^(32 n)]. *)
Definition is_root_fraction (n : Z) (p k : Z) : bool :=
  existsb (fun i => let r := i * 2 ^ 32 + k in
                    (r ^ n <=? p * 2 ^ (32 * n)) && (p * 2 ^ (32 * n) <? (r + 1) ^ n))%bool
          [1; 2; 3; 4; 5; 6; 7].

(** Padding: a [0x80] byte, zero bytes up to 56 modulo 64, and the bit
    length of the message as a 64-bit big-endian integer. *)
Definition be_bytes (n : nat) (x : Z) : list Z :=
  map (fun i => (Z.shiftr x (8 * Z.of_nat i)) mod 256) (rev (seq 0 n)).

Definition pad (msg : list Z) : list Z :=
  let len := Z.of_nat (List.length msg) in
  let zeros := Z.to_nat ((55 - len) mod 64) in
  (msg ++ [128] ++ repeat 0 zeros ++ be_bytes 8 (8 * len))%list.

Fixpoint words_of_bytes (bs : list Z) : list Z :=
  match bs with
  | b0 :: b1 :: b2 :: b3 :: r =>
      (b0 * 16777216 + b1 * 65536 + b2 * 256 + b3) :: words_of_bytes r
  | _ => []
  end.

(** Message schedule, grown from the sixteen block words; [recent] holds
    the words computed so far, newest first. *)
Fixpoint schedule (n : nat) (recent : list Z) : list Z :=
  match n with
  | O => rev recent
  | S n' =>
      let w := add32 (add32 (add32 (sigma1 (nth 1 recent 0)) (nth 6 recent 0))
                            (sigma0 (nth 14 recent 0)))
                     (nth 15 recent 0) in
      schedule n' (w :: recent)
  end.

Definition round (s : state) (kw : Z * Z) : state :=
  let '(a, b, c, d, e, f, g, h) := s in
  let t1 := add32 (add32 (add32 (add32 h (Sigma1 e)) (Ch e f g)) (fst kw)) (snd kw) in
  let t2 := add32 (Sigma0 a) (Maj a b c) in
  (add32 t1 t2, a, b, c, add32 d t1, e, f, g).

Definition compress (s : state) (block : list Z) : state :=
  let W := schedule 48 (rev block) in
  let '(a, b, c, d, e, f, g, h) := fold_left round (combine K W) s in
  let '(a0, b0, c0, d0, e0, f0, g0, h0) := s in
  (add32 a0 a, add32 b0 b, add32 c0 c, add32 d0 d,
   add32 e0 e, add32 f0 f, add32 g0 g, add32 h0 h).

Fixpoint blocks (n : nat) (ws : list Z) (s : state) : state :=
  match n with
  | O => s
  | S n' => blocks n' (skipn 16 ws) (compress s (firstn 16 ws))
  end.

Definition digest_words (msg : list Z) : list Z :=
  let ws := words_of_bytes (pad msg) in
  let '(a, b, c, d, e, f, g, h) := blocks (List.length ws / 16) ws H_init in
  [a; b; c; d; e; f; g; h].

(** Lowercase hexadecimal, as [digest('hex')] prints it. *)
Definition hex_digit (n : Z) : ascii :=
  nth (Z.to_nat (n mod 16))
      (list_ascii_of_string "0123456789abcdef") "0"%char.

Definition hex32 (w : Z) : string :=
  string_of_list_ascii
    (map (fun i => hex_digit (Z.shiftr w (4 * Z.of_nat i))) (rev (seq 0 8))).

Definition hex (msg : list Z) : string :=
  String.concat "" (map hex32 (digest_words msg)).

(** The UTF-8 bytes of a string of code units below U+0100, which is how
    [hash.update(string)] reads its argument. *)
Definition utf8_char (c : ascii) : list Z :=
  let n := Z.of_N (N_of_ascii c) in
  if n <? 128 then [n]
  else [Z.lor 192 (Z.shiftr n 6); Z.lor 128 (Z.land n 63)].

Fixpoint utf8 (s : string) : list Z :=
  match s with
  | EmptyString => []
  | String c r => (utf8_char c ++ utf8 r)%list
  end.

End Sha256.

(** ** Identifier generator *)

Definition salt : string := "deepv-content-2025".

Definition generateUniqueId (stackoverflowId : string) : string :=
  let hashInput := salt ++ "-" ++ stackoverflowId in
  substring 0 8 (Sha256.hex (Sha256.utf8 hashInput)).

(** ** JavaScript values met by the converter *)

(** The value of a category or technology field.  Besides strings, a lookup
    [table[key]] in an object literal can return a member inherited from
    [Object.prototype] (for instance [table['constructor']] is the function
    [Object]); [JProto key] is that member. *)
Inductive jsv : Type :=
| JStr (s : string)
| JProto (key : string).

Definition objectPrototypeKeys : list string :=
  [ "constructor"; "__defineGetter__"; "__defineSetter__"; "hasOwnProperty";
    "__lookupGetter__"; "__lookupSetter__"; "isPrototypeOf";
    "propertyIsEnumerable"; "toString"; "valueOf"; "__proto__";
    "toLocaleString" ].

Definition jsv_eqb (a b : jsv) : bool :=
  match a, b with
  | JStr x, JStr y => String.eqb x y
  | JProto x, JProto y => String.eqb x y
  | _, _ => false
  end.

(** Truthiness: the empty string is falsy, functions and objects are truthy. *)
Definition truthy (v : jsv) : bool :=
  match v with
  | JStr s => nonempty s
  | JProto _ => true
  end.

(** [String(v)], as a template literal or a property key prints a value. *)
Definition to_string (v : jsv) : string :=
  match v with
  | JStr s => s
  | JProto key =>
      if String.eqb key "__proto__" then "[object Object]"
      else if String.eqb key "constructor" then "function Object() { [native code] }"
      else "function " ++ key ++ "() { [native code] }"
  end.

Definition opt_eqb {A : Type} (eqb : A -> A -> bool) (a b : option A) : bool :=
  match a, b with
  | Some x, Some y => eqb x y
  | None, None => true
  | _, _ => false
  end.

(** Truthiness of optional fields: [undefined] is falsy. *)
Definition truthy_str (v : option string) : bool :=
  match v with Some s => nonempty s | None => false end.

Definition truthy_jsv (v : option jsv) : bool :=
  match v with Some x => truthy x | None => false end.

(** A number is falsy when it is zero. *)
Definition truthy_num (v : option Z) : bool :=
  match v with Some n => negb (Z.eqb n 0) | None => false end.

(** An array is truthy, even when empty. *)
Definition truthy_arr {A : Type} (v : option (list A)) : bool :=
  match v with Some _ => true | None => false end.

(** [a || b] on optional strings. *)
Definition or_str (a b : option string) : option string :=
  if truthy_str a then a else b.

(** Template-literal rendering of optional fields. *)
Definition show_str (v : option string) : string :=
  match v with Some s => s | None => "undefined" end.

Definition show_jsv (v : option jsv) : string :=
  match v with Some x => to_string x | None => "undefined" end.

Definition show_num (v : option Z) : string :=
  match v with Some n => of_Z n | None => "undefined" end.

(** [table[key]] for an object literal [table]: own properties first, then
    the prototype chain. *)
Fixpoint own_property (table : list (string * string)) (key : string) : option string :=
  match table with
  | [] => None
  | (k, v) :: rest => if String.eqb k key then Some v else own_property rest key
  end.

Definition obj_lookup (table : list (string * string)) (key : string) : option jsv :=
  match own_property table key with
  | Some v => Some (JStr v)
  | None =>
      if existsb (String.eqb key) objectPrototypeKeys then Some (JProto key)
      else None
  end.

(** [table[key] || dflt] *)
Definition lookup_or (table : list (string * string)) (key : string) (dflt : jsv) : jsv :=
  match obj_lookup table key with
  | Some v => if truthy v then v else dflt
  | None => dflt
  end.

(** ** Taxonomy *)

(** One entry of [categories.json]: its [id] and the [id]s of its
    subcategories, in file order. *)
Record taxCategory : Type := mkTaxCategory {
  cat_id : string;
  cat_subcategories : list string
}.

(** [this.categories.categories] *)
Definition taxonomy : Type := list taxCategory.

Definition category_exists (cats : taxonomy) (c : jsv) : bool :=
  existsb (fun cat => jsv_eqb (JStr (cat_id cat)) c) cats.

(** ** Taxonomy resolver *)

(** [tagLower.includes(t)] *)
Definition includes (l : list string) (t : string) : bool := existsb (String.eqb t) l.

(** [tagLower.some(tag => signals.includes(tag))] *)
Definition some_tag_in (tagLower signals : list string) : bool :=
  existsb (fun tag => includes signals tag) tagLower.

Definition categoryMappings : list (string * string) :=
  [ ("programming", "programming-languages");
    ("devops", "system-devops");
    ("backend", "web-backend");
    ("frontend", "web-frontend");
    ("database", "databases");
    ("db", "databases") ].

Definition mapCategory (cats : taxonomy) (category : jsv)
    (subcategory : option string) (tags : list string) : jsv :=
  let renamed := lookup_or categoryMappings (to_string category) category in
  if (jsv_eqb category (JStr "programming") || negb (category_exists cats category))%bool
  then
    let tagLower := map toLowerCase tags in
    if some_tag_in tagLower
         ["sql"; "mysql"; "postgresql"; "mongodb"; "database"; "sql-server";
          "oracle"; "sqlite"]
    then JStr "databases"
    else if some_tag_in tagLower
         ["docker"; "kubernetes"; "aws"; "azure"; "gcp"; "linux"; "bash";
          "shell"; "devops"; "cloud"]
    then JStr "system-devops"
    else if some_tag_in tagLower
         ["javascript"; "react"; "vue"; "angular"; "css"; "html"; "frontend";
          "ui"; "web"]
    then JStr "web-frontend"
    else if some_tag_in tagLower ["android"; "ios"; "mobile"; "swift"; "kotlin"]
    then JStr "mobile"
    else renamed
  else renamed.

Definition mapSubcategory (category : jsv) (subcategory : option string)
    (tags : list string) : option string :=
  if opt_eqb String.eqb subcategory (Some "general") then
    let tagLower := map toLowerCase tags in
    if jsv_eqb category (JStr "databases") then
      if includes tagLower "sql-server" then Some "sql"
      else if includes tagLower "mysql" then Some "mysql"
      else if includes tagLower "postgresql" then Some "postgresql"
      else if includes tagLower "mongodb" then Some "mongodb"
      else Some "sql"
    else if jsv_eqb category (JStr "programming-languages") then
      if some_tag_in tagLower ["java"] then Some "java"
      else if some_tag_in tagLower ["python"] then Some "python"
      else if some_tag_in tagLower ["javascript"; "js"; "npm"; "node"] then Some "javascript"
      else if some_tag_in tagLower ["c#"; "csharp"] then Some "csharp"
      else if some_tag_in tagLower ["cpp"; "c++"] then Some "cpp"
      else if some_tag_in tagLower ["c"] then Some "c"
      else if some_tag_in tagLower ["go"; "golang"] then Some "go"
      else if some_tag_in tagLower ["php"] then Some "php"
      else if some_tag_in tagLower ["ruby"] then Some "ruby"
      else if some_tag_in tagLower ["rust"] then Some "rust"
      else Some "python"
    else if jsv_eqb category (JStr "system-devops") then
      if some_tag_in tagLower ["linux"; "bash"; "shell"] then Some "linux"
      else if some_tag_in tagLower ["docker"; "container"] then Some "containerization"
      else if some_tag_in tagLower ["aws"; "azure"; "gcp"; "cloud"] then Some "cloud"
      else if some_tag_in tagLower ["git"; "github"; "gitlab"] then Some "version-control"
      else Some "shell"
    else if jsv_eqb category (JStr "web-frontend") then
      if some_tag_in tagLower ["css"] then Some "css"
      else if some_tag_in tagLower ["html"] then Some "html"
      else Some "javascript"
    else subcategory
  else subcategory.

(** ** Technology label *)

Definition technologyMappings : list (string * string) :=
  [ ("javascript", "JavaScript"); ("js", "JavaScript"); ("python", "Python");
    ("py", "Python"); ("java", "Java"); ("sql", "SQL");
    ("sql-server", "SQL Server"); ("mysql", "MySQL");
    ("postgresql", "PostgreSQL"); ("mongodb", "MongoDB"); ("bash", "Bash");
    ("shell", "Shell"); ("linux", "Linux"); ("windows", "Windows");
    ("docker", "Docker"); ("aws", "AWS"); ("html", "HTML"); ("css", "CSS");
    ("react", "React"); ("node", "Node.js"); ("npm", "npm") ].

Fixpoint getTechnologyFromTags (tags : list string) : jsv :=
  match tags with
  | [] => JStr "Programming"
  | tag :: rest =>
      match obj_lookup technologyMappings (toLowerCase tag) with
      | Some tech => if truthy tech then tech else getTechnologyFromTags rest
      | None => getTechnologyFromTags rest
      end
  end.

(** ** Host built-ins *)

(** What the converter takes from the JavaScript runtime and this embedding
    does not compute.
    - [parseDate s]: [new Date(s)]; [None] when the date is invalid
      ([isNaN(date.getTime())]), otherwise [Some] of its [toISOString()].
    - [exceeds70 i m]: the double-precision test [i > m * 0.7].
    - [ratioAbove50 cb wc]: the double-precision test [cb / (wc / 100) > 50]. *)
Class Host : Type := {
  parseDate : string -> option string;
  exceeds70 : nat -> nat -> bool;
  ratioAbove50 : Z -> Z -> bool
}.

(** ** Field clean-up: titles and dates *)

(** [s.lastIndexOf(' ')], [None] for -1. *)
Fixpoint lastIndexOf_space (s : string) : option nat :=
  match s with
  | EmptyString => None
  | String c r =>
      match lastIndexOf_space r with
      | Some i => Some (S i)
      | None => if Ascii.eqb c " " then Some O else None
      end
  end.

(** [truncateTitle(title, maxLength = null)]; [None] is the default
    argument.  With no space in the cut title [lastIndexOf] is -1, which
    never exceeds [maxLength * 0.7]. *)
Definition truncateTitle `{Host} (title : string) (maxLength : option nat) : string :=
  match maxLength with
  | None => title
  | Some m =>
      if Nat.leb (String.length title) m then title
      else
        let truncated := substring 0 m title in
        match lastIndexOf_space truncated with
        | Some lastSpaceIndex =>
            if exceeds70 lastSpaceIndex m then substring 0 lastSpaceIndex truncated
            else truncated
        | None => truncated
        end
  end.

(** [formatISODate(dateString)] at the instant [now]; the argument is
    [undefined] when neither date field is set, and [new Date(undefined)] is
    an invalid date. *)
Definition formatISODate `{Host} (now : string) (dateString : option string) : string :=
  match dateString with
  | Some s => match parseDate s with Some iso => iso | None => now end
  | None => now
  end.

(** ** Records *)

Record QualityMetrics : Type := mkQualityMetrics {
  wordCount : option Z;
  codeBlocks : option Z
}.

(** The [metadata] object of an input file, and of a conversion result.
    Fields follow the documented input format: strings, an array of strings
    for [tags], numbers for [readTime] and the metrics. *)
Record Metadata : Type := mkMetadata {
  title : option string;
  slug : option string;
  uniqueId : option string;
  category : option jsv;
  subcategory : option string;
  description : option string;
  tags : option (list string);
  difficulty : option string;
  readTime : option Z;
  sourceStackOverflowId : option string;
  qualityMetrics : option QualityMetrics;
  technology : option string;
  publishedAt : option string;
  generatedAt : option string;
  featured : option bool;
  lastUpdated : option string;
  filename : option string
}.

(** A parsed input file [{ metadata, content }]. *)
Record JsonData : Type := mkJsonData {
  metadata : option Metadata;
  content : option string
}.

(** Assignments [meta.field = v]. *)
Definition set_category (v : option jsv) (m : Metadata) : Metadata :=
  mkMetadata (title m) (slug m) (uniqueId m) v (subcategory m) (description m)
    (tags m) (difficulty m) (readTime m) (sourceStackOverflowId m)
    (qualityMetrics m) (technology m) (publishedAt m) (generatedAt m)
    (featured m) (lastUpdated m) (filename m).

Definition set_subcategory (v : option string) (m : Metadata) : Metadata :=
  mkMetadata (title m) (slug m) (uniqueId m) (category m) v (description m)
    (tags m) (difficulty m) (readTime m) (sourceStackOverflowId m)
    (qualityMetrics m) (technology m) (publishedAt m) (generatedAt m)
    (featured m) (lastUpdated m) (filename m).

Definition set_uniqueId (v : option string) (m : Metadata) : Metadata :=
  mkMetadata (title m) (slug m) v (category m) (subcategory m) (description m)
    (tags m) (difficulty m) (readTime m) (sourceStackOverflowId m)
    (qualityMetrics m) (technology m) (publishedAt m) (generatedAt m)
    (featured m) (lastUpdated m) (filename m).

Definition set_title (v : option string) (m : Metadata) : Metadata :=
  mkMetadata v (slug m) (uniqueId m) (category m) (subcategory m) (description m)
    (tags m) (difficulty m) (readTime m) (sourceStackOverflowId m)
    (qualityMetrics m) (technology m) (publishedAt m) (generatedAt m)
    (featured m) (lastUpdated m) (filename m).

Definition set_slug (v : option string) (m : Metadata) : Metadata :=
  mkMetadata (title m) v (uniqueId m) (category m) (subcategory m) (description m)
    (tags m) (difficulty m) (readTime m) (sourceStackOverflowId m)
    (qualityMetrics m) (technology m) (publishedAt m) (generatedAt m)
    (featured m) (lastUpdated m) (filename m).

(** ** Record validator *)

(** Lines written to the console during validation.  The first four are
    informational, the last three are printed with a warning sign. *)
Inductive note : Type :=
| AutoMapCategory (before after : string)
| AutoMapSubcategory (before after : string)
| GeneratedUniqueId (id : string)
| CorrectedUniqueId (before after : string)
| NoCodeBlocks
| HighCodeRatio
| NoQualityMetrics.

Definition is_warning (n : note) : bool :=
  match n with
  | NoCodeBlocks | HighCodeRatio | NoQualityMetrics => true
  | _ => false
  end.

(** What a call leaves behind: the returned [errors] array, the console
    lines, and the input object after the in-place assignments. *)
Record Validation : Type := mkValidation {
  errors : list string;
  notes : list note;
  validated : JsonData
}.

(** The block under the comment "Auto-fix categories using smart mapping". *)
Definition autoFixCategories (cats : taxonomy) (meta : Metadata) : Metadata * list note :=
  match category meta, tags meta with
  | Some cat, Some tgs =>
      if truthy cat then
        let mappedCategory := mapCategory cats cat (subcategory meta) tgs in
        let mappedSubcategory := mapSubcategory mappedCategory (subcategory meta) tgs in
        let (meta1, notes1) :=
          if negb (jsv_eqb mappedCategory cat)
          then (set_category (Some mappedCategory) meta,
                [AutoMapCategory (to_string cat) (to_string mappedCategory)])
          else (meta, []) in
        let (meta2, notes2) :=
          if negb (opt_eqb String.eqb mappedSubcategory (subcategory meta1))
          then (set_subcategory mappedSubcategory meta1,
                [AutoMapSubcategory (show_str (subcategory meta1)) (show_str mappedSubcategory)])
          else (meta1, []) in
        (meta2, (notes1 ++ notes2)%list)
      else (meta, [])
  | _, _ => (meta, [])
  end.

(** The block under "Validate/generate unique ID using consistent algorithm". *)
Definition fixUniqueId (meta : Metadata) : Metadata * list note :=
  match sourceStackOverflowId meta with
  | Some sid =>
      if nonempty sid then
        let expectedUniqueId := generateUniqueId sid in
        if negb (truthy_str (uniqueId meta)) then
          (set_uniqueId (Some expectedUniqueId) meta, [GeneratedUniqueId expectedUniqueId])
        else if negb (opt_eqb String.eqb (uniqueId meta) (Some expectedUniqueId)) then
          (set_uniqueId (Some expectedUniqueId) meta,
           [CorrectedUniqueId (show_str (uniqueId meta)) expectedUniqueId])
        else (meta, [])
      else (meta, [])
  | None => (meta, [])
  end.

Definition requiredFields : list string :=
  [ "title"; "slug"; "uniqueId"; "category"; "subcategory";
    "description"; "tags"; "difficulty"; "readTime" ].

(** Truthiness of [meta[field]] for the required field names. *)
Definition field_truthy (meta : Metadata) (field : string) : bool :=
  if String.eqb field "title" then truthy_str (title meta)
  else if String.eqb field "slug" then truthy_str (slug meta)
  else if String.eqb field "uniqueId" then truthy_str (uniqueId meta)
  else if String.eqb field "category" then truthy_jsv (category meta)
  else if String.eqb field "subcategory" then truthy_str (subcategory meta)
  else if String.eqb field "description" then truthy_str (description meta)
  else if String.eqb field "tags" then truthy_arr (tags meta)
  else if String.eqb field "difficulty" then truthy_str (difficulty meta)
  else if String.eqb field "readTime" then truthy_num (readTime meta)
  else false.

Definition missing_field_error (field : string) : string :=
  "Missing required metadata field: " ++ field.

Definition requiredFieldErrors (meta : Metadata) : list string :=
  flat_map
    (fun field => if field_truthy meta field then [] else [missing_field_error field])
    requiredFields.

(** [/^[a-f0-9]{8}$/.test(s)] *)
Definition is_hex8 (s : string) : bool :=
  (Nat.eqb (String.length s) 8 && all_chars is_lower_hex s)%bool.

Definition formatErrors (meta : Metadata) : list string :=
  ((match uniqueId meta with
    | Some u => if (nonempty u && negb (is_hex8 u))%bool
                then ["uniqueId must be 8-character hex string"] else []
    | None => []
    end) ++
   (match difficulty meta with
    | Some d => if (nonempty d && negb (includes ["beginner"; "intermediate"; "advanced"] d))%bool
                then ["difficulty must be: beginner, intermediate, or advanced"] else []
    | None => []
    end) ++
   (match description meta with
    | Some d => if (nonempty d &&
                    (Nat.ltb (String.length d) 20 || Nat.ltb 200 (String.length d)))%bool
                then ["description must be 20-200 characters"] else []
    | None => []
    end))%list.

Definition categoryErrors (cats : taxonomy) (meta : Metadata) : list string :=
  match category meta with
  | Some c =>
      if truthy c then
        let categoryExists := category_exists cats c in
        ((if negb categoryExists then [("Invalid category: " ++ to_string c)%string] else []) ++
         (if (categoryExists && truthy_str (subcategory meta))%bool then
            match find (fun cat => jsv_eqb (JStr (cat_id cat)) c) cats with
            | Some found =>
                if negb (includes (cat_subcategories found) (show_str (subcategory meta)))
                then [("Invalid subcategory: " ++ show_str (subcategory meta)
                         ++ " for category: " ++ to_string c)%string]
                else []
            | None => []
            end
          else []))%list
      else []
  | None => []
  end.

Definition too_short_error : string := "Content appears too short (< 100 words)".

Definition qualityErrors (meta : Metadata) : list string :=
  match qualityMetrics meta with
  | Some metrics =>
      match wordCount metrics with
      | Some wc => if (negb (Z.eqb wc 0) && Z.ltb wc 100)%bool then [too_short_error] else []
      | None => []
      end
  | None => []
  end.

Definition qualityNotes `{Host} (meta : Metadata) : list note :=
  match qualityMetrics meta with
  | Some metrics =>
      ((match codeBlocks metrics with
        | Some cb => if (negb (Z.eqb cb 0) && Z.eqb cb 0)%bool then [NoCodeBlocks] else []
        | None => []
        end) ++
       (match wordCount metrics, codeBlocks metrics with
        | Some wc, Some cb =>
            if (negb (Z.eqb wc 0) && negb (Z.eqb cb 0) && ratioAbove50 cb wc)%bool
            then [HighCodeRatio] else []
        | _, _ => []
        end))%list
  | None => [NoQualityMetrics]
  end.

Definition validateJsonStructure `{Host} (cats : taxonomy) (jsonData : JsonData) : Validation :=
  let structural :=
    ((match metadata jsonData with None => ["Missing metadata object"] | Some _ => [] end) ++
     (if truthy_str (content jsonData) then [] else ["Missing content field"]))%list in
  match metadata jsonData with
  | Some meta0 =>
      let (meta1, notes1) := autoFixCategories cats meta0 in
      let (meta, notes2) := fixUniqueId meta1 in
      mkValidation
        (structural ++ requiredFieldErrors meta ++ formatErrors meta
           ++ categoryErrors cats meta ++ qualityErrors meta)%list
        (notes1 ++ notes2 ++ qualityNotes meta)%list
        (mkJsonData (Some meta) (content jsonData))
  | None => mkValidation structural [] jsonData
  end.

(** The caller's test [validationErrors.length > 0]. *)
Definition isValid (v : Validation) : bool :=
  match errors v with [] => true | _ :: _ => false end.

(** ** Document composer: body rewriting *)

Definition nl : string := String (ascii_of_nat 10) EmptyString.
Definition dquote : string := String (ascii_of_nat 34) EmptyString.
Definition backslash : string := String (ascii_of_nat 92) EmptyString.

(** [s.replace(/re/g, ...)] for a pattern that never matches the empty
    string.  [matcher s] tells whether the pattern matches at the head of
    [s]: then it gives the replacement text and the length of the match.
    The scan goes left to right and resumes after each match; [skip] counts
    the characters of the last match that are still to be passed over. *)
Fixpoint replace_all (matcher : string -> option (string * nat)) (skip : nat)
    (s : string) : string :=
  match s with
  | EmptyString => EmptyString
  | String c r =>
      match skip with
      | S k => replace_all matcher k r
      | O =>
          match matcher s with
          | Some (replacement, len) => replacement ++ replace_all matcher (pred len) r
          | None => String c (replace_all matcher O r)
          end
      end
  end.

Definition languageMappings : list (string * string) :=
  [ ("js", "javascript"); ("jsx", "jsx"); ("ts", "typescript"); ("tsx", "tsx");
    ("py", "python"); ("python3", "python"); ("sh", "bash"); ("shell", "bash");
    ("zsh", "bash"); ("cmd", "powershell"); ("yml", "yaml"); ("yaml", "yaml");
    ("dockerfile", "docker"); ("html", "html"); ("css", "css"); ("scss", "scss");
    ("sql", "sql"); ("json", "json"); ("xml", "xml"); ("md", "markdown");
    ("markdown", "markdown"); ("mermaid", "mermaid"); ("text", "text");
    ("plain", "text"); ("txt", "text"); ("output", "output");
    ("console", "output"); ("config", "config"); ("conf", "config") ].

Definition fence : string := "```".

(** [/```(\w+)/] at the head of [s], with the replacement the callback
    computes. *)
Definition match_fence (s : string) : option (string * nat) :=
  match strip_prefix fence s with
  | Some rest =>
      let (language, _) := span is_word_char rest in
      if nonempty language then
        let lower := toLowerCase language in
        let mappedLanguage := lookup_or languageMappings lower (JStr lower) in
        Some (fence ++ to_string mappedLanguage, 3 + String.length language)
      else None
  | None => None
  end.

Definition mermaidKeywords : list string :=
  [ "graph"; "flowchart"; "sequenceDiagram"; "classDiagram"; "gitgraph" ].

(** [/```\n(graph|flowchart|sequenceDiagram|classDiagram|gitgraph)/] at the
    head of [s], replaced by ['```mermaid\n$1']. *)
Definition match_mermaid (s : string) : option (string * nat) :=
  match strip_prefix (fence ++ nl) s with
  | Some rest =>
      match find (fun kw => prefix kw rest) mermaidKeywords with
      | Some kw => Some (fence ++ "mermaid" ++ nl ++ kw, 4 + String.length kw)
      | None => None
      end
  | None => None
  end.

Definition processCodeBlocks (content : string) : string :=
  let processedContent := replace_all match_fence 0 content in
  replace_all match_mermaid 0 processedContent.

(** [/!\[([^\]]+)\]\((?!PLACEHOLDER:)([^)]+)\)/] at the head of [s],
    replaced by ['![$1](PLACEHOLDER: $1 - $2)'].  Each group is a run of
    characters that excludes the delimiter that must follow it, so only the
    longest run can match. *)
Definition match_image (s : string) : option (string * nat) :=
  match strip_prefix "![" s with
  | Some r0 =>
      let (alt, r1) := span (fun c => negb (Ascii.eqb c "]")) r0 in
      if nonempty alt then
        match strip_prefix "](" r1 with
        | Some r2 =>
            match strip_prefix "PLACEHOLDER:" r2 with
            | Some _ => None
            | None =>
                let (target, r3) := span (fun c => negb (Ascii.eqb c ")")) r2 in
                if nonempty target then
                  match strip_prefix ")" r3 with
                  | Some _ =>
                      Some ("![" ++ alt ++ "](PLACEHOLDER: " ++ alt ++ " - " ++ target ++ ")",
                            2 + String.length alt + 2 + String.length target + 1)
                  | None => None
                  end
                else None
            end
        | None => None
        end
      else None
  | None => None
  end.

Definition processImagePlaceholders (content : string) : string :=
  replace_all match_image 0 content.

(** ** Document composer: frontmatter and composition *)

(** [s.replace(/"/g, '\\"')] *)
Fixpoint escape_quotes (s : string) : string :=
  match s with
  | EmptyString => EmptyString
  | String c r =>
      if Ascii.eqb c (ascii_of_nat 34) then backslash ++ dquote ++ escape_quotes r
      else String c (escape_quotes r)
  end.

Definition hex4 (n : N) : string :=
  string_of_list_ascii
    (map (fun i => Sha256.hex_digit (Z.shiftr (Z.of_N n) (4 * Z.of_nat i))) (rev (seq 0 4))).

(** One code unit inside a JSON string literal, as [JSON.stringify] writes it. *)
Definition json_char (c : ascii) : string :=
  let n := code c in
  if N.eqb n 34 then backslash ++ dquote
  else if N.eqb n 92 then backslash ++ backslash
  else if N.eqb n 8 then backslash ++ "b"
  else if N.eqb n 12 then backslash ++ "f"
  else if N.eqb n 10 then backslash ++ "n"
  else if N.eqb n 13 then backslash ++ "r"
  else if N.eqb n 9 then backslash ++ "t"
  else if N.ltb n 32 then backslash ++ "u" ++ hex4 n
  else String c EmptyString.

Fixpoint json_chars (s : string) : string :=
  match s with
  | EmptyString => EmptyString
  | String c r => json_char c ++ json_chars r
  end.

(** [JSON.stringify(tags)]; [JSON.stringify(undefined)] is [undefined]. *)
Definition json_stringify_tags (tags : option (list string)) : string :=
  match tags with
  | Some l => "[" ++ String.concat "," (map (fun t => dquote ++ json_chars t ++ dquote) l) ++ "]"
  | None => "undefined"
  end.

(** [metadata.featured || false] *)
Definition featured_or_false (m : Metadata) : bool :=
  match featured m with Some b => b | None => false end.

Definition show_bool (b : bool) : string := if b then "true" else "false".

(** [generateMdxFrontmatter(metadata)] at the instant [now].  [None] stands
    for the [TypeError] of calling [.replace] on an absent title, slug or
    description. *)
Definition generateMdxFrontmatter `{Host} (now : string) (m : Metadata) : option string :=
  match title m, slug m, description m with
  | Some t, Some s, Some d =>
      let title := truncateTitle t None in
      let slug := normalizeSlug s in
      let lastUpdated := formatISODate now (or_str (generatedAt m) (publishedAt m)) in
      Some ("---" ++ nl ++
            "title: " ++ dquote ++ escape_quotes title ++ dquote ++ nl ++
            "slug: " ++ dquote ++ slug ++ dquote ++ nl ++
            "category: " ++ dquote ++ show_jsv (category m) ++ dquote ++ nl ++
            "subcategory: " ++ dquote ++ show_str (subcategory m) ++ dquote ++ nl ++
            "description: " ++ dquote ++ escape_quotes d ++ dquote ++ nl ++
            "tags: " ++ json_stringify_tags (tags m) ++ nl ++
            "difficulty: " ++ dquote ++ show_str (difficulty m) ++ dquote ++ nl ++
            "readTime: " ++ show_num (readTime m) ++ nl ++
            "lastUpdated: " ++ dquote ++ lastUpdated ++ dquote ++ nl ++
            "featured: " ++ show_bool (featured_or_false m) ++ nl ++
            "---" ++ nl ++ nl)
  | _, _, _ => None
  end.

(** What [convertJsonToMdx] leaves behind: the file name and the text
    written under [mdxOutputDir], the returned [metadata] object, and the
    input object after the in-place assignments to [title] and [slug]. *)
Record Conversion : Type := mkConversion {
  mdxFilename : string;
  mdxContent : string;
  result : Metadata;
  converted : JsonData
}.

(** [convertJsonToMdx(jsonData, filename)] at the instant [now], for a file
    whose write returns.  [None] stands for the [TypeError] of calling a
    string method on an absent [content], [title], [slug] or [description].
    The call of [fs.writeFileSync] can throw on its own; that answer of the
    file system is taken into account in [processFile] below. *)
Definition convertJsonToMdx `{Host} (now : string) (jsonData : JsonData) : option Conversion :=
  match metadata jsonData, content jsonData with
  | Some metadata0, Some content0 =>
      let content1 := processCodeBlocks content0 in
      let content2 := processImagePlaceholders content1 in
      match title metadata0, slug metadata0 with
      | Some t, Some s =>
          let metadata1 := set_title (Some (truncateTitle t None)) metadata0 in
          let metadata2 := set_slug (Some (normalizeSlug s)) metadata1 in
          let mdxFilename :=
            show_str (slug metadata2) ++ "-" ++ show_str (uniqueId metadata2) ++ ".mdx" in
          match generateMdxFrontmatter now metadata2 with
          | Some frontmatter =>
              Some (mkConversion mdxFilename (frontmatter ++ content2)
                      (mkMetadata (title metadata2) (slug metadata2) (uniqueId metadata2)
                         (category metadata2) (subcategory metadata2)
                         (description metadata2) (tags metadata2)
                         (difficulty metadata2) (readTime metadata2)
                         (sourceStackOverflowId metadata2) (qualityMetrics metadata2)
                         (technology metadata2) (publishedAt metadata2)
                         (generatedAt metadata2)
                         (Some (featured_or_false metadata2))
                         (Some (formatISODate now
                                  (or_str (generatedAt metadata2) (publishedAt metadata2))))
                         (Some mdxFilename))
                      (mkJsonData (Some metadata2) (content jsonData)))
          | None => None
          end
      | _, _ => None
      end
  | _, _ => None
  end.

(** ** Catalog: the article index *)

Module Article.

(** One element of the [articles] array of [article-index.json]. *)
Record t : Type := mk {
  id : option string;
  title : option string;
  slug : option string;
  category : option jsv;
  subcategory : option string;
  difficulty : option string;
  technology : option jsv;
  readTime : option Z;
  publishedAt : option string;
  featured : option bool;
  description : option string;
  tags : option (list string);
  filename : option string;
  lastUpdated : option string
}.

End Article.

Module Index.

(** The object [updateArticleIndex] writes to the staging index and returns. *)
Record t : Type := mk {
  lastUpdated : string;
  totalArticles : nat;
  categories : list (option jsv);
  technologies : list (option jsv);
  articles : list Article.t
}.

End Index.

(** [this.articleIndex.articles] as [loadArticleIndex] leaves it.  The
    argument is the [articles] array of the parsed index file, [None] when
    there is no readable index file. *)
Definition loadArticleIndex (fileArticles : option (list Article.t)) : list Article.t :=
  match fileArticles with
  | Some articles =>
      filter (fun article =>
                (truthy_str (Article.id article)
                 && truthy_jsv (Article.technology article)
                 && truthy_str (Article.publishedAt article))%bool)
             articles
  | None => []
  end.

(** [new Set(values)]: values are added one by one, a value that is already
    in the set is skipped, and iteration follows insertion order. *)
Definition set_add (s : list (option jsv)) (v : option jsv) : list (option jsv) :=
  if existsb (opt_eqb jsv_eqb v) s then s else (s ++ [v])%list.

Definition new_Set (values : list (option jsv)) : list (option jsv) :=
  fold_left set_add values [].

(** [Array.prototype.sort()] with no comparator: [undefined] elements go to
    the end, the others are ordered by the code units of their string
    conversion, and elements with equal strings keep their order. *)
Fixpoint sort_insert (x : jsv) (l : list jsv) : list jsv :=
  match l with
  | [] => [x]
  | y :: r =>
      if String.leb (to_string x) (to_string y) then x :: l
      else y :: sort_insert x r
  end.

Fixpoint sort_defined (l : list jsv) : list jsv :=
  match l with
  | [] => []
  | x :: r => sort_insert x (sort_defined r)
  end.

Fixpoint defined (l : list (option jsv)) : list jsv :=
  match l with
  | [] => []
  | Some v :: r => v :: defined r
  | None :: r => defined r
  end.

Definition is_undefined (v : option jsv) : bool :=
  match v with None => true | Some _ => false end.

Definition js_sort (l : list (option jsv)) : list (option jsv) :=
  (map Some (sort_defined (defined l)) ++ filter is_undefined l)%list.

(** The index entry built for one converted article.  [None] stands for
    the [TypeError] of iterating over an absent [tags] array in
    [getTechnologyFromTags]. *)
Definition indexEntry (now : string) (article : Conversion) : option Article.t :=
  let m := result article in
  let technology :=
    match technology m with
    | Some t => if nonempty t then Some (JStr t) else option_map getTechnologyFromTags (tags m)
    | None => option_map getTechnologyFromTags (tags m)
    end in
  match technology with
  | Some tech =>
      Some (Article.mk
              (uniqueId m) (title m) (slug m) (category m) (subcategory m)
              (difficulty m) (Some tech) (readTime m)
              (or_str (or_str (publishedAt m) (generatedAt m)) (Some now))
              (Some (featured_or_false m))
              (description m) (tags m)
              (Some (show_str (slug m) ++ "-" ++ show_str (uniqueId m) ++ ".mdx"))
              (or_str (generatedAt m) (Some now)))
  | None => None
  end.

(** [newArticles.map(article => ({ ... }))] *)
Fixpoint indexEntries (now : string) (newArticles : list Conversion) : option (list Article.t) :=
  match newArticles with
  | [] => Some []
  | article :: rest =>
      match indexEntry now article, indexEntries now rest with
      | Some e, Some es => Some (e :: es)
      | _, _ => None
      end
  end.

(** [updateArticleIndex(newArticles)] at the instant [now], where
    [existing] is [this.articleIndex.articles]. *)
Definition updateArticleIndex (now : string) (existing : list Article.t)
    (newArticles : list Conversion) : option Index.t :=
  let existingArticles :=
    filter (fun article =>
              negb (existsb (fun newArticle =>
                               opt_eqb String.eqb (slug (result newArticle))
                                       (Article.slug article))
                            newArticles))
           existing in
  match indexEntries now newArticles with
  | Some entries =>
      let updatedArticles := (existingArticles ++ entries)%list in
      let categories := js_sort (new_Set (map Article.category updatedArticles)) in
      let technologies :=
        js_sort (new_Set (filter truthy_jsv (map Article.technology updatedArticles))) in
      Some (Index.mk now (List.length updatedArticles) categories technologies updatedArticles)
  | None => None
  end.

(** ** The batch loop *)

(** The loop of [processJsonFiles] over the parsed input files in a run
    where every write returns, without its file moves: a file with
    validation errors is set aside, a valid one is converted (as validation
    left it) and pushed onto [successfulConversions]; a conversion that
    throws sets the file aside too.  The answers of the file system are
    taken into account in [processJsonFiles] below. *)
Definition successfulConversions `{Host} (cats : taxonomy) (now : string)
    (files : list JsonData) : list Conversion :=
  flat_map
    (fun jsonData =>
       let v := validateJsonStructure cats jsonData in
       if isValid v then
         match convertJsonToMdx now (validated v) with
         | Some c => [c]
         | None => []
         end
       else [])
    files.

(** ** The earlier converter

    [json-to-mdx-converter.js] is the converter before identifier generation,
    quality metrics and the index schema were added.  Its [normalizeSlug],
    [mapCategory] and [mapSubcategory] are the ones above; its validator and
    its index merge differ and are given here. *)

Module Legacy.

Definition validateJsonStructure (cats : taxonomy) (jsonData : JsonData) : Validation :=
  let structural :=
    ((match metadata jsonData with None => ["Missing metadata object"] | Some _ => [] end) ++
     (if truthy_str (content jsonData) then [] else ["Missing content field"]))%list in
  match metadata jsonData with
  | Some meta0 =>
      let (meta, notes1) := autoFixCategories cats meta0 in
      mkValidation
        (structural ++ requiredFieldErrors meta ++ formatErrors meta
           ++ categoryErrors cats meta)%list
        notes1
        (mkJsonData (Some meta) (content jsonData))
  | None => mkValidation structural [] jsonData
  end.

(** The index of the earlier converter keeps the [metadata] objects of the
    conversion results as they are. *)
Record index : Type := mkIndex {
  articles : list Metadata;
  lastUpdated : string;
  totalArticles : nat
}.

Definition updateArticleIndex (now : string) (existing : list Metadata)
    (newArticles : list Conversion) : index :=
  let existingArticles :=
    filter (fun article =>
              negb (existsb (fun newArticle =>
                               opt_eqb String.eqb (slug (result newArticle)) (slug article))
                            newArticles))
           existing in
  let updatedArticles := (existingArticles ++ map result newArticles)%list in
  mkIndex updatedArticles now (List.length updatedArticles).

End Legacy.

(** ** A host for closed evaluations

    [canonicalHost] answers for timestamps that are already in the form
    [toISOString] prints, with a day of the month that every month has; for
    these [new Date(s).toISOString()] is [s] itself.  The two numeric tests
    are answered in exact arithmetic, which is the double-precision answer
    unless rounding decides the comparison.  The theorems below hold for
    every host; this one only serves closed computations. *)

Definition two_digits (lo hi : nat) (a b : ascii) : bool :=
  (is_digit a && is_digit b &&
   let n := (nat_of_ascii a - 48) * 10 + (nat_of_ascii b - 48) in
   Nat.leb lo n && Nat.leb n hi)%bool.

Definition is_canonical_timestamp (s : string) : bool :=
  match list_ascii_of_string s with
  | [y1; y2; y3; y4; d1; m1; m2; d2; a1; a2; t; h1; h2; c1; n1; n2; c2; s1; s2;
     p; f1; f2; f3; z] =>
      (is_digit y1 && is_digit y2 && is_digit y3 && is_digit y4
       && Ascii.eqb d1 "-" && two_digits 1 12 m1 m2
       && Ascii.eqb d2 "-" && two_digits 1 28 a1 a2
       && Ascii.eqb t "T" && two_digits 0 23 h1 h2
       && Ascii.eqb c1 ":" && two_digits 0 59 n1 n2
       && Ascii.eqb c2 ":" && two_digits 0 59 s1 s2
       && Ascii.eqb p "." && is_digit f1 && is_digit f2 && is_digit f3
       && Ascii.eqb z "Z")%bool
  | _ => false
  end.

Definition canonicalHost : Host :=
  Build_Host
    (fun s => if is_canonical_timestamp s then Some s else None)
    (fun i m => Nat.ltb (7 * m) (10 * i))
    (fun cb wc => if Z.ltb 0 wc then Z.ltb wc (2 * cb) else Z.ltb (2 * cb) wc).

(** ** Vocabulary of the properties *)

(** *** Slugs *)

(** The maximal runs of characters [a-z0-9] of a string, left to right. *)
Fixpoint kebab_words (s : string) : list string :=
  match s with
  | EmptyString => []
  | String c r =>
      if is_lower_alnum c then
        match r with
        | String c' _ =>
            if is_lower_alnum c' then
              match kebab_words r with
              | w :: ws => String c w :: ws
              | [] => [String c EmptyString]
              end
            else String c EmptyString :: kebab_words r
        | EmptyString => [String c EmptyString]
        end
      else kebab_words r
  end.

(** Slug normalization as the specification words it, with the input
    lowercased before anything else. *)
Definition normalizeSlug_lowercasing (slug : string) : string :=
  normalizeSlug (toLowerCase slug).

(** Everything outside [a-z0-9] is a separator. *)
Definition separate (c : ascii) : ascii := if is_lower_alnum c then c else "-"%char.

(** The collapsed text without its leading hyphen. *)
Fixpoint slug_body (s : string) : string :=
  match s with
  | EmptyString => EmptyString
  | String c r =>
      if is_lower_alnum c then
        String c
          (match r with
           | String c' _ => if is_lower_alnum c' then slug_body r else "-" ++ slug_body r
           | EmptyString => EmptyString
           end)
      else slug_body r
  end.

(** The hyphen that the collapsed text starts with, if any. *)
Definition leading (s : string) : string :=
  match s with
  | String c _ => if is_lower_alnum c then "" else "-"
  | EmptyString => ""
  end.

(** A non-empty word of characters [a-z0-9]. *)
Definition slug_word (w : string) : Prop :=
  nonempty w = true /\ all_chars is_lower_alnum w = true.

(** *** Taxonomy *)

(** The tag-signal groups of [mapCategory] as an ordered table: the signals
    of a group and the category it stands for, in the order of the [if]s. *)
Definition tagSignalGroups : list (list string * string) :=
  [ (["sql"; "mysql"; "postgresql"; "mongodb"; "database"; "sql-server";
      "oracle"; "sqlite"], "databases");
    (["docker"; "kubernetes"; "aws"; "azure"; "gcp"; "linux"; "bash";
      "shell"; "devops"; "cloud"], "system-devops");
    (["javascript"; "react"; "vue"; "angular"; "css"; "html"; "frontend";
      "ui"; "web"], "web-frontend");
    (["android"; "ios"; "mobile"; "swift"; "kotlin"], "mobile") ].

(** The category of the first group, in table order, that one of the
    lowercased tags belongs to. *)
Definition first_signal (tagLower : list string) : option string :=
  option_map snd (find (fun g => some_tag_in tagLower (fst g)) tagSignalGroups).

(** *** Validation *)

(** All fields that validation never assigns. *)
Definition untouched (m m' : Metadata) : Prop :=
  title m' = title m /\ slug m' = slug m /\ description m' = description m
  /\ tags m' = tags m /\ difficulty m' = difficulty m /\ readTime m' = readTime m
  /\ sourceStackOverflowId m' = sourceStackOverflowId m
  /\ qualityMetrics m' = qualityMetrics m /\ technology m' = technology m
  /\ publishedAt m' = publishedAt m /\ generatedAt m' = generatedAt m
  /\ featured m' = featured m /\ lastUpdated m' = lastUpdated m
  /\ filename m' = filename m.

(** The input file [jsonData] with another title. *)
Definition with_title (t : string) (m : Metadata) (jsonData : JsonData) : JsonData :=
  mkJsonData (Some (set_title (Some t) m)) (content jsonData).

(** The category and subcategory that [autoFixCategories] leaves in the
    record: the mapped ones when both [category] and [tags] are truthy. *)
Definition mapped_category (cats : taxonomy) (m : Metadata) : option jsv :=
  match category m, tags m with
  | Some c, Some tgs =>
      if truthy c then Some (mapCategory cats c (subcategory m) tgs) else category m
  | _, _ => category m
  end.

Definition mapped_subcategory (cats : taxonomy) (m : Metadata) : option string :=
  match category m, tags m with
  | Some c, Some tgs =>
      if truthy c
      then mapSubcategory (mapCategory cats c (subcategory m) tgs) (subcategory m) tgs
      else subcategory m
  | _, _ => subcategory m
  end.

(** The identifier that [fixUniqueId] leaves in the record. *)
Definition fixed_uniqueId (m : Metadata) : option string :=
  match sourceStackOverflowId m with
  | Some sid => if nonempty sid then Some (generateUniqueId sid) else uniqueId m
  | None => uniqueId m
  end.

(** The record that [validateJsonStructure] checks and leaves behind. *)
Definition settled (cats : taxonomy) (m : Metadata) : Metadata :=
  fst (fixUniqueId (fst (autoFixCategories cats m))).

(** The first character of an error message is not [C].  Only the
    word-count message starts with that letter. *)
Definition not_C (e : string) : bool :=
  match e with
  | String c _ => negb (Ascii.eqb c "C")
  | EmptyString => true
  end.

(** *** Catalog *)


(** A conversion result from which [updateArticleIndex] can derive a
    technology label: it has one, or it has a [tags] array. *)
Definition labelled (c : Conversion) : Prop :=
  truthy_str (technology (result c)) = true \/ tags (result c) <> None.


(** The slugs of a batch of conversion results, in batch order. *)
Definition batch_slugs (batch : list Conversion) : list (option string) :=
  map (fun c => slug (result c)) batch.

(** ** Sample data for closed evaluations *)

Definition sampleTaxonomy : taxonomy :=
  [ mkTaxCategory "programming-languages" ["python"; "java"; "javascript"];
    mkTaxCategory "databases" ["sql"; "mysql"; "postgresql"; "mongodb"];
    mkTaxCategory "system-devops" ["linux"; "shell"; "cloud"];
    mkTaxCategory "web-frontend" ["javascript"; "css"; "html"];
    mkTaxCategory "mobile" ["android"; "ios"] ].

(** A record that passes every check once its category and subcategory are
    mapped and its identifier is generated from the source key 42. *)
Definition sampleMetadata : Metadata :=
  mkMetadata
    (Some "Reading files in Python")
    (Some "reading-files-in-python")
    None
    (Some (JStr "programming"))
    (Some "general")
    (Some "Read a text file line by line in Python with a context manager.")
    (Some ["python"; "files"])
    (Some "beginner")
    (Some 5%Z)
    (Some "42")
    (Some (mkQualityMetrics (Some 1200%Z) (Some 4%Z)))
    None None None None None None.

Definition sampleBody : string :=
  "Open the file with a context manager. ![Diagram](images/open.png)".

Definition sampleJson : JsonData := mkJsonData (Some sampleMetadata) (Some sampleBody).

(** The same record with an empty identifier. *)
Definition emptyIdJson : JsonData :=
  mkJsonData (Some (set_uniqueId (Some "") sampleMetadata)) (Some sampleBody).

(** The same record reporting fifty words. *)
Definition shortMetadata : Metadata :=
  mkMetadata
    (title sampleMetadata) (slug sampleMetadata) (uniqueId sampleMetadata)
    (category sampleMetadata) (subcategory sampleMetadata)
    (description sampleMetadata) (tags sampleMetadata) (difficulty sampleMetadata)
    (readTime sampleMetadata) (sourceStackOverflowId sampleMetadata)
    (Some (mkQualityMetrics (Some 50%Z) (Some 4%Z)))
    None None None None None None.

Definition shortJson : JsonData := mkJsonData (Some shortMetadata) (Some sampleBody).

(** The same record with the 167-character title of the schema update notes. *)
Definition longTitle : string :=
  "This is a Very Long Title That Would Have Been Truncated Under the Old Schema But Should Now Be Preserved Completely Because Google Indexes Entire Titles for SEO Value".

Definition longTitleJson : JsonData := with_title longTitle sampleMetadata sampleJson.

(** The sample record with a generation date, and two instants. *)
Definition datedMetadata : Metadata :=
  mkMetadata
    (title sampleMetadata) (Some "reading_files_in_python") (Some "20c31c35")
    (Some (JStr "programming-languages")) (Some "python")
    (description sampleMetadata) (tags sampleMetadata) (difficulty sampleMetadata)
    (readTime sampleMetadata) (sourceStackOverflowId sampleMetadata)
    (qualityMetrics sampleMetadata)
    None None (Some "2025-01-15T10:30:00.000Z") None None None.

Definition datedJson : JsonData := mkJsonData (Some datedMetadata) (Some sampleBody).

(** The sample record after validation, which carries no date. *)
Definition undatedJson : JsonData :=
  validated (@validateJsonStructure canonicalHost sampleTaxonomy sampleJson).

Definition monday : string := "2025-03-03T09:00:00.000Z".
Definition tuesday : string := "2025-03-04T09:00:00.000Z".

(** A second input file about the same article: another source key and
    title, and a slug that is the first one already normalized. *)
Definition revisedMetadata : Metadata :=
  mkMetadata
    (Some "Reading files in Python, revisited")
    (Some "reading-files-in-python")
    None
    (Some (JStr "programming-languages")) (Some "python")
    (description sampleMetadata) (tags sampleMetadata) (difficulty sampleMetadata)
    (readTime sampleMetadata) (Some "43") (qualityMetrics sampleMetadata)
    None None (Some "2025-02-20T08:00:00.000Z") None None None.

Definition revisedJson : JsonData := mkJsonData (Some revisedMetadata) (Some sampleBody).

(** The batch that one run over the two files hands to [updateArticleIndex]. *)
Definition duplicateBatch : list Conversion :=
  @successfulConversions canonicalHost sampleTaxonomy monday [datedJson; revisedJson].

(** An index file with one article, on another subject. *)
Definition sampleArticle : Article.t :=
  Article.mk (Some "0a1b2c3d") (Some "Joins in MySQL") (Some "joins-in-mysql")
    (Some (JStr "databases")) (Some "mysql") (Some "intermediate")
    (Some (JStr "MySQL")) (Some 8%Z) (Some "2025-01-02T00:00:00.000Z") (Some false)
    (Some "Inner, left and right joins in MySQL, with examples.")
    (Some ["mysql"; "sql"]) (Some "joins-in-mysql-0a1b2c3d.mdx")
    (Some "2025-01-02T00:00:00.000Z").

Definition sampleBatch : list Conversion :=
  @successfulConversions canonicalHost sampleTaxonomy monday [datedJson].


(** ** Vocabulary of the further properties *)

(** The subcategories that [mapSubcategory] can put in the place of
    [general], per category, in the order of its [if]s. *)
Definition specificSubcategories : list (string * list string) :=
  [ ("databases", ["sql"; "mysql"; "postgresql"; "mongodb"]);
    ("programming-languages",
     ["java"; "python"; "javascript"; "csharp"; "cpp"; "c"; "go"; "php"; "ruby"; "rust"]);
    ("system-devops", ["linux"; "containerization"; "cloud"; "version-control"; "shell"]);
    ("web-frontend", ["css"; "html"; "javascript"]) ].

(** A tag that [technologyMappings] has no entry for, own or inherited. *)
Definition unknown_technology (tag : string) : Prop :=
  obj_lookup technologyMappings (toLowerCase tag) = None.

(** The language a fence is relabelled with:
    [languageMappings[language.toLowerCase()] || language.toLowerCase()]. *)
Definition mappedLanguage (language : string) : jsv :=
  lookup_or languageMappings (toLowerCase language) (JStr (toLowerCase language)).

(** What a canonical language name is: a non-empty lower-case word that is
    no member of [Object.prototype] and that the table maps to itself. *)
Definition canonical_language (name : string) : bool :=
  (nonempty name && all_chars is_word_char name
   && String.eqb (toLowerCase name) name
   && negb (existsb (String.eqb name) objectPrototypeKeys)
   && jsv_eqb (mappedLanguage name) (JStr name))%bool.

(** A taxonomy whose categories the rename table keeps: apart from
    [programming], [categoryMappings[id] || id] is [id] for every category
    [id]. *)
Definition stable_taxonomy (cats : taxonomy) : bool :=
  forallb
    (fun cat =>
       String.eqb (cat_id cat) "programming"
       || jsv_eqb (lookup_or categoryMappings (cat_id cat) (JStr (cat_id cat)))
                  (JStr (cat_id cat)))%bool
    cats.

(** A taxonomy that still has the old name [devops], and a record filed
    under it. *)
Definition oldTaxonomy : taxonomy :=
  [ mkTaxCategory "devops" ["shell"]; mkTaxCategory "databases" ["sql"] ].

Definition oldNameMetadata : Metadata :=
  mkMetadata
    (Some "Dump a table from the shell")
    (Some "dump-a-table-from-the-shell")
    None
    (Some (JStr "devops"))
    (Some "shell")
    (Some "Dump one table of a database to a file from a shell script.")
    (Some ["sql"])
    (Some "beginner")
    (Some 5%Z)
    (Some "43")
    None None None None None None None.

Definition oldNameJson : JsonData := mkJsonData (Some oldNameMetadata) (Some sampleBody).

(** ** The format adapter

    [convert-format.js] turns a file of the newer upstream format, with the
    frontmatter fields at the root, into the [{ metadata, content }] form
    the converter reads.  The adapted file goes through [JSON.stringify], so
    a property that was never assigned is absent.  [votes] is copied too;
    the converter has no use for it and [Metadata] has no such field.  The
    [originalFormat] object of the adapted file, which keeps [generated_at],
    [word_count] and [code_blocks] among others, is never read by the
    converter. *)

Module Upstream.

(** The root object of an upstream file, as far as the adapter reads it. *)
Record t : Type := mk {
  title : option string;
  slug : option string;
  id : option string;
  category : option string;
  subcategory : option string;
  description : option string;
  tags : option (list string);
  difficulty : option string;
  readTime : option Z;
  lastUpdated : option string;
  stackoverflow_id : option string;
  featured : option bool;
  content : option string;
  generated_at : option string;
  word_count : option Z;
  code_blocks : option Z
}.

End Upstream.

Definition convertFormat (data : Upstream.t) : JsonData :=
  let metadata :=
    mkMetadata
      (Upstream.title data) (Upstream.slug data) (Upstream.id data)
      (option_map JStr (Upstream.category data)) (Upstream.subcategory data)
      (Upstream.description data) (Upstream.tags data) (Upstream.difficulty data)
      (Upstream.readTime data)
      (if truthy_str (Upstream.stackoverflow_id data)
       then Upstream.stackoverflow_id data else None)
      None None None None
      (match Upstream.featured data with Some true => Some true | _ => None end)
      (Upstream.lastUpdated data)
      None in
  mkJsonData (Some metadata) (Upstream.content data).

(** An upstream file that reports fifty words and brings its own dates. *)
Definition sampleUpstream : Upstream.t :=
  Upstream.mk
    (Some "Reading files in Python")
    (Some "reading-files-in-python")
    None
    (Some "programming")
    (Some "general")
    (Some "Read a text file line by line in Python with a context manager.")
    (Some ["python"; "files"])
    (Some "beginner")
    (Some 5%Z)
    (Some "2024-06-01T00:00:00.000Z")
    (Some "42")
    None
    (Some sampleBody)
    (Some "2024-06-01T00:00:00.000Z")
    (Some 50%Z)
    (Some 4%Z).

(** ** The earlier composer

    The composer of [json-to-mdx-converter.js]: titles are cut at 70
    characters by default, the body is written as it is, and the returned
    [metadata] object has no [uniqueId], [technology], [publishedAt] or
    [generatedAt]. *)

Module Earlier.

(** [truncateTitle(title, maxLength = 70)] *)
Definition truncateTitle `{Host} (title : string) (maxLength : option nat) : string :=
  let maxLength := match maxLength with Some m => m | None => 70 end in
  if Nat.leb (String.length title) maxLength then title
  else
    let truncated := substring 0 maxLength title in
    match lastIndexOf_space truncated with
    | Some lastSpaceIndex =>
        if exceeds70 lastSpaceIndex maxLength then substring 0 lastSpaceIndex truncated
        else truncated
    | None => truncated
    end.

Definition generateMdxFrontmatter `{Host} (now : string) (m : Metadata) : option string :=
  match title m, slug m, description m with
  | Some t, Some s, Some d =>
      let title := truncateTitle t None in
      let slug := normalizeSlug s in
      let lastUpdated := formatISODate now (or_str (generatedAt m) (publishedAt m)) in
      Some (String.concat nl
              [ "---";
                "title: " ++ dquote ++ escape_quotes title ++ dquote;
                "slug: " ++ dquote ++ slug ++ dquote;
                "category: " ++ dquote ++ show_jsv (category m) ++ dquote;
                "subcategory: " ++ dquote ++ show_str (subcategory m) ++ dquote;
                "description: " ++ dquote ++ escape_quotes d ++ dquote;
                "tags: " ++ json_stringify_tags (tags m);
                "difficulty: " ++ dquote ++ show_str (difficulty m) ++ dquote;
                "readTime: " ++ show_num (readTime m);
                "lastUpdated: " ++ dquote ++ lastUpdated ++ dquote;
                "featured: " ++ show_bool (featured_or_false m);
                "---"; ""; "" ])
  | _, _, _ => None
  end.

(** [None] stands for the [TypeError] of reading a field of an absent
    [metadata] or of measuring an absent title; an absent [content] is
    written as [undefined]. *)
Definition convertJsonToMdx `{Host} (now : string) (jsonData : JsonData) : option Conversion :=
  match metadata jsonData with
  | Some metadata0 =>
      match title metadata0, slug metadata0 with
      | Some t, Some s =>
          let metadata1 := set_title (Some (truncateTitle t None)) metadata0 in
          let metadata2 := set_slug (Some (normalizeSlug s)) metadata1 in
          let mdxFilename :=
            show_str (slug metadata2) ++ "-" ++ show_str (uniqueId metadata2) ++ ".mdx" in
          match generateMdxFrontmatter now metadata2 with
          | Some frontmatter =>
              Some (mkConversion mdxFilename (frontmatter ++ show_str (content jsonData))
                      (mkMetadata (title metadata2) (slug metadata2) None
                         (category metadata2) (subcategory metadata2)
                         (description metadata2) (tags metadata2)
                         (difficulty metadata2) (readTime metadata2)
                         (sourceStackOverflowId metadata2) (qualityMetrics metadata2)
                         None None None
                         (Some (featured_or_false metadata2))
                         (Some (formatISODate now
                                  (or_str (generatedAt metadata2) (publishedAt metadata2))))
                         (Some mdxFilename))
                      (mkJsonData (Some metadata2) (content jsonData)))
          | None => None
          end
      | _, _ => None
      end
  | None => None
  end.

End Earlier.

(** What both composers write: the file name and the text. *)
Definition written (c : option Conversion) : option (string * string) :=
  option_map (fun c => (mdxFilename c, mdxContent c)) c.

(** ** Input files *)

(** [s.endsWith(suffix)] *)
Definition endsWith (s suffix : string) : bool :=
  let n := String.length s in
  let k := String.length suffix in
  (Nat.leb k n && String.eqb (substring (n - k) k s) suffix)%bool.

(** The file names [processJsonFiles] picks from the input directory
    listing: JSON files that are neither metadata companions nor error
    logs. *)
Definition jsonFiles (listing : list string) : list string :=
  filter (fun file =>
            (endsWith file ".json"
             && negb (endsWith file ".metadata.json")
             && negb (endsWith file "_errors.json"))%bool)
         listing.


(** The sample record without a source key, under the identifier the key
    would give. *)
Definition keylessMetadata : Metadata :=
  mkMetadata
    (title sampleMetadata) (slug sampleMetadata) (Some "20c31c35")
    (category sampleMetadata) (subcategory sampleMetadata)
    (description sampleMetadata) (tags sampleMetadata) (difficulty sampleMetadata)
    (readTime sampleMetadata) None
    (Some (mkQualityMetrics (Some 50%Z) (Some 4%Z)))
    None None None None None None.

Definition keylessJson : JsonData := mkJsonData (Some keylessMetadata) (Some sampleBody).

(** ** The run on disk

    What [processJsonFiles] does with one input file depends on the file
    system: reading and parsing the file can throw, the write of the MDX
    file inside [convertJsonToMdx] can throw (a name too long for the file
    system, a full disk), and so can the write of the error log in
    [logError].  These answers are taken as given, one record for each pass
    of the loop.  [moveProcessedFile] catches what it throws.  As everywhere
    in this embedding the fields of a parsed file have the documented
    types. *)
Record fileRun : Type := mkFileRun {
  (** [JSON.parse(fs.readFileSync(filePath, 'utf8'))]; [None] when reading
      or parsing throws. *)
  parsed : option JsonData;
  (** whether [fs.writeFileSync(mdxPath, mdxContent, 'utf8')] returns *)
  mdxWritten : bool;
  (** whether the write of [logError] returns when the [try] block calls it *)
  errorsLogged : bool;
  (** whether the write of [logError] returns when the [catch] block calls it *)
  failureLogged : bool
}.

(** How a pass of the loop ends: the conversion is pushed onto
    [successfulConversions]; the file is set aside with its validation
    errors; the [catch] block sets it aside; or [logError] throws inside the
    [catch] block and the exception leaves the loop. *)
Inductive outcome : Type :=
| Converted (conversion : Conversion)
| ValidationFailed (validationErrors : list string)
| ProcessingFailed
| Aborted.

(** The callback of [jsonFiles.forEach]. *)
Definition processFile `{Host} (cats : taxonomy) (now : string) (f : fileRun) : outcome :=
  let caught := if failureLogged f then ProcessingFailed else Aborted in
  match parsed f with
  | Some jsonData =>
      let v := validateJsonStructure cats jsonData in
      if isValid v then
        match convertJsonToMdx now (validated v) with
        | Some conversion => if mdxWritten f then Converted conversion else caught
        | None => caught
        end
      else if errorsLogged f then ValidationFailed (errors v) else caught
  | None => caught
  end.

(** The loop of [processJsonFiles]: the array [successfulConversions] after
    the last file, [None] when an exception leaves the loop. *)
Fixpoint processJsonFiles `{Host} (cats : taxonomy) (now : string) (files : list fileRun)
    : option (list Conversion) :=
  match files with
  | [] => Some []
  | f :: rest =>
      match processFile cats now f with
      | Converted conversion => option_map (cons conversion) (processJsonFiles cats now rest)
      | Aborted => None
      | _ => processJsonFiles cats now rest
      end
  end.

(** A file that is read, passes validation and whose MDX file is written. *)
Definition converts `{Host} (cats : taxonomy) (f : fileRun) : bool :=
  match parsed f with
  | Some jsonData => (isValid (validateJsonStructure cats jsonData) && mdxWritten f)%bool
  | None => false
  end.

(** A pass in which the file is read and every write returns. *)
Definition undisturbed (jsonData : JsonData) : fileRun :=
  mkFileRun (Some jsonData) true true true.

(** A value that [JSON.stringify] writes and [JSON.parse] reads back as it
    was: a string, or a property that is absent.  A function is not written
    at all, and [Object.prototype] comes back as a new empty object. *)
Definition isJsonValue (v : option jsv) : bool :=
  match v with
  | Some (JProto _) => false
  | _ => true
  end.

(** An article that the index file holds as it is in memory: its category
    and technology are JSON values (its other fields always are). *)
Definition storedAsWritten (a : Article.t) : bool :=
  (isJsonValue (Article.category a) && isJsonValue (Article.technology a))%bool.

(** The sample record under a slug of three hundred characters, which
    passes validation and gives a file name longer than the 255 bytes that
    common file systems take; and the sample record with a first tag that
    names a method of [Object.prototype]. *)
Definition longSlugJson : JsonData :=
  mkJsonData
    (Some (set_slug (Some (String.concat "" (repeat "reading-files-in-python-" 12)
                             ++ "reading-file")) sampleMetadata))
    (Some sampleBody).

Definition methodTagMetadata : Metadata :=
  mkMetadata
    (title sampleMetadata) (slug sampleMetadata) (uniqueId sampleMetadata)
    (category sampleMetadata) (subcategory sampleMetadata)
    (description sampleMetadata) (Some ["constructor"; "python"])
    (difficulty sampleMetadata) (readTime sampleMetadata)
    (sourceStackOverflowId sampleMetadata) (qualityMetrics sampleMetadata)
    None None None None None None.

Definition methodTagJson : JsonData := mkJsonData (Some methodTagMetadata) (Some sampleBody).

(** What [JSON.parse] reads back of a category or technology that
    [JSON.stringify] wrote into the index file.  A string comes back as it
    was and an absent property stays absent; a function is not written, so
    the property is absent afterwards; [Object.prototype] is written as an
    empty object, which is truthy and prints as [[object Object]] as
    [Object.prototype] does, and is kept here under that value. *)
Definition reloadedValue (v : option jsv) : option jsv :=
  match v with
  | Some (JProto key) => if String.eqb key "__proto__" then v else None
  | _ => v
  end.

(** An article of the index file after [JSON.stringify] and [JSON.parse].
    Strings, numbers, booleans and arrays of strings come back as they
    were. *)
Definition reloaded (a : Article.t) : Article.t :=
  Article.mk
    (Article.id a) (Article.title a) (Article.slug a)
    (reloadedValue (Article.category a)) (Article.subcategory a)
    (Article.difficulty a) (reloadedValue (Article.technology a))
    (Article.readTime a) (Article.publishedAt a) (Article.featured a)
    (Article.description a) (Article.tags a) (Article.filename a)
    (Article.lastUpdated a).

(* ================================================================== *)
(** * Part II: properties                                              *)
(* ================================================================== *)

(** ** Strings *)

Lemma append_empty_r (s : string) : s ++ "" = s.
Proof. induction s as [|c s IH]; simpl; [reflexivity | now rewrite IH]. Qed.

Lemma append_assoc (a b c : string) : (a ++ b) ++ c = a ++ (b ++ c).
Proof. induction a as [|x a IH]; simpl; [reflexivity | now rewrite IH]. Qed.

Lemma length_append (a b : string) :
  String.length (a ++ b) = String.length a + String.length b.
Proof. induction a as [|x a IH]; simpl; [reflexivity | now rewrite IH]. Qed.

Lemma substring_all_prefix (a b : string) :
  substring 0 (String.length a) (a ++ b) = a.
Proof. induction a as [|x a IH]; simpl; [now destruct b | now rewrite IH]. Qed.

Lemma all_chars_append (p : ascii -> bool) (a b : string) :
  all_chars p (a ++ b) = (all_chars p a && all_chars p b)%bool.
Proof.
  induction a as [|x a IH]; simpl; [reflexivity|].
  now rewrite IH, andb_assoc.
Qed.

(** ** Identifier generator *)

Section Identifier.

Local Open Scope Z_scope.

Lemma hex_digit_lower_hex (n : Z) : is_lower_hex (Sha256.hex_digit n) = true.
Proof.
  unfold Sha256.hex_digit.
  assert (Hlt : (Z.to_nat (n mod 16) < 16)%nat).
  { pose proof (Z.mod_pos_bound n 16 ltac:(lia)). lia. }
  generalize dependent (Z.to_nat (n mod 16)). intros k Hlt.
  do 16 (destruct k as [|k]; [reflexivity|]). lia.
Qed.

Lemma hex32_length (w : Z) : String.length (Sha256.hex32 w) = 8%nat.
Proof. reflexivity. Qed.

Lemma hex32_lower_hex (w : Z) : all_chars is_lower_hex (Sha256.hex32 w) = true.
Proof.
  unfold Sha256.hex32. cbn [seq rev app map string_of_list_ascii all_chars].
  now rewrite !hex_digit_lower_hex.
Qed.

(** The digest always has eight words, so its hexadecimal form starts with
    the eight digits of the first one. *)
Lemma hex_starts_with_first_word (msg : list Z) :
  exists w rest, Sha256.hex msg = Sha256.hex32 w ++ rest.
Proof.
  unfold Sha256.hex, Sha256.digest_words.
  destruct (Sha256.blocks _ _ _) as [[[[[[[a b] c] d] e] f] g] h].
  exists a. eexists. cbn [map String.concat]. reflexivity.
Qed.

End Identifier.

Section Digest.

Local Open Scope Z_scope.

(** The digest is sixty-four hexadecimal digits, eight for each word. *)
Lemma hex_first_word (msg : list Z) :
  exists w rest,
    Sha256.hex msg = (Sha256.hex32 w ++ rest)%string /\ String.length rest = 56%nat.
Proof.
  unfold Sha256.hex, Sha256.digest_words.
  destruct (Sha256.blocks _ _ _) as [[[[[[[a b] c] d] e] f] g] h].
  exists a. eexists. cbn [map String.concat]. split; [reflexivity|].
  rewrite !length_append, !hex32_length. reflexivity.
Qed.

Lemma be_bytes_length (n : nat) (x : Z) : List.length (Sha256.be_bytes n x) = n.
Proof. unfold Sha256.be_bytes. now rewrite length_map, length_rev, length_seq. Qed.

(** Padding fills whole blocks of sixty-four bytes and keeps the message
    in front. *)
Lemma pad_whole_blocks (msg : list Z) :
  Z.of_nat (List.length (Sha256.pad msg)) mod 64 = 0
  /\ firstn (List.length msg) (Sha256.pad msg) = msg.
Proof.
  unfold Sha256.pad. cbv zeta. split.
  - rewrite !length_app, repeat_length, be_bytes_length. cbn [List.length].
    set (len := Z.of_nat (List.length msg)).
    assert (Hz : 0 <= (55 - len) mod 64 < 64) by (apply Z.mod_pos_bound; lia).
    rewrite !Nat2Z.inj_add, Z2Nat.id by lia. fold len.
    change (Z.of_nat 1) with 1. change (Z.of_nat 8) with 8.
    pose proof (Z.div_mod (55 - len) 64 ltac:(lia)) as Hdiv.
    replace (len + (1 + ((55 - len) mod 64 + 8)))
      with ((1 - (55 - len) / 64) * 64) by lia.
    apply Z.mod_mul. lia.
  - rewrite firstn_app, Nat.sub_diag, firstn_all. cbn [firstn]. now rewrite app_nil_r.
Qed.

End Digest.

(** C8.  [generateUniqueId] is a function of its key alone.  The message
    hashed is the UTF-8 form of the salt, a hyphen and the key; it is
    padded to whole blocks of sixty-four bytes; the identifier is the first
    eight of the sixty-four lowercase hexadecimal digits of its digest, so
    it always has eight characters, all in [0-9a-f], and passes the
    validator's identifier pattern; equal keys give equal identifiers.  The
    digest is SHA-256: it gives the digests that FIPS 180-4 lists for its
    one-block and two-block sample messages and for the empty message, and
    the identifiers it gives for the keys [42], [43] and the one-letter key
    U+00E9 are those of the SHA-256 of [deepv-content-2025-<key>]. *)
Theorem generateUniqueId_deterministic_hex8 :
  forall key : string,
    (exists rest,
        Sha256.hex (Sha256.utf8 ("deepv-content-2025" ++ "-" ++ key))
        = generateUniqueId key ++ rest
        /\ String.length rest = 56)
    /\ generateUniqueId key
       = substring 0 8 (Sha256.hex (Sha256.utf8 ("deepv-content-2025" ++ "-" ++ key)))
    /\ String.length (generateUniqueId key) = 8
    /\ all_chars is_lower_hex (generateUniqueId key) = true
    /\ is_hex8 (generateUniqueId key) = true
    /\ (forall key', key' = key -> generateUniqueId key' = generateUniqueId key)
    /\ (Z.of_nat (List.length
                    (Sha256.pad (Sha256.utf8 ("deepv-content-2025" ++ "-" ++ key)))) mod 64
        = 0)%Z
    /\ firstn (List.length (Sha256.utf8 ("deepv-content-2025" ++ "-" ++ key)))
              (Sha256.pad (Sha256.utf8 ("deepv-content-2025" ++ "-" ++ key)))
       = Sha256.utf8 ("deepv-content-2025" ++ "-" ++ key)
    /\ Sha256.hex (Sha256.utf8 "abc")
       = "ba7816bf8f01cfea414140de5dae2223b00361a396177a9cb410ff61f20015ad"
    /\ Sha256.hex (Sha256.utf8 "abcdbcdecdefdefgefghfghighijhijkijkljklmklmnlmnomnopnopq")
       = "248d6a61d20638b8e5c026930c3e6039a33ce45964ff2167f6ecedd419db06c1"
    /\ Sha256.hex (Sha256.utf8 "")
       = "e3b0c44298fc1c149afbf4c8996fb92427ae41e4649b934ca495991b7852b855"
    /\ generateUniqueId "42" = "20c31c35"
    /\ generateUniqueId "43" = "b87f99df"
    /\ generateUniqueId (String (ascii_of_nat 233) EmptyString) = "26dd80a9".
Proof.
  intro key.
  assert (Hw : exists w rest,
             Sha256.hex (Sha256.utf8 (salt ++ "-" ++ key)) = Sha256.hex32 w ++ rest
             /\ String.length rest = 56
             /\ generateUniqueId key = Sha256.hex32 w).
  { destruct (hex_first_word (Sha256.utf8 (salt ++ "-" ++ key))) as (w & rest & E & Hlen).
    exists w, rest. split; [exact E|]. split; [exact Hlen|].
    unfold generateUniqueId. cbv zeta. rewrite E.
    change 8 with (String.length (Sha256.hex32 w)) at 1.
    apply substring_all_prefix. }
  destruct Hw as (w & rest & E & Hlen & Hw).
  destruct (pad_whole_blocks (Sha256.utf8 (salt ++ "-" ++ key))) as [Hblocks Hfront].
  split; [exists rest; split; [rewrite Hw; exact E | exact Hlen]|].
  split; [reflexivity|].
  split; [rewrite Hw; apply hex32_length|].
  split; [rewrite Hw; apply hex32_lower_hex|].
  split; [unfold is_hex8; rewrite Hw, hex32_length, hex32_lower_hex; reflexivity|].
  split; [intros key' ->; reflexivity|].
  split; [exact Hblocks|].
  split; [exact Hfront|].
  split; [vm_compute; reflexivity|].
  split; [vm_compute; reflexivity|].
  split; [vm_compute; reflexivity|].
  split; [vm_compute; reflexivity|].
  split; vm_compute; reflexivity.
Qed.

Lemma generateUniqueId_deterministic_hex8_witness :
  Sha256.hex (Sha256.utf8 "deepv-content-2025-42")
  = "20c31c3501f19b530cddffa6eb2352c44feda9970a1cf600fd3ef8876d3c9ed2"
  /\ generateUniqueId "42" = "20c31c35"
  /\ is_hex8 (generateUniqueId "42") = true.
Proof.
  destruct (generateUniqueId_deterministic_hex8 "42")
    as (_ & _ & _ & _ & Hhex & _ & _ & _ & _ & _ & _ & H42 & _).
  split; [vm_compute; reflexivity|]. split; [exact H42 | exact Hhex].
Defined.

(** The constant tables are the ones FIPS 180-4 defines. *)
Example sha256_constants_are_root_fractions :
  forallb (fun pk => Sha256.is_root_fraction 3 (fst pk) (snd pk))
          (combine Sha256.primes Sha256.K) = true
  /\ List.length Sha256.K = 64
  /\ (let '(a, b, c, d, e, f, g, h) := Sha256.H_init in
      forallb (fun pk => Sha256.is_root_fraction 2 (fst pk) (snd pk))
              (combine Sha256.primes [a; b; c; d; e; f; g; h])) = true.
Proof. repeat split; vm_compute; reflexivity. Qed.

(** The identifier of source key 42, and two digests of FIPS 180-4. *)
Example generateUniqueId_42 : generateUniqueId "42" = "20c31c35".
Proof. vm_compute. reflexivity. Qed.

Example sha256_abc :
  Sha256.hex (Sha256.utf8 "abc")
  = "ba7816bf8f01cfea414140de5dae2223b00361a396177a9cb410ff61f20015ad".
Proof. vm_compute. reflexivity. Qed.

Example sha256_two_blocks :
  Sha256.hex (Sha256.utf8 "abcdbcdecdefdefgefghfghighijhijkijkljklmklmnlmnomnopnopq")
  = "248d6a61d20638b8e5c026930c3e6039a33ce45964ff2167f6ecedd419db06c1".
Proof. vm_compute. reflexivity. Qed.

(** ** Slug normalization *)

Section Slug.

Lemma replace_twice_char (c : ascii) :
  (let c1 := if Ascii.eqb c "_" then "-"%char else c in
   if is_kebab_char c1 then c1 else "-"%char) = separate c.
Proof. destruct c as [[] [] [] [] [] [] [] []]; reflexivity. Qed.

Lemma replace_passes (s : string) :
  replace_non_kebab (replace_underscores s) = map_chars separate s.
Proof.
  unfold replace_non_kebab, replace_underscores.
  induction s as [|c s IH]; simpl; [reflexivity|].
  rewrite IH. f_equal. apply replace_twice_char.
Qed.

Lemma separate_hyphen (c : ascii) : is_hyphen (separate c) = negb (is_lower_alnum c).
Proof. destruct c as [[] [] [] [] [] [] [] []]; reflexivity. Qed.

Lemma separate_alnum (c : ascii) : is_lower_alnum c = true -> separate c = c.
Proof. unfold separate. now intros ->. Qed.

Lemma separate_other (c : ascii) : is_lower_alnum c = false -> separate c = "-"%char.
Proof. unfold separate. now intros ->. Qed.

Lemma collapse_separated (s : string) :
  collapse_hyphens (map_chars separate s) = leading s ++ slug_body s.
Proof.
  induction s as [|c r IH]; [reflexivity|].
  cbn [map_chars collapse_hyphens leading slug_body].
  rewrite separate_hyphen.
  destruct (is_lower_alnum c) eqn:Ec; cbn [negb].
  - rewrite (separate_alnum _ Ec), IH. cbn [append]. f_equal.
    destruct r as [|c' r']; [reflexivity|].
    cbn [leading]. now destruct (is_lower_alnum c').
  - rewrite (separate_other _ Ec).
    destruct r as [|c' r']; [reflexivity|].
    cbn [map_chars]. rewrite separate_hyphen.
    cbn [map_chars] in IH. rewrite IH. cbn [leading].
    now destruct (is_lower_alnum c').
Qed.

Lemma alnum_not_hyphen (c : ascii) : is_lower_alnum c = true -> is_hyphen c = false.
Proof. destruct c as [[] [] [] [] [] [] [] []]; (reflexivity || discriminate). Qed.

Lemma slug_body_head (s : string) :
  match slug_body s with
  | String c _ => is_lower_alnum c = true
  | EmptyString => True
  end.
Proof.
  induction s as [|c r IH]; [exact I|].
  cbn [slug_body]. destruct (is_lower_alnum c) eqn:Ec; [exact Ec | exact IH].
Qed.

Lemma strip_edge_body (s : string) :
  strip_edge_hyphens (leading s ++ slug_body s) = strip_trailing_hyphen (slug_body s).
Proof.
  assert (Hb : forall t, match t with String c _ => is_lower_alnum c = true | _ => True end ->
                         strip_edge_hyphens t = strip_trailing_hyphen t).
  { intros [|c t] Ht; [reflexivity|].
    cbn [strip_edge_hyphens strip_trailing_hyphen].
    rewrite (alnum_not_hyphen _ Ht). now destruct t. }
  destruct s as [|c r]; [reflexivity|].
  cbn [leading]. destruct (is_lower_alnum c) eqn:Ec.
  - cbn [append]. apply Hb, slug_body_head.
  - reflexivity.
Qed.

Lemma kebab_words_head (c : ascii) (r : string) :
  is_lower_alnum c = true -> kebab_words (String c r) <> [].
Proof.
  intros Ec. cbn [kebab_words]. rewrite Ec.
  destruct r as [|c' r']; [discriminate|].
  destruct (is_lower_alnum c'); [|discriminate].
  destruct (kebab_words (String c' r')); discriminate.
Qed.

Lemma slug_body_empty (s : string) : slug_body s = "" <-> kebab_words s = [].
Proof.
  induction s as [|c r IH]; [tauto|].
  destruct (is_lower_alnum c) eqn:Ec.
  - split; intro H.
    + cbn [slug_body] in H. rewrite Ec in H. discriminate.
    + exfalso. exact (kebab_words_head c r Ec H).
  - cbn [slug_body kebab_words]. rewrite Ec. exact IH.
Qed.

Lemma concat_cons_char (c : ascii) (w : string) (ws : list string) :
  String.concat "-" (String c w :: ws) = String c (String.concat "-" (w :: ws)).
Proof. destruct ws; reflexivity. Qed.

Lemma strip_trailing_body (s : string) :
  strip_trailing_hyphen (slug_body s) = String.concat "-" (kebab_words s).
Proof.
  induction s as [|c r IH]; [reflexivity|].
  cbn [slug_body kebab_words].
  destruct (is_lower_alnum c) eqn:Ec; [|exact IH].
  destruct r as [|c' r']; [cbn; now rewrite (alnum_not_hyphen _ Ec)|].
  destruct (is_lower_alnum c') eqn:Ec'.
  - pose proof (kebab_words_head c' r' Ec') as Hne.
    pose proof (slug_body_head (String c' r')) as Hh.
    destruct (kebab_words (String c' r')) as [|w ws] eqn:Ew; [congruence|].
    rewrite concat_cons_char, <- IH.
    destruct (slug_body (String c' r')) as [|d x] eqn:Eb.
    + apply slug_body_empty in Eb. congruence.
    + reflexivity.
  - destruct (slug_body (String c' r')) as [|d x] eqn:Eb.
    + apply slug_body_empty in Eb. rewrite Eb. reflexivity.
    + destruct (kebab_words (String c' r')) as [|w ws] eqn:Ew.
      * apply slug_body_empty in Ew. congruence.
      * change (String.concat "-" (String c "" :: w :: ws))
          with (String c ("-" ++ String.concat "-" (w :: ws))).
        rewrite <- IH. reflexivity.
Qed.

Lemma normalizeSlug_words (s : string) :
  normalizeSlug s = String.concat "-" (kebab_words s).
Proof.
  unfold normalizeSlug.
  now rewrite replace_passes, collapse_separated, strip_edge_body, strip_trailing_body.
Qed.

End Slug.

Section SlugIdempotence.

Lemma kebab_words_are_words (s : string) : Forall slug_word (kebab_words s).
Proof.
  induction s as [|c r IH]; [constructor|].
  cbn [kebab_words]. destruct (is_lower_alnum c) eqn:Ec; [|exact IH].
  assert (Hc : slug_word (String c "")) by (split; cbn; [reflexivity | now rewrite Ec]).
  destruct r as [|c' r']; [now constructor|].
  destruct (is_lower_alnum c'); [|now constructor].
  destruct (kebab_words (String c' r')) as [|w ws]; [now constructor|].
  inversion IH as [|? ? [Hw1 Hw2] Hws]; subst.
  constructor; [|exact Hws].
  split; cbn; [reflexivity | now rewrite Ec, Hw2].
Qed.

Lemma kebab_words_word (w : string) : slug_word w -> kebab_words w = [w].
Proof.
  induction w as [|c r IH]; intros [Hn Ha]; [discriminate|].
  cbn in Ha. apply andb_prop in Ha as [Ec Hr].
  cbn [kebab_words]. rewrite Ec.
  destruct r as [|c' r']; [reflexivity|].
  pose proof Hr as Hr'. cbn in Hr'. apply andb_prop in Hr' as [Ec' _].
  rewrite Ec', IH; [reflexivity | now split].
Qed.

Lemma kebab_words_hyphen (w t : string) :
  slug_word w -> kebab_words (w ++ String "-" t) = w :: kebab_words t.
Proof.
  induction w as [|c r IH]; intros [Hn Ha]; [discriminate|].
  cbn in Ha. apply andb_prop in Ha as [Ec Hr].
  cbn [append kebab_words]. rewrite Ec.
  destruct r as [|c' r']; [reflexivity|].
  pose proof Hr as Hr'. cbn in Hr'. apply andb_prop in Hr' as [Ec' _].
  cbn [append]. rewrite Ec'.
  change (String c' (r' ++ String "-" t)) with (String c' r' ++ String "-" t).
  rewrite IH; [reflexivity | now split].
Qed.

Lemma kebab_words_concat (ws : list string) :
  Forall slug_word ws -> kebab_words (String.concat "-" ws) = ws.
Proof.
  induction ws as [|w ws IH]; intros Hws; [reflexivity|].
  inversion Hws as [|? ? Hw Hrest]; subst.
  destruct ws as [|w' ws']; [now apply kebab_words_word|].
  change (String.concat "-" (w :: w' :: ws'))
    with (w ++ String "-" (String.concat "-" (w' :: ws'))).
  rewrite (kebab_words_hyphen _ _ Hw), (IH Hrest). reflexivity.
Qed.

(** Normalizing an already normalized slug changes nothing. *)
Lemma normalizeSlug_idempotent (s : string) :
  normalizeSlug (normalizeSlug s) = normalizeSlug s.
Proof.
  rewrite (normalizeSlug_words s), normalizeSlug_words.
  now rewrite kebab_words_concat by apply kebab_words_are_words.
Qed.

End SlugIdempotence.

(** C2, as amended.  [normalizeSlug] does not lowercase.  Every character
    outside [a-z0-9], uppercase letters included, separates words: the
    result is the maximal runs of [a-z0-9] of the input joined by single
    hyphens, so it has no repeated, leading or trailing hyphen.  On
    ["My_Article Title!"] it returns ["y-rticle-itle"]. *)
Theorem normalizeSlug_joins_lowercase_runs :
  forall slug : string,
    normalizeSlug slug = String.concat "-" (kebab_words slug)
    /\ Forall (fun w => nonempty w = true /\ all_chars is_lower_alnum w = true)
              (kebab_words slug)
    /\ normalizeSlug "My_Article Title!" = "y-rticle-itle".
Proof.
  intro slug. split; [apply normalizeSlug_words|].
  split; [apply kebab_words_are_words | reflexivity].
Qed.

(** C2, as stated, fails on its own example: the capitals are replaced by
    hyphens instead of being lowercased.  Lowercasing first would give the
    slug of the specification's scenario. *)
Lemma normalizeSlug_drops_capitals :
  normalizeSlug "My_Article Title!" = "y-rticle-itle"
  /\ normalizeSlug "My_Article Title!" <> "my-article-title"
  /\ normalizeSlug_lowercasing "My_Article Title!" = "my-article-title".
Proof. repeat split; try reflexivity. discriminate. Qed.

(** ** Taxonomy resolver *)

Lemma categoryMappings_truthy (key value : string) :
  own_property categoryMappings key = Some value -> nonempty value = true.
Proof.
  unfold categoryMappings. cbn [own_property].
  repeat (destruct (String.eqb _ key); [intros [= <-]; reflexivity|]).
  discriminate.
Qed.

(** Without a tag signal the result is [categoryMappings[category] || category]. *)
Lemma mapCategory_no_signal (cats : taxonomy) (c : jsv) (sub : option string)
    (tgs : list string) :
  first_signal (map toLowerCase tgs) = None ->
  mapCategory cats c sub tgs = lookup_or categoryMappings (to_string c) c.
Proof.
  unfold first_signal, tagSignalGroups, mapCategory. cbn [find fst snd].
  destruct (some_tag_in _ _); [discriminate|].
  destruct (some_tag_in _ _); [discriminate|].
  destruct (some_tag_in _ _); [discriminate|].
  destruct (some_tag_in _ _); [discriminate|].
  intros _. now destruct (_ || _)%bool.
Qed.

(** C3, as amended.  For a raw category that is not in the taxonomy,
    [mapCategory] scans the tag-signal groups first, in the fixed order
    database, devops/system, frontend, mobile, and returns the category of
    the first group that matches, whether or not the raw category has a
    rename.  Only when no group matches does it consult the rename table;
    when that has no entry either, the raw category comes back unchanged
    (a category that names a member of [Object.prototype] comes back as
    that member). *)
Theorem mapCategory_signals_before_rename :
  forall (cats : taxonomy) (category : jsv) (subcategory : option string)
         (tags : list string),
    category_exists cats category = false ->
    (forall canonical,
        first_signal (map toLowerCase tags) = Some canonical ->
        mapCategory cats category subcategory tags = JStr canonical)
    /\ (first_signal (map toLowerCase tags) = None ->
        forall renamed,
          own_property categoryMappings (to_string category) = Some renamed ->
          mapCategory cats category subcategory tags = JStr renamed)
    /\ (first_signal (map toLowerCase tags) = None ->
        own_property categoryMappings (to_string category) = None ->
        mapCategory cats category subcategory tags
        = if existsb (String.eqb (to_string category)) objectPrototypeKeys
          then JProto (to_string category) else category).
Proof.
  intros cats c sub tgs Hnew. split; [|split].
  - intros canonical. unfold first_signal, tagSignalGroups, mapCategory.
    rewrite Hnew, orb_true_r. cbn [find fst snd negb].
    destruct (some_tag_in _ _); [now intros [= <-]|].
    destruct (some_tag_in _ _); [now intros [= <-]|].
    destruct (some_tag_in _ _); [now intros [= <-]|].
    destruct (some_tag_in _ _); [now intros [= <-]|].
    discriminate.
  - intros Hnone renamed Hown. rewrite (mapCategory_no_signal _ _ _ _ Hnone).
    unfold lookup_or, obj_lookup. rewrite Hown. cbn [truthy].
    now rewrite (categoryMappings_truthy _ _ Hown).
  - intros Hnone Hown. rewrite (mapCategory_no_signal _ _ _ _ Hnone).
    unfold lookup_or, obj_lookup. rewrite Hown.
    now destruct (existsb _ objectPrototypeKeys).
Qed.

Lemma mapCategory_signals_before_rename_witness :
  category_exists [] (JStr "frontend") = false
  /\ mapCategory [] (JStr "frontend") None ["MySQL"] = JStr "databases".
Proof.
  split; [reflexivity|].
  destruct (mapCategory_signals_before_rename [] (JStr "frontend") None ["MySQL"]
              eq_refl) as [Hfirst _].
  apply Hfirst. reflexivity.
Defined.

(** C3, as stated, fails: ["frontend"] is not in the taxonomy and has the
    rename ["web-frontend"], yet a database tag decides the result. *)
Lemma mapCategory_rename_not_first :
  category_exists [mkTaxCategory "web-frontend" ["css"]; mkTaxCategory "databases" ["sql"]]
                  (JStr "frontend") = false
  /\ own_property categoryMappings "frontend" = Some "web-frontend"
  /\ mapCategory [mkTaxCategory "web-frontend" ["css"]; mkTaxCategory "databases" ["sql"]]
                 (JStr "frontend") (Some "general") ["mysql"]
     = JStr "databases"
  /\ mapCategory [mkTaxCategory "web-frontend" ["css"]; mkTaxCategory "databases" ["sql"]]
                 (JStr "frontend") (Some "general") ["mysql"]
     <> JStr "web-frontend".
Proof. repeat split; try reflexivity. discriminate. Qed.

(** ** Record validator: what it assigns and what it leaves alone *)

Lemma jsv_eqb_eq (a b : jsv) : jsv_eqb a b = true -> a = b.
Proof.
  destruct a, b; cbn; try discriminate; intros E; apply String.eqb_eq in E; congruence.
Qed.

Lemma jsv_eqb_refl (a : jsv) : jsv_eqb a a = true.
Proof. destruct a; cbn; apply String.eqb_refl. Qed.

Lemma opt_string_eqb_eq (a b : option string) : opt_eqb String.eqb a b = true -> a = b.
Proof.
  destruct a, b; cbn; try discriminate; [|reflexivity].
  intros E; apply String.eqb_eq in E; congruence.
Qed.


Ltac frame :=
  unfold untouched; cbn; repeat split; reflexivity.

Lemma autoFixCategories_effect (cats : taxonomy) (m : Metadata) :
  let m' := fst (autoFixCategories cats m) in
  untouched m m' /\ uniqueId m' = uniqueId m
  /\ category m' = mapped_category cats m
  /\ subcategory m' = mapped_subcategory cats m.
Proof.
  unfold autoFixCategories, mapped_category, mapped_subcategory.
  destruct (category m) as [c|] eqn:Ec; [|now (repeat split; try frame)].
  destruct (tags m) as [tgs|] eqn:Et; [|now (repeat split; try frame)].
  destruct (truthy c); [|now (repeat split; try frame)].
  destruct (jsv_eqb (mapCategory cats c (subcategory m) tgs) c) eqn:Ecat; cbn [negb].
  - apply jsv_eqb_eq in Ecat.
    destruct (opt_eqb String.eqb _ (subcategory m)) eqn:Esub; cbn [negb fst].
    + apply opt_string_eqb_eq in Esub. repeat split; try frame; congruence.
    + repeat split; try frame. cbn. congruence.
  - change (subcategory (set_category _ m)) with (subcategory m).
    destruct (opt_eqb String.eqb _ (subcategory m)) eqn:Esub; cbn [negb fst].
    + apply opt_string_eqb_eq in Esub. repeat split; try frame. cbn. congruence.
    + repeat split; frame.
Qed.

Lemma fixUniqueId_effect (m : Metadata) :
  let m' := fst (fixUniqueId m) in
  untouched m m' /\ category m' = category m /\ subcategory m' = subcategory m
  /\ uniqueId m' = fixed_uniqueId m.
Proof.
  unfold fixUniqueId, fixed_uniqueId.
  destruct (sourceStackOverflowId m) as [sid|]; [|now (repeat split; try frame)].
  destruct (nonempty sid); [|now (repeat split; try frame)].
  destruct (truthy_str (uniqueId m)); cbn [negb]; [|now (repeat split; try frame)].
  destruct (opt_eqb String.eqb (uniqueId m) _) eqn:E; cbn [negb]; [|now (repeat split; try frame)].
  apply opt_string_eqb_eq in E. repeat split; try frame. exact E.
Qed.

Section Validator.

Context `{Host}.

Lemma validate_unfold (cats : taxonomy) (jd : JsonData) (m : Metadata) :
  metadata jd = Some m ->
  let m' := settled cats m in
  errors (validateJsonStructure cats jd)
  = ((if truthy_str (content jd) then [] else ["Missing content field"])
       ++ requiredFieldErrors m' ++ formatErrors m'
       ++ categoryErrors cats m' ++ qualityErrors m')%list
  /\ validated (validateJsonStructure cats jd) = mkJsonData (Some m') (content jd)
  /\ notes (validateJsonStructure cats jd)
     = (snd (autoFixCategories cats m)
          ++ snd (fixUniqueId (fst (autoFixCategories cats m)))
          ++ qualityNotes m')%list.
Proof.
  intros Hm. unfold validateJsonStructure, settled. rewrite Hm.
  destruct (autoFixCategories cats m) as [m1 n1]. cbn [fst snd].
  destruct (fixUniqueId m1) as [m2 n2]. cbn [fst snd errors validated notes].
  destruct (truthy_str (content jd)); repeat split; reflexivity.
Qed.

Lemma settled_effect (cats : taxonomy) (m : Metadata) :
  untouched m (settled cats m)
  /\ category (settled cats m) = mapped_category cats m
  /\ subcategory (settled cats m) = mapped_subcategory cats m
  /\ uniqueId (settled cats m) = fixed_uniqueId (fst (autoFixCategories cats m)).
Proof.
  unfold settled.
  destruct (autoFixCategories_effect cats m) as (U1 & _ & C1 & S1).
  destruct (fixUniqueId_effect (fst (autoFixCategories cats m))) as (U2 & C2 & S2 & I2).
  cbv zeta in *. rewrite C2, S2, I2, C1, S1.
  split; [|repeat split; reflexivity].
  unfold untouched in *.
  repeat match goal with H : _ /\ _ |- _ => destruct H end.
  repeat split; congruence.
Qed.

Lemma fixed_uniqueId_autoFix (cats : taxonomy) (m : Metadata) :
  fixed_uniqueId (fst (autoFixCategories cats m)) = fixed_uniqueId m.
Proof.
  destruct (autoFixCategories_effect cats m) as (U & I & _).
  cbv zeta in *. unfold fixed_uniqueId. rewrite I.
  unfold untouched in U. repeat match goal with H : _ /\ _ |- _ => destruct H end.
  now replace (sourceStackOverflowId (fst (autoFixCategories cats m)))
    with (sourceStackOverflowId m).
Qed.

End Validator.

(** C7, as amended.  [validateJsonStructure] is not pure: it assigns to the
    record it is given.  When [category] and [tags] are truthy it stores the
    mapped category and subcategory, and when [sourceStackOverflowId] is
    truthy it stores the generated identifier; every other field of the
    record, and its content, are the same after validation as before. *)
Theorem validateJsonStructure_assigns_mapped_fields :
  forall (H : Host) (cats : taxonomy) (jsonData : JsonData),
    content (validated (validateJsonStructure cats jsonData)) = content jsonData
    /\ match metadata jsonData with
       | None => metadata (validated (validateJsonStructure cats jsonData)) = None
       | Some m =>
           exists m',
             metadata (validated (validateJsonStructure cats jsonData)) = Some m'
             /\ untouched m m'
             /\ category m' = mapped_category cats m
             /\ subcategory m' = mapped_subcategory cats m
             /\ uniqueId m' = fixed_uniqueId m
       end.
Proof.
  intros H cats jd.
  destruct (metadata jd) as [m|] eqn:Hm.
  - destruct (validate_unfold cats jd m Hm) as (_ & V & _). cbv zeta in V.
    rewrite V. cbn [metadata content]. split; [reflexivity|].
    exists (settled cats m).
    destruct (settled_effect cats m) as (U & C & S & I).
    rewrite fixed_uniqueId_autoFix in I.
    split; [reflexivity|]. split; [exact U|]. split; [exact C|]. split; [exact S | exact I].
  - unfold validateJsonStructure. rewrite Hm. cbn. now split.
Qed.

(** C7, as stated, fails: validating the sample record changes its category
    from [programming] to [programming-languages], its subcategory from
    [general] to [python], and fills in its identifier. *)
Lemma validateJsonStructure_changes_its_input :
  option_map category (metadata sampleJson) = Some (Some (JStr "programming"))
  /\ option_map category
       (metadata (validated (@validateJsonStructure canonicalHost sampleTaxonomy sampleJson)))
     = Some (Some (JStr "programming-languages"))
  /\ option_map subcategory (metadata sampleJson) = Some (Some "general")
  /\ option_map subcategory
       (metadata (validated (@validateJsonStructure canonicalHost sampleTaxonomy sampleJson)))
     = Some (Some "python")
  /\ option_map uniqueId (metadata sampleJson) = Some None
  /\ option_map uniqueId
       (metadata (validated (@validateJsonStructure canonicalHost sampleTaxonomy sampleJson)))
     = Some (Some "20c31c35")
  /\ validated (@validateJsonStructure canonicalHost sampleTaxonomy sampleJson) <> sampleJson.
Proof.
  repeat split; try (vm_compute; reflexivity).
  vm_compute. discriminate.
Qed.

(** ** Record validator: required fields *)

Lemma isValid_false (v : Validation) (e : string) : In e (errors v) -> isValid v = false.
Proof. unfold isValid. destruct (errors v); [contradiction | reflexivity]. Qed.

Lemma mapSubcategory_not_general (c : jsv) (sub : option string) (tgs : list string) :
  opt_eqb String.eqb sub (Some "general") = false -> mapSubcategory c sub tgs = sub.
Proof. unfold mapSubcategory. now intros ->. Qed.

Lemma falsy_not_general (sub : option string) :
  truthy_str sub = false -> opt_eqb String.eqb sub (Some "general") = false.
Proof. destruct sub as [[|c s]|]; cbn; (reflexivity || discriminate). Qed.

Lemma mapped_category_falsy (cats : taxonomy) (m : Metadata) :
  truthy_jsv (category m) = false -> mapped_category cats m = category m.
Proof.
  unfold mapped_category. destruct (category m) as [c|]; [|reflexivity].
  cbn. intros ->. now destruct (tags m).
Qed.

Lemma mapped_subcategory_falsy (cats : taxonomy) (m : Metadata) :
  truthy_str (subcategory m) = false -> mapped_subcategory cats m = subcategory m.
Proof.
  intros Hs. unfold mapped_subcategory.
  destruct (category m) as [c|]; [|reflexivity].
  destruct (tags m) as [tgs|]; [|reflexivity].
  destruct (truthy c); [|reflexivity].
  apply mapSubcategory_not_general, falsy_not_general, Hs.
Qed.

Lemma fixed_uniqueId_no_source (m : Metadata) :
  truthy_str (sourceStackOverflowId m) = false -> fixed_uniqueId m = uniqueId m.
Proof.
  unfold fixed_uniqueId. destruct (sourceStackOverflowId m) as [sid|]; [|reflexivity].
  cbn. now intros ->.
Qed.

Lemma missing_field_reported (m : Metadata) (field : string) :
  In field requiredFields -> field_truthy m field = false ->
  In (missing_field_error field) (requiredFieldErrors m).
Proof.
  intros Hin Hf. unfold requiredFieldErrors. apply in_flat_map.
  exists field. split; [exact Hin|]. rewrite Hf. now left.
Qed.

(** A required field other than [uniqueId] that is falsy in the input is
    still falsy when the required-field loop runs. *)
Lemma falsy_field_stays_falsy (m m' : Metadata) (cats : taxonomy) (field : string) :
  untouched m m' ->
  category m' = mapped_category cats m ->
  subcategory m' = mapped_subcategory cats m ->
  (field = "uniqueId" -> uniqueId m' = uniqueId m) ->
  In field requiredFields -> field_truthy m field = false ->
  field_truthy m' field = false.
Proof.
  intros U C S I Hin Hf. unfold untouched in U.
  repeat match goal with H : _ /\ _ |- _ => destruct H end.
  unfold requiredFields in Hin. cbn [In] in Hin.
  repeat (destruct Hin as [<- | Hin]); try contradiction;
    cbn in Hf |- *; try congruence.
  - rewrite (I eq_refl). exact Hf.
  - rewrite C, mapped_category_falsy; exact Hf.
  - rewrite S, mapped_subcategory_falsy; exact Hf.
Qed.

(** C10, as amended.  The required-field loop tests truthiness, not
    presence, and it runs after the automatic repairs.  A required field
    that is falsy in the input record ([readTime] equal to 0, an empty
    string, an absent value) is reported as missing and makes the record
    invalid; for [uniqueId] this holds when [sourceStackOverflowId] is
    falsy as well, because otherwise the identifier is generated before the
    loop runs. *)
Theorem falsy_required_field_is_reported :
  forall (H : Host) (cats : taxonomy) (jsonData : JsonData) (m : Metadata)
         (field : string),
    metadata jsonData = Some m ->
    In field requiredFields ->
    field_truthy m field = false ->
    (field = "uniqueId" -> truthy_str (sourceStackOverflowId m) = false) ->
    In (missing_field_error field) (errors (validateJsonStructure cats jsonData))
    /\ isValid (validateJsonStructure cats jsonData) = false.
Proof.
  intros H cats jd m field Hm Hin Hf Hid.
  assert (Herr : In (missing_field_error field) (errors (validateJsonStructure cats jd))).
  { destruct (validate_unfold cats jd m Hm) as (E & _). cbv zeta in E. rewrite E.
    apply in_or_app. right. apply in_or_app. left.
    apply missing_field_reported; [exact Hin|].
    destruct (settled_effect cats m) as (U & C & S & I).
    apply (falsy_field_stays_falsy m (settled cats m) cats field U C S); try assumption.
    intros ->. rewrite I, fixed_uniqueId_autoFix.
    apply fixed_uniqueId_no_source, Hid, eq_refl. }
  split; [exact Herr | exact (isValid_false _ _ Herr)].
Qed.

Lemma falsy_required_field_is_reported_witness :
  In "readTime" requiredFields
  /\ In (missing_field_error "readTime")
        (errors (@validateJsonStructure canonicalHost sampleTaxonomy
                   (mkJsonData
                      (Some (mkMetadata (Some "Reading files in Python")
                               (Some "reading-files-in-python") (Some "20c31c35")
                               (Some (JStr "programming-languages")) (Some "python")
                               (Some "Read a text file line by line in Python.")
                               (Some ["python"]) (Some "beginner") (Some 0%Z)
                               None None None None None None None None))
                      (Some sampleBody)))).
Proof.
  split; [cbn; tauto|].
  eapply (falsy_required_field_is_reported canonicalHost sampleTaxonomy _ _ "readTime").
  - reflexivity.
  - cbn; tauto.
  - reflexivity.
  - discriminate.
Defined.

(** C10, as stated, fails for [uniqueId]: the record with an empty
    [uniqueId] and the source key 42 gets its identifier generated and is
    reported valid, with no missing-field error. *)
Lemma empty_uniqueId_is_generated_not_reported :
  option_map uniqueId (metadata emptyIdJson) = Some (Some "")
  /\ In "uniqueId" requiredFields
  /\ errors (@validateJsonStructure canonicalHost sampleTaxonomy emptyIdJson) = []
  /\ isValid (@validateJsonStructure canonicalHost sampleTaxonomy emptyIdJson) = true
  /\ notes (@validateJsonStructure canonicalHost sampleTaxonomy emptyIdJson)
     = [AutoMapCategory "programming" "programming-languages";
        AutoMapSubcategory "general" "python";
        GeneratedUniqueId "20c31c35"].
Proof.
  split; [reflexivity|]. split; [cbn; tauto|].
  repeat split; vm_compute; reflexivity.
Qed.

(** In the earlier converter nothing generates identifiers, and the
    statement holds for every required field. *)
Lemma legacy_reports_every_falsy_field
    (cats : taxonomy) (jsonData : JsonData) (m : Metadata) (field : string) :
  metadata jsonData = Some m ->
  In field requiredFields ->
  field_truthy m field = false ->
  In (missing_field_error field) (errors (Legacy.validateJsonStructure cats jsonData)).
Proof.
  intros Hm Hin Hf. unfold Legacy.validateJsonStructure. rewrite Hm.
  destruct (autoFixCategories_effect cats m) as (U & I & C & S). cbv zeta in *.
  destruct (autoFixCategories cats m) as [m1 n1]. cbn [fst errors] in *.
  apply in_or_app. right. apply in_or_app. left.
  apply missing_field_reported; [exact Hin|].
  apply (falsy_field_stays_falsy m m1 cats field U C S); try assumption.
  intros _. exact I.
Qed.

(** ** Record validator: word count and title length *)

Lemma requiredFieldErrors_not_C (m : Metadata) : forallb not_C (requiredFieldErrors m) = true.
Proof.
  unfold requiredFieldErrors, requiredFields. cbn [flat_map].
  repeat (destruct (field_truthy m _)); reflexivity.
Qed.

Lemma formatErrors_not_C (m : Metadata) : forallb not_C (formatErrors m) = true.
Proof.
  unfold formatErrors.
  destruct (uniqueId m) as [u|]; destruct (difficulty m) as [d|];
    destruct (description m) as [x|];
    repeat match goal with |- context [if ?b then _ else _] => destruct b end;
    reflexivity.
Qed.

Lemma categoryErrors_not_C (cats : taxonomy) (m : Metadata) :
  forallb not_C (categoryErrors cats m) = true.
Proof.
  unfold categoryErrors.
  destruct (category m) as [c|]; [|reflexivity].
  destruct (truthy c); [|reflexivity].
  destruct (category_exists cats c); cbn [negb andb app].
  - destruct (truthy_str (subcategory m)); [|reflexivity].
    destruct (find _ cats); [|reflexivity].
    now destruct (negb _).
  - reflexivity.
Qed.

Lemma too_short_only_from_metrics (content_errors : list string) (cats : taxonomy)
    (m : Metadata) :
  forallb not_C content_errors = true ->
  In too_short_error
     (content_errors ++ requiredFieldErrors m ++ formatErrors m
        ++ categoryErrors cats m ++ qualityErrors m)%list
  <-> In too_short_error (qualityErrors m).
Proof.
  intros Hc.
  assert (Hno : forall l, forallb not_C l = true -> ~ In too_short_error l).
  { intros l Hl Hin. rewrite forallb_forall in Hl. specialize (Hl _ Hin). discriminate. }
  rewrite !in_app_iff. split; [|tauto].
  intros [Hin | [Hin | [Hin | [Hin | Hin]]]]; [exfalso .. | exact Hin].
  - exact (Hno _ Hc Hin).
  - exact (Hno _ (requiredFieldErrors_not_C m) Hin).
  - exact (Hno _ (formatErrors_not_C m) Hin).
  - exact (Hno _ (categoryErrors_not_C cats m) Hin).
Qed.

Lemma qualityErrors_iff (m : Metadata) :
  In too_short_error (qualityErrors m)
  <-> exists metrics wc,
        qualityMetrics m = Some metrics /\ wordCount metrics = Some wc
        /\ wc <> 0%Z /\ (wc < 100)%Z.
Proof.
  unfold qualityErrors. split.
  - destruct (qualityMetrics m) as [metrics|]; [|contradiction].
    destruct (wordCount metrics) as [wc|] eqn:Ew; [|contradiction].
    destruct (negb (Z.eqb wc 0) && Z.ltb wc 100)%bool eqn:E; [|contradiction].
    intros _. exists metrics, wc. apply andb_prop in E as [E1 E2].
    apply negb_true_iff, Z.eqb_neq in E1. apply Z.ltb_lt in E2. auto.
  - intros (metrics & wc & -> & -> & Hz & Hlt).
    apply Z.eqb_neq in Hz. apply Z.ltb_lt in Hlt. rewrite Hz, Hlt. now left.
Qed.

(** C4, as amended.  In [validateJsonStructure] a low word count is an
    error, not a warning: the error "Content appears too short" is returned
    exactly when the record's quality metrics carry a nonzero [wordCount]
    below 100, and it makes the record invalid.  An absent or zero
    [wordCount] is not checked. *)
Theorem low_word_count_is_an_error :
  forall (H : Host) (cats : taxonomy) (jsonData : JsonData) (m : Metadata),
    metadata jsonData = Some m ->
    (In too_short_error (errors (validateJsonStructure cats jsonData))
     <-> exists metrics wc,
           qualityMetrics m = Some metrics /\ wordCount metrics = Some wc
           /\ wc <> 0%Z /\ (wc < 100)%Z)
    /\ (In too_short_error (errors (validateJsonStructure cats jsonData)) ->
        isValid (validateJsonStructure cats jsonData) = false).
Proof.
  intros H cats jd m Hm. split; [|apply isValid_false].
  destruct (validate_unfold cats jd m Hm) as (E & _). cbv zeta in E. rewrite E.
  rewrite too_short_only_from_metrics by (now destruct (truthy_str (content jd))).
  rewrite qualityErrors_iff.
  destruct (settled_effect cats m) as (U & _). unfold untouched in U.
  repeat match goal with H : _ /\ _ |- _ => destruct H end.
  now replace (qualityMetrics (settled cats m)) with (qualityMetrics m).
Qed.

Lemma low_word_count_is_an_error_witness :
  metadata shortJson = Some shortMetadata
  /\ isValid (@validateJsonStructure canonicalHost sampleTaxonomy shortJson) = false.
Proof.
  split; [reflexivity|].
  destruct (low_word_count_is_an_error canonicalHost sampleTaxonomy shortJson
              shortMetadata eq_refl) as [Hiff Hinvalid].
  apply Hinvalid, Hiff.
  exists (mkQualityMetrics (Some 50%Z) (Some 4%Z)), 50%Z.
  split; [reflexivity|]. split; [reflexivity|]. split; [discriminate | reflexivity].
Defined.

(** C4, as stated, fails: the sample record with fifty words satisfies every
    required-field, format and taxonomy check, and validation returns the
    word-count error and nothing else, so the record is invalid. *)
Lemma fifty_words_block_the_record :
  errors (@validateJsonStructure canonicalHost sampleTaxonomy shortJson)
  = ["Content appears too short (< 100 words)"]
  /\ isValid (@validateJsonStructure canonicalHost sampleTaxonomy shortJson) = false
  /\ errors (@validateJsonStructure canonicalHost sampleTaxonomy sampleJson) = [].
Proof. repeat split; vm_compute; reflexivity. Qed.

Section TitleLength.

Context `{Host}.

Lemma autoFixCategories_set_title (cats : taxonomy) (t : option string) (m : Metadata) :
  autoFixCategories cats (set_title t m)
  = (set_title t (fst (autoFixCategories cats m)), snd (autoFixCategories cats m)).
Proof.
  destruct m as [ti sl ui ca su de ta di rt so qm te pa ga fe lu fi].
  unfold autoFixCategories. cbn [category tags subcategory set_title].
  destruct ca as [c|]; [|reflexivity].
  destruct ta as [tgs|]; [|reflexivity].
  destruct (truthy c); [|reflexivity].
  destruct (jsv_eqb (mapCategory cats c su tgs) c);
    cbn [negb subcategory set_category set_title];
    destruct (opt_eqb String.eqb (mapSubcategory (mapCategory cats c su tgs) su tgs) su);
    reflexivity.
Qed.

Lemma fixUniqueId_set_title (t : option string) (m : Metadata) :
  fixUniqueId (set_title t m)
  = (set_title t (fst (fixUniqueId m)), snd (fixUniqueId m)).
Proof.
  destruct m as [ti sl ui ca su de ta di rt so qm te pa ga fe lu fi].
  unfold fixUniqueId. cbn [sourceStackOverflowId uniqueId set_title].
  destruct so as [sid|]; [|reflexivity].
  destruct (nonempty sid); [|reflexivity].
  destruct (truthy_str ui); [|reflexivity].
  destruct (opt_eqb String.eqb ui (Some (generateUniqueId sid))); reflexivity.
Qed.

Lemma settled_set_title (cats : taxonomy) (t : option string) (m : Metadata) :
  settled cats (set_title t m) = set_title t (settled cats m).
Proof.
  unfold settled. rewrite autoFixCategories_set_title. cbn [fst].
  now rewrite fixUniqueId_set_title.
Qed.

Lemma checks_ignore_title (cats : taxonomy) (t1 t2 : string) (m : Metadata) :
  nonempty t1 = true -> nonempty t2 = true ->
  requiredFieldErrors (set_title (Some t1) m) = requiredFieldErrors (set_title (Some t2) m)
  /\ formatErrors (set_title (Some t1) m) = formatErrors (set_title (Some t2) m)
  /\ categoryErrors cats (set_title (Some t1) m) = categoryErrors cats (set_title (Some t2) m)
  /\ qualityErrors (set_title (Some t1) m) = qualityErrors (set_title (Some t2) m)
  /\ qualityNotes (set_title (Some t1) m) = qualityNotes (set_title (Some t2) m).
Proof.
  intros H1 H2.
  destruct m as [ti sl ui ca su de ta di rt so qm te pa ga fe lu fi].
  split; [|repeat split; reflexivity].
  unfold requiredFieldErrors, requiredFields. cbn [flat_map].
  cbn [field_truthy String.eqb Ascii.eqb Bool.eqb title set_title truthy_str].
  now rewrite H1, H2.
Qed.

Lemma validate_ignores_title_length (cats : taxonomy) (jd : JsonData) (m : Metadata)
    (t1 t2 : string) :
  nonempty t1 = true -> nonempty t2 = true ->
  errors (validateJsonStructure cats (with_title t1 m jd))
  = errors (validateJsonStructure cats (with_title t2 m jd))
  /\ notes (validateJsonStructure cats (with_title t1 m jd))
     = notes (validateJsonStructure cats (with_title t2 m jd)).
Proof.
  intros H1 H2.
  destruct (validate_unfold cats (with_title t1 m jd) _ eq_refl) as (E1 & _ & N1).
  destruct (validate_unfold cats (with_title t2 m jd) _ eq_refl) as (E2 & _ & N2).
  cbv zeta in *. rewrite E1, E2, N1, N2.
  rewrite !settled_set_title, !autoFixCategories_set_title.
  cbn [fst snd]. rewrite !fixUniqueId_set_title. cbn [fst snd with_title content].
  destruct (checks_ignore_title cats t1 t2 (settled cats m) H1 H2)
    as (-> & -> & -> & -> & ->).
  split; reflexivity.
Qed.

Lemma convert_keeps_title (now : string) (jd : JsonData) (m : Metadata) (t : string)
    (c : Conversion) :
  convertJsonToMdx now (with_title t m jd) = Some c ->
  title (result c) = Some t
  /\ exists rest,
       mdxContent c
       = "---" ++ nl ++ "title: " ++ dquote ++ escape_quotes t ++ dquote ++ nl ++ rest.
Proof.
  unfold convertJsonToMdx, with_title. cbn [metadata content].
  destruct (content jd) as [body|]; [|discriminate].
  cbn [title set_title slug].
  destruct (slug m) as [s|]; [|discriminate].
  unfold generateMdxFrontmatter.
  cbn [title set_title set_slug slug description truncateTitle].
  destruct (description m) as [d|]; [|discriminate].
  intros [= <-]. cbn [result mdxContent title].
  split; [reflexivity|].
  eexists. rewrite !append_assoc. reflexivity.
Qed.

End TitleLength.

(** C6, as amended.  The converter never looks at the length of a title.
    [validateJsonStructure] returns the same errors and prints the same
    console lines for any two non-empty titles, so a 167-character title is
    accepted exactly as a short one is, and no warning about display in
    search results is issued (the validator has no warning list; that
    advisory belongs to the separate content validator).  [truncateTitle]
    with its default argument returns its input, and the composed document
    carries the full title, in the returned metadata and in the frontmatter
    (where double quotes are escaped). *)
Theorem title_length_is_never_checked :
  forall (H : Host) (cats : taxonomy) (jsonData : JsonData) (m : Metadata)
         (t1 t2 now : string),
    nonempty t1 = true ->
    nonempty t2 = true ->
    errors (validateJsonStructure cats (with_title t1 m jsonData))
    = errors (validateJsonStructure cats (with_title t2 m jsonData))
    /\ notes (validateJsonStructure cats (with_title t1 m jsonData))
       = notes (validateJsonStructure cats (with_title t2 m jsonData))
    /\ truncateTitle t1 None = t1
    /\ (forall c,
           convertJsonToMdx now (with_title t1 m jsonData) = Some c ->
           title (result c) = Some t1
           /\ exists rest,
                mdxContent c
                = "---" ++ nl ++ "title: " ++ dquote ++ escape_quotes t1 ++ dquote
                    ++ nl ++ rest).
Proof.
  intros H cats jd m t1 t2 now H1 H2.
  destruct (validate_ignores_title_length cats jd m t1 t2 H1 H2) as [E N].
  split; [exact E|]. split; [exact N|]. split; [reflexivity|].
  intros c. apply convert_keeps_title.
Qed.

Lemma title_length_is_never_checked_witness :
  nonempty longTitle = true
  /\ errors (@validateJsonStructure canonicalHost sampleTaxonomy longTitleJson)
     = errors (@validateJsonStructure canonicalHost sampleTaxonomy
                 (with_title "Reading files in Python" sampleMetadata sampleJson)).
Proof.
  split; [reflexivity|].
  apply (title_length_is_never_checked canonicalHost sampleTaxonomy sampleJson
           sampleMetadata longTitle "Reading files in Python" "2025-01-01T00:00:00.000Z");
    reflexivity.
Defined.

(** C6, as stated, fails on the warning: the valid record with the
    167-character title is accepted with no error, and validation prints no
    line with a warning sign at all, not one; the title is kept in full. *)
Lemma long_title_gets_no_warning :
  String.length longTitle = 167
  /\ errors (@validateJsonStructure canonicalHost sampleTaxonomy longTitleJson) = []
  /\ isValid (@validateJsonStructure canonicalHost sampleTaxonomy longTitleJson) = true
  /\ filter is_warning
       (notes (@validateJsonStructure canonicalHost sampleTaxonomy longTitleJson)) = []
  /\ option_map (fun c => title (result c))
       (@convertJsonToMdx canonicalHost "2025-01-01T00:00:00.000Z"
          (validated (@validateJsonStructure canonicalHost sampleTaxonomy longTitleJson)))
     = Some (Some longTitle).
Proof. repeat split; vm_compute; reflexivity. Qed.

(** ** Document composer *)

Lemma strip_prefix_append (p s : string) : strip_prefix p (p ++ s) = Some s.
Proof.
  induction p as [|c p IH]; [reflexivity|].
  cbn. now rewrite Ascii.eqb_refl.
Qed.

Lemma span_append (p : ascii -> bool) (a b : string) :
  all_chars p a = true ->
  match b with String c _ => p c = false | EmptyString => True end ->
  span p (a ++ b) = (a, b).
Proof.
  intros Ha Hb. induction a as [|c a IH].
  - destruct b as [|c b]; [reflexivity|]. cbn. now rewrite Hb.
  - cbn in Ha |- *. apply andb_prop in Ha as [Hc Ha].
    now rewrite Hc, (IH Ha).
Qed.

(** A reference whose target already starts with [PLACEHOLDER:] is not
    matched by the image pattern, whatever follows. *)
Lemma match_image_skips_placeholder (alt rest : string) :
  all_chars (fun c => negb (Ascii.eqb c "]")) alt = true ->
  match_image ("![" ++ alt ++ "](PLACEHOLDER:" ++ rest) = None.
Proof.
  intros Halt. unfold match_image.
  rewrite strip_prefix_append.
  rewrite (span_append _ alt ("](PLACEHOLDER:" ++ rest) Halt) by reflexivity.
  destruct (nonempty alt); [|reflexivity].
  change ("](PLACEHOLDER:" ++ rest) with ("](" ++ "PLACEHOLDER:" ++ rest).
  now rewrite (strip_prefix_append "](" ("PLACEHOLDER:" ++ rest)),
              (strip_prefix_append "PLACEHOLDER:" rest).
Qed.

Section Composer.

Context `{Host}.

Lemma formatISODate_parsed (now d iso : string) :
  parseDate d = Some iso -> formatISODate now (Some d) = iso.
Proof. unfold formatISODate. now intros ->. Qed.

(** With a date field that parses, the clock is never read. *)
Lemma convert_ignores_clock (now1 now2 : string) (jd : JsonData) (m : Metadata)
    (d iso : string) :
  metadata jd = Some m ->
  or_str (generatedAt m) (publishedAt m) = Some d ->
  parseDate d = Some iso ->
  convertJsonToMdx now1 jd = convertJsonToMdx now2 jd.
Proof.
  intros Hm Hd Hp. unfold convertJsonToMdx. rewrite Hm.
  destruct (content jd) as [body|]; [|reflexivity].
  destruct (title m) as [t|] eqn:Et; [|reflexivity].
  destruct (slug m) as [s|] eqn:Es; [|reflexivity].
  unfold generateMdxFrontmatter.
  cbn [title slug description generatedAt publishedAt set_title set_slug].
  destruct (description m) as [x|]; [|reflexivity].
  rewrite Hd, !(formatISODate_parsed _ d iso Hp). reflexivity.
Qed.

(** Converting the object that a conversion left behind gives the same
    result again: the title is kept and the slug is already normalized. *)
Lemma convert_again (now : string) (jd : JsonData) (c : Conversion) :
  convertJsonToMdx now jd = Some c ->
  convertJsonToMdx now (converted c) = Some c.
Proof.
  unfold convertJsonToMdx.
  destruct (metadata jd) as [m|]; [|discriminate].
  destruct (content jd) as [body|] eqn:Eb; [|discriminate].
  destruct (title m) as [t|] eqn:Et; [|discriminate].
  destruct (slug m) as [s|] eqn:Es; [|discriminate].
  destruct (generateMdxFrontmatter now _) as [fm|] eqn:Ef; [|discriminate].
  intros [= <-]. cbn [converted metadata content].
  unfold set_slug, set_title in Ef |- *.
  cbn [title slug truncateTitle uniqueId category subcategory
       description tags difficulty readTime sourceStackOverflowId qualityMetrics
       technology publishedAt generatedAt featured lastUpdated filename] in Ef |- *.
  rewrite normalizeSlug_idempotent, Ef. reflexivity.
Qed.

Lemma converted_dates (now : string) (jd : JsonData) (m : Metadata) (c : Conversion) :
  metadata jd = Some m ->
  convertJsonToMdx now jd = Some c ->
  exists m2, metadata (converted c) = Some m2
             /\ generatedAt m2 = generatedAt m /\ publishedAt m2 = publishedAt m.
Proof.
  intros Hm. unfold convertJsonToMdx. rewrite Hm.
  destruct (content jd) as [body|]; [|discriminate].
  destruct (title m) as [t|]; [|discriminate].
  destruct (slug m) as [s|]; [|discriminate].
  destruct (generateMdxFrontmatter now _) as [fm|]; [|discriminate].
  intros [= <-]. eexists. split; [reflexivity|]. split; reflexivity.
Qed.

End Composer.

(** C5, as amended.  Composition is repeat-stable for records that carry a
    date the runtime can parse in [generatedAt] (or, failing that, in
    [publishedAt]): for such a record, converting the same input at two
    different instants gives the same result, byte for byte, and so does
    converting the object the first run left behind (its title kept, its
    slug already normalized).  An image reference whose target already
    starts with [PLACEHOLDER:] is never matched by the rewriting pattern, so
    it is not wrapped again.  For records without a usable date the
    [lastUpdated] line is the instant of the run, and nothing is promised. *)
Theorem convertJsonToMdx_repeatable_with_date :
  forall (H : Host) (now1 now2 : string) (jsonData : JsonData) (m : Metadata)
         (d iso : string) (c1 : Conversion),
    metadata jsonData = Some m ->
    or_str (generatedAt m) (publishedAt m) = Some d ->
    parseDate d = Some iso ->
    convertJsonToMdx now1 jsonData = Some c1 ->
    convertJsonToMdx now2 jsonData = Some c1
    /\ convertJsonToMdx now2 (converted c1) = Some c1
    /\ (forall alt rest,
           all_chars (fun c => negb (Ascii.eqb c "]")) alt = true ->
           match_image ("![" ++ alt ++ "](PLACEHOLDER:" ++ rest) = None).
Proof.
  intros H now1 now2 jd m d iso c1 Hm Hd Hp Hc.
  split; [|split].
  - now rewrite <- (convert_ignores_clock now1 now2 jd m d iso Hm Hd Hp).
  - destruct (converted_dates now1 jd m c1 Hm Hc) as (m2 & Hm2 & Hg & Hpub).
    rewrite <- (convert_ignores_clock now1 now2 (converted c1) m2 d iso Hm2).
    + exact (convert_again now1 jd c1 Hc).
    + now rewrite Hg, Hpub.
    + exact Hp.
  - apply match_image_skips_placeholder.
Qed.

Lemma convertJsonToMdx_repeatable_with_date_witness :
  @parseDate canonicalHost "2025-01-15T10:30:00.000Z" = Some "2025-01-15T10:30:00.000Z"
  /\ @convertJsonToMdx canonicalHost tuesday datedJson
     = @convertJsonToMdx canonicalHost monday datedJson
  /\ option_map mdxFilename (@convertJsonToMdx canonicalHost monday datedJson)
     = Some "reading-files-in-python-20c31c35.mdx".
Proof.
  split; [reflexivity|]. split; [|reflexivity].
  destruct (@convertJsonToMdx canonicalHost monday datedJson) as [c1|] eqn:E.
  - apply (convertJsonToMdx_repeatable_with_date canonicalHost monday tuesday datedJson
             datedMetadata "2025-01-15T10:30:00.000Z" "2025-01-15T10:30:00.000Z" c1);
      [reflexivity | reflexivity | reflexivity | exact E].
  - discriminate E.
Defined.

(** C5, as stated, fails for a record without a date: the validated sample
    record has neither [generatedAt] nor [publishedAt], its [lastUpdated]
    line is the instant of the run, and two runs at different instants write
    different documents. *)
Lemma convertJsonToMdx_stamps_the_clock :
  option_map (fun m => or_str (generatedAt m) (publishedAt m)) (metadata undatedJson)
  = Some None
  /\ isValid (@validateJsonStructure canonicalHost sampleTaxonomy sampleJson) = true
  /\ option_map (fun c => lastUpdated (result c))
       (@convertJsonToMdx canonicalHost monday undatedJson) = Some (Some monday)
  /\ option_map (fun c => lastUpdated (result c))
       (@convertJsonToMdx canonicalHost tuesday undatedJson) = Some (Some tuesday)
  /\ option_map mdxContent (@convertJsonToMdx canonicalHost monday undatedJson)
     <> option_map mdxContent (@convertJsonToMdx canonicalHost tuesday undatedJson).
Proof.
  repeat split; try (vm_compute; reflexivity).
  vm_compute. discriminate.
Qed.

(** Body rewriting on the sample: the image becomes a placeholder, and a
    second pass over the rewritten body changes nothing. *)
Example processImagePlaceholders_sample :
  processImagePlaceholders sampleBody
  = "Open the file with a context manager. ![Diagram](PLACEHOLDER: Diagram - images/open.png)"
  /\ processImagePlaceholders (processImagePlaceholders sampleBody)
     = processImagePlaceholders sampleBody.
Proof. split; vm_compute; reflexivity. Qed.

Example processCodeBlocks_sample :
  processCodeBlocks ("```JS" ++ nl ++ "x" ++ nl ++ "```" ++ nl ++ "graph TD")
  = "```javascript" ++ nl ++ "x" ++ nl ++ "```mermaid" ++ nl ++ "graph TD".
Proof. vm_compute. reflexivity. Qed.

(** ** Catalog merge: sets and sorting *)

Section Aggregates.



















End Aggregates.

(** ** Catalog merge *)

Section Merge.

Lemma getTechnologyFromTags_truthy (tgs : list string) :
  truthy (getTechnologyFromTags tgs) = true.
Proof.
  induction tgs as [|tag rest IH]; [reflexivity|].
  cbn [getTechnologyFromTags].
  destruct (obj_lookup technologyMappings (toLowerCase tag)) as [tech|]; [|exact IH].
  destruct (truthy tech) eqn:E; [exact E | exact IH].
Qed.

Lemma indexEntry_fields (now : string) (c : Conversion) (e : Article.t) :
  indexEntry now c = Some e ->
  Article.slug e = slug (result c)
  /\ Article.category e = category (result c)
  /\ Article.id e = uniqueId (result c)
  /\ truthy_jsv (Article.technology e) = true.
Proof.
  unfold indexEntry.
  destruct (match technology (result c) with
            | Some t => if nonempty t then Some (JStr t)
                        else option_map getTechnologyFromTags (tags (result c))
            | None => option_map getTechnologyFromTags (tags (result c))
            end) as [tech|] eqn:Et; [|discriminate].
  intros [= <-]. cbn. repeat split.
  destruct (technology (result c)) as [t|].
  - destruct (nonempty t) eqn:En.
    + injection Et as <-. exact En.
    + destruct (tags (result c)); [|discriminate].
      injection Et as <-. apply getTechnologyFromTags_truthy.
  - destruct (tags (result c)); [|discriminate].
    injection Et as <-. apply getTechnologyFromTags_truthy.
Qed.


Lemma indexEntries_each (now : string) (batch : list Conversion) (es : list Article.t) :
  indexEntries now batch = Some es ->
  Forall2 (fun c e => indexEntry now c = Some e) batch es.
Proof.
  revert es. induction batch as [|c batch IH]; intros es; cbn.
  - intros [= <-]. constructor.
  - destruct (indexEntry now c) as [e|] eqn:Ee; [|discriminate].
    destruct (indexEntries now batch) as [es'|]; [|discriminate].
    intros [= <-]. constructor; [exact Ee | now apply IH].
Qed.


Lemma entries_slugs (now : string) (batch : list Conversion) (es : list Article.t) :
  Forall2 (fun c e => indexEntry now c = Some e) batch es ->
  map Article.slug es = map (fun c => slug (result c)) batch.
Proof.
  induction 1 as [|c e batch es Hce _ IH]; cbn; [reflexivity|].
  destruct (indexEntry_fields now c e Hce) as [-> _]. now rewrite IH.
Qed.



(** The shape of the returned index. *)
Lemma updateArticleIndex_unfold (now : string) (existing : list Article.t)
    (batch : list Conversion) (idx : Index.t) :
  updateArticleIndex now existing batch = Some idx ->
  exists kept es,
    kept = filter (fun article =>
                     negb (existsb (fun newArticle =>
                                      opt_eqb String.eqb (slug (result newArticle))
                                              (Article.slug article))
                                   batch))
                  existing
    /\ Forall2 (fun c e => indexEntry now c = Some e) batch es
    /\ Index.articles idx = (kept ++ es)%list
    /\ Index.totalArticles idx = List.length (Index.articles idx)
    /\ Index.categories idx = js_sort (new_Set (map Article.category (Index.articles idx)))
    /\ Index.technologies idx
       = js_sort (new_Set (filter truthy_jsv (map Article.technology (Index.articles idx)))).
Proof.
  unfold updateArticleIndex.
  destruct (indexEntries now batch) as [es|] eqn:Ees; [|discriminate].
  intros [= <-]. cbn. eexists. exists es.
  split; [reflexivity|]. split; [now apply indexEntries_each|].
  repeat split; reflexivity.
Qed.


End Merge.

(** Every conversion of a valid record has a [tags] array, so the batches
    that [processJsonFiles] builds are always merged. *)
Lemma successfulConversions_labelled (H : Host) (cats : taxonomy) (now : string)
    (files : list JsonData) :
  Forall labelled (successfulConversions cats now files).
Proof.
  unfold successfulConversions. apply Forall_forall. intros c Hin.
  apply in_flat_map in Hin as (jd & _ & Hc).
  destruct (isValid (validateJsonStructure cats jd)) eqn:Ev; [|contradiction].
  destruct (convertJsonToMdx now (validated (validateJsonStructure cats jd)))
    as [c'|] eqn:Ec; [|contradiction].
  destruct Hc as [<- | []].
  right.
  destruct (metadata jd) as [m|] eqn:Hm.
  - destruct (validate_unfold cats jd m Hm) as (E & V & _). cbv zeta in E, V.
    unfold isValid in Ev. rewrite E in Ev. rewrite V in Ec.
    destruct (truthy_str (content jd)); [|discriminate].
    cbn [app] in Ev.
    assert (Htags : field_truthy (settled cats m) "tags" = true).
    { destruct (field_truthy (settled cats m) "tags") eqn:Ef; [reflexivity|].
      pose proof (missing_field_reported (settled cats m) "tags"
                    ltac:(cbn; tauto) Ef) as Hin.
      destruct (requiredFieldErrors (settled cats m)); [contradiction | discriminate]. }
    cbn in Htags.
    unfold convertJsonToMdx in Ec. cbn [metadata content] in Ec.
    destruct (content jd); [|discriminate].
    destruct (title (settled cats m)); [|discriminate].
    destruct (slug (settled cats m)); [|discriminate].
    destruct (generateMdxFrontmatter now _); [|discriminate].
    injection Ec as <-. cbn [result tags set_slug set_title].
    destruct (tags (settled cats m)); [discriminate | discriminate].
  - unfold validateJsonStructure, isValid in Ev. rewrite Hm in Ev. discriminate.
Qed.



(** The merged sample index. *)
Example updateArticleIndex_sample :
  option_map (fun idx => (Index.totalArticles idx, Index.categories idx,
                          Index.technologies idx))
    (updateArticleIndex tuesday (loadArticleIndex (Some [sampleArticle])) sampleBatch)
  = Some (2, [Some (JStr "databases"); Some (JStr "programming-languages")],
          [Some (JStr "MySQL"); Some (JStr "Python")]).
Proof. vm_compute. reflexivity. Qed.

(** ** Catalog merge: slugs *)

Section Slugs.

Lemma existsb_slug (s : option string) (batch : list Conversion) :
  existsb (fun newArticle => opt_eqb String.eqb (slug (result newArticle)) s) batch = true
  <-> In s (batch_slugs batch).
Proof.
  unfold batch_slugs. rewrite existsb_exists, in_map_iff. split.
  - intros (c & Hin & E). exists c. split; [|exact Hin]. now apply opt_string_eqb_eq.
  - intros (c & <- & Hin). exists c. split; [exact Hin|].
    destruct (slug (result c)); cbn; [apply String.eqb_refl | reflexivity].
Qed.

(** Dropping articles from a catalog with distinct slugs leaves the slugs
    distinct. *)
Lemma kept_slugs_distinct (keep : Article.t -> bool) (existing : list Article.t) :
  NoDup (map Article.slug existing) ->
  NoDup (map Article.slug (filter keep existing)).
Proof.
  intros Hnd. induction existing as [|article rest IH]; [constructor|].
  apply NoDup_cons_iff in Hnd as [Hfresh Hrest]. cbn [filter].
  destruct (keep article); [|exact (IH Hrest)].
  cbn [map]. apply NoDup_cons; [|exact (IH Hrest)].
  intros Hin. apply Hfresh.
  apply in_map_iff in Hin as (other & Eslug & Hother).
  apply filter_In in Hother as [Hother _].
  apply in_map_iff. now exists other.
Qed.

(** Where the merge does keep slugs unique: a catalog with distinct slugs
    and a batch with distinct slugs.  Every slug of the batch is then held
    by exactly one article of the result, the one built from the batch. *)
Lemma updateArticleIndex_unique_slugs (now : string) (existing : list Article.t)
    (batch : list Conversion) (idx : Index.t) :
  NoDup (map Article.slug existing) ->
  NoDup (batch_slugs batch) ->
  updateArticleIndex now existing batch = Some idx ->
  NoDup (map Article.slug (Index.articles idx))
  /\ (forall a, In a (Index.articles idx) ->
                In (Article.slug a) (batch_slugs batch) ->
                exists c, In c batch /\ indexEntry now c = Some a).
Proof.
  intros Hex Hb Hidx.
  destruct (updateArticleIndex_unfold _ _ _ _ Hidx)
    as (kept & es & Hkept & Hes & Harts & _).
  pose proof (entries_slugs now batch es Hes) as Hslugs.
  assert (Hkeptslug : forall a, In a kept -> ~ In (Article.slug a) (batch_slugs batch)).
  { intros a Hin Hs. subst kept. apply filter_In in Hin as [_ Hf].
    apply existsb_slug in Hs. rewrite Hs in Hf. discriminate. }
  rewrite Harts. split.
  - rewrite map_app. apply NoDup_app.
    + subst kept. now apply kept_slugs_distinct.
    + now rewrite Hslugs.
    + intros s Hs1 Hs2. rewrite Hslugs in Hs2.
      apply in_map_iff in Hs1 as (a & <- & Ha). exact (Hkeptslug a Ha Hs2).
  - intros a Hin Hs. apply in_app_or in Hin as [Hin | Hin].
    + exfalso. exact (Hkeptslug a Hin Hs).
    + clear -Hes Hin. induction Hes as [|c e batch es Hce _ IH]; [contradiction|].
      destruct Hin as [<- | Hin].
      * exists c. split; [now left | exact Hce].
      * destruct (IH Hin) as (c' & Hc' & E). exists c'. split; [now right | exact E].
Qed.

End Slugs.

(** C1, evaluated at the failing input.  One run over two valid input files
    whose slugs normalize to the same slug hands [updateArticleIndex] a
    batch with that slug twice; the returned index then holds two articles
    with the slug, under different identifiers, and counts both.  Only
    articles that were in the catalog before are removed on a slug match. *)
Theorem updateArticleIndex_keeps_duplicates_of_a_batch :
  batch_slugs duplicateBatch
  = [Some "reading-files-in-python"; Some "reading-files-in-python"]
  /\ option_map (fun idx => map Article.slug (Index.articles idx))
       (updateArticleIndex tuesday (loadArticleIndex (Some [sampleArticle])) duplicateBatch)
     = Some [Some "joins-in-mysql"; Some "reading-files-in-python";
             Some "reading-files-in-python"]
  /\ option_map (fun idx => map Article.id (Index.articles idx))
       (updateArticleIndex tuesday (loadArticleIndex (Some [sampleArticle])) duplicateBatch)
     = Some [Some "0a1b2c3d"; Some "20c31c35"; Some "b87f99df"]
  /\ option_map Index.totalArticles
       (updateArticleIndex tuesday (loadArticleIndex (Some [sampleArticle])) duplicateBatch)
     = Some 3
  /\ ~ NoDup [Some "joins-in-mysql"; Some "reading-files-in-python";
              Some "reading-files-in-python"].
Proof.
  repeat split; try (vm_compute; reflexivity).
  intros Hnd. inversion Hnd as [|? ? _ Hnd']; subst.
  inversion Hnd' as [|? ? Hnotin _]; subst. apply Hnotin. now left.
Qed.

(** The earlier converter does the same. *)
Example legacy_merge_keeps_batch_duplicates :
  map slug (Legacy.articles (Legacy.updateArticleIndex tuesday [] duplicateBatch))
  = [Some "reading-files-in-python"; Some "reading-files-in-python"]
  /\ Legacy.totalArticles (Legacy.updateArticleIndex tuesday [] duplicateBatch) = 2.
Proof. split; vm_compute; reflexivity. Qed.

(** Replacement of a catalog article by a new one with its slug: the old
    entry goes, and with it its category and technology, which no other
    article has. *)
Example updateArticleIndex_replaces_existing :
  option_map (fun idx => (map (fun a => (Article.slug a, Article.id a)) (Index.articles idx),
                          Index.categories idx, Index.technologies idx))
    (updateArticleIndex tuesday
       [sampleArticle;
        Article.mk (Some "99999999") (Some "Old text") (Some "reading-files-in-python")
          (Some (JStr "web-frontend")) (Some "javascript") (Some "beginner")
          (Some (JStr "JavaScript")) (Some 3%Z) (Some "2024-12-01T00:00:00.000Z")
          (Some false) (Some "An older article under the same slug.") (Some ["js"])
          (Some "reading-files-in-python-99999999.mdx") (Some "2024-12-01T00:00:00.000Z")]
       sampleBatch)
  = Some ([(Some "joins-in-mysql", Some "0a1b2c3d");
           (Some "reading-files-in-python", Some "20c31c35")],
          [Some (JStr "databases"); Some (JStr "programming-languages")],
          [Some (JStr "MySQL"); Some (JStr "Python")]).
Proof. vm_compute. reflexivity. Qed.


(* ================================================================== *)
(** * Part III: further properties of the converter                    *)
(* ================================================================== *)

(** ** Field clean-up *)

(** X1.  [normalizeSlug] is idempotent, and it leaves a slug that is
    already in kebab case (words of [a-z0-9] joined by single hyphens) as
    it is. *)
Theorem normalizeSlug_fixes_kebab_slugs :
  forall (slug : string) (ws : list string),
    normalizeSlug (normalizeSlug slug) = normalizeSlug slug
    /\ (Forall slug_word ws ->
        normalizeSlug (String.concat "-" ws) = String.concat "-" ws).
Proof.
  intros slug ws. split; [apply normalizeSlug_idempotent|].
  intros Hws. now rewrite normalizeSlug_words, kebab_words_concat.
Qed.

Lemma normalizeSlug_fixes_kebab_slugs_witness :
  Forall slug_word ["how"; "to"; "parse"; "json"]
  /\ normalizeSlug "how-to-parse-json" = "how-to-parse-json".
Proof.
  assert (Hws : Forall slug_word ["how"; "to"; "parse"; "json"])
    by (repeat constructor).
  split; [exact Hws|].
  exact (proj2 (normalizeSlug_fixes_kebab_slugs "x" ["how"; "to"; "parse"; "json"]) Hws).
Defined.

Section Titles.

Context `{Host}.

Lemma substring_prefix (n : nat) (s : string) :
  exists rest, s = substring 0 n s ++ rest.
Proof.
  revert n. induction s as [|c s IH]; intros [|n]; cbn.
  - now exists "".
  - now exists "".
  - now exists (String c s).
  - destruct (IH n) as [rest E]. exists rest. now rewrite <- E.
Qed.

Lemma substring_length_le (n : nat) (s : string) :
  String.length (substring 0 n s) <= n.
Proof.
  revert n. induction s as [|c s IH]; intros [|n]; cbn; try lia.
  specialize (IH n). lia.
Qed.

Lemma substring_whole (n : nat) (s : string) :
  String.length s <= n -> substring 0 n s = s.
Proof.
  revert n. induction s as [|c s IH]; intros [|n]; cbn; try reflexivity; try lia.
  intros Hn. rewrite IH; [reflexivity | lia].
Qed.

Lemma truncateTitle_cut (t : string) (m : nat) :
  exists k, truncateTitle t (Some m) = substring 0 k t /\ (k <= m \/ String.length t <= m).
Proof.
  cbn [truncateTitle].
  destruct (Nat.leb (String.length t) m) eqn:El.
  - apply Nat.leb_le in El. exists m. split; [now rewrite substring_whole | now right].
  - destruct (lastIndexOf_space (substring 0 m t)) as [i|]; [|exists m; auto].
    destruct (exceeds70 i m); [|exists m; auto].
    exists (Nat.min i m). split; [|left; lia].
    clear. revert i m. induction t as [|c t IH]; intros [|i] [|m]; cbn; try reflexivity.
    now rewrite IH.
Qed.

End Titles.

(** X2.  With a length limit, [truncateTitle] returns a prefix of the title
    that is never longer than the limit; a title within the limit comes
    back whole; truncating twice is truncating once.  This holds whatever
    the floating-point comparison answers. *)
Theorem truncateTitle_is_a_bounded_prefix :
  forall (H : Host) (title : string) (maxLength : nat),
    String.length (truncateTitle title (Some maxLength)) <= maxLength
    /\ (exists rest, title = truncateTitle title (Some maxLength) ++ rest)
    /\ (String.length title <= maxLength -> truncateTitle title (Some maxLength) = title)
    /\ truncateTitle (truncateTitle title (Some maxLength)) (Some maxLength)
       = truncateTitle title (Some maxLength).
Proof.
  intros H t m.
  assert (Hwhole : forall s, String.length s <= m -> truncateTitle s (Some m) = s).
  { intros s Hs. cbn [truncateTitle]. apply Nat.leb_le in Hs. now rewrite Hs. }
  assert (Hlen : String.length (truncateTitle t (Some m)) <= m).
  { destruct (truncateTitle_cut t m) as (k & E & [Hk | Ht]).
    - rewrite E. pose proof (substring_length_le k t). lia.
    - now rewrite (Hwhole t Ht). }
  split; [exact Hlen|]. split.
  { destruct (truncateTitle_cut t m) as (k & E & _). rewrite E. apply substring_prefix. }
  split; [apply Hwhole | now apply Hwhole].
Qed.

Lemma truncateTitle_is_a_bounded_prefix_witness :
  String.length "A short title" <= 70
  /\ @truncateTitle canonicalHost "A short title" (Some 70) = "A short title".
Proof.
  assert (Hshort : String.length "A short title" <= 70) by (cbn; lia).
  split; [exact Hshort|].
  destruct (truncateTitle_is_a_bounded_prefix canonicalHost "A short title" 70)
    as (_ & _ & Hwhole & _).
  exact (Hwhole Hshort).
Defined.

Example truncateTitle_cuts_at_a_space :
  @truncateTitle canonicalHost "Reading files in Python line by line" (Some 20)
  = "Reading files in".
Proof. reflexivity. Qed.

(** ** Taxonomy resolver and technology label *)

Lemma lower_char_idempotent (c : ascii) : lower_char (lower_char c) = lower_char c.
Proof. destruct c as [[] [] [] [] [] [] [] []]; reflexivity. Qed.

Lemma toLowerCase_idempotent (s : string) : toLowerCase (toLowerCase s) = toLowerCase s.
Proof.
  unfold toLowerCase. induction s as [|c s IH]; cbn; [reflexivity|].
  now rewrite lower_char_idempotent, IH.
Qed.

Lemma lowered_tags (tgs : list string) :
  map toLowerCase (map toLowerCase tgs) = map toLowerCase tgs.
Proof.
  induction tgs as [|t tgs IH]; cbn; [reflexivity|].
  now rewrite toLowerCase_idempotent, IH.
Qed.

Lemma getTechnologyFromTags_lowered (tgs tgs' : list string) :
  map toLowerCase tgs = map toLowerCase tgs' ->
  getTechnologyFromTags tgs = getTechnologyFromTags tgs'.
Proof.
  revert tgs'. induction tgs as [|t tgs IH]; intros [|t' tgs'] E; cbn in E;
    try discriminate; [reflexivity|].
  injection E as Et Etgs. cbn [getTechnologyFromTags]. rewrite Et, (IH tgs' Etgs).
  reflexivity.
Qed.

(** X3.  Tags are matched without regard to case: two tag lists that agree
    once lowercased give the same category, the same subcategory and the
    same technology label. *)
Theorem tag_matching_ignores_case :
  forall (cats : taxonomy) (category : jsv) (subcategory : option string)
         (tags tags' : list string),
    map toLowerCase tags = map toLowerCase tags' ->
    mapCategory cats category subcategory tags = mapCategory cats category subcategory tags'
    /\ mapSubcategory category subcategory tags = mapSubcategory category subcategory tags'
    /\ getTechnologyFromTags tags = getTechnologyFromTags tags'.
Proof.
  intros cats c sub tgs tgs' E. split; [|split].
  - unfold mapCategory. now rewrite E.
  - unfold mapSubcategory. now rewrite E.
  - now apply getTechnologyFromTags_lowered.
Qed.

Lemma tag_matching_ignores_case_witness :
  map toLowerCase ["MySQL"; "Docker"] = map toLowerCase ["mysql"; "DOCKER"]
  /\ getTechnologyFromTags ["MySQL"; "Docker"] = getTechnologyFromTags ["mysql"; "DOCKER"].
Proof.
  split; [reflexivity|].
  apply (tag_matching_ignores_case [] (JStr "x") None ["MySQL"; "Docker"] ["mysql"; "DOCKER"]).
  reflexivity.
Defined.

(** X4.  For a category that is in the taxonomy and is not [programming],
    the tags play no part: [mapCategory] returns the rename of the category
    when the rename table has one, and otherwise the category itself
    (unless it names a member of [Object.prototype]). *)
Theorem mapCategory_known_category_ignores_tags :
  forall (cats : taxonomy) (category : jsv) (subcategory : option string)
         (tags : list string),
    category_exists cats category = true ->
    category <> JStr "programming" ->
    mapCategory cats category subcategory tags
    = mapCategory cats category subcategory []
    /\ (forall renamed,
           own_property categoryMappings (to_string category) = Some renamed ->
           mapCategory cats category subcategory tags = JStr renamed)
    /\ (own_property categoryMappings (to_string category) = None ->
        existsb (String.eqb (to_string category)) objectPrototypeKeys = false ->
        mapCategory cats category subcategory tags = category).
Proof.
  intros cats c sub tgs Hex Hnp.
  assert (Hp : jsv_eqb c (JStr "programming") = false).
  { destruct (jsv_eqb c (JStr "programming")) eqn:E; [|reflexivity].
    apply jsv_eqb_eq in E. contradiction. }
  assert (Hall : forall t, mapCategory cats c sub t
                           = lookup_or categoryMappings (to_string c) c).
  { intros t. unfold mapCategory. now rewrite Hp, Hex. }
  split; [now rewrite !Hall|]. split.
  - intros renamed Hown. rewrite Hall. unfold lookup_or, obj_lookup. rewrite Hown.
    cbn [truthy]. now rewrite (categoryMappings_truthy _ _ Hown).
  - intros Hown Hproto. rewrite Hall. unfold lookup_or, obj_lookup.
    now rewrite Hown, Hproto.
Qed.

Lemma mapCategory_known_category_ignores_tags_witness :
  category_exists sampleTaxonomy (JStr "web-frontend") = true
  /\ mapCategory sampleTaxonomy (JStr "web-frontend") (Some "css") ["mysql"; "docker"]
     = JStr "web-frontend".
Proof.
  split; [reflexivity|].
  destruct (mapCategory_known_category_ignores_tags sampleTaxonomy (JStr "web-frontend")
              (Some "css") ["mysql"; "docker"] eq_refl ltac:(discriminate))
    as (_ & _ & Hsame).
  apply Hsame; reflexivity.
Defined.

(** X5.  [mapSubcategory] only ever replaces the placeholder [general], and
    only for the four categories it has rules for: there it returns one of
    that category's listed subcategories, never [general] again; a
    subcategory other than [general], and any subcategory of another
    category, comes back unchanged. *)
Theorem mapSubcategory_replaces_only_general :
  forall (category : jsv) (subcategory : option string) (tags : list string),
    (subcategory <> Some "general" ->
     mapSubcategory category subcategory tags = subcategory)
    /\ (forall name subs,
           In (name, subs) specificSubcategories ->
           category = JStr name ->
           exists r, mapSubcategory category (Some "general") tags = Some r
                     /\ In r subs /\ r <> "general")
    /\ ((forall name subs, In (name, subs) specificSubcategories -> category <> JStr name) ->
        mapSubcategory category subcategory tags = subcategory).
Proof.
  intros c sub tgs. split; [|split].
  - intros Hsub. apply mapSubcategory_not_general.
    destruct (opt_eqb String.eqb sub (Some "general")) eqn:E; [|reflexivity].
    apply opt_string_eqb_eq in E. contradiction.
  - intros name subs Hin ->. unfold specificSubcategories in Hin. cbn [In] in Hin.
    unfold mapSubcategory. cbn [opt_eqb String.eqb Ascii.eqb Bool.eqb].
    repeat (destruct Hin as [[= <- <-] | Hin]); try contradiction;
      cbn [jsv_eqb String.eqb Ascii.eqb Bool.eqb];
      repeat match goal with
             | |- context [if ?b then _ else _] => destruct b
             end;
      eexists; (split; [reflexivity|]); (split; [cbn; tauto | discriminate]).
  - intros Hother. unfold mapSubcategory.
    destruct (opt_eqb String.eqb sub (Some "general")); [|reflexivity].
    assert (Hne : forall name subs, In (name, subs) specificSubcategories ->
                                    jsv_eqb c (JStr name) = false).
    { intros name subs Hin. destruct (jsv_eqb c (JStr name)) eqn:E; [|reflexivity].
      apply jsv_eqb_eq in E. exfalso. exact (Hother name subs Hin E). }
    rewrite (Hne "databases" _ ltac:(cbn; tauto)).
    rewrite (Hne "programming-languages" _ ltac:(cbn; tauto)).
    rewrite (Hne "system-devops" _ ltac:(cbn; tauto)).
    now rewrite (Hne "web-frontend" _ ltac:(cbn; tauto)).
Qed.

Lemma mapSubcategory_replaces_only_general_witness :
  In ("databases", ["sql"; "mysql"; "postgresql"; "mongodb"]) specificSubcategories
  /\ exists r, mapSubcategory (JStr "databases") (Some "general") ["MySQL"; "sql-server"] = Some r
               /\ In r ["sql"; "mysql"; "postgresql"; "mongodb"] /\ r <> "general".
Proof.
  assert (Hin : In ("databases", ["sql"; "mysql"; "postgresql"; "mongodb"])
                   specificSubcategories) by (cbn; tauto).
  split; [exact Hin|].
  destruct (mapSubcategory_replaces_only_general (JStr "databases") (Some "general")
              ["MySQL"; "sql-server"]) as (_ & Hgen & _).
  exact (Hgen _ _ Hin eq_refl).
Defined.

Lemma getTechnologyFromTags_skips_unknown (before after : list string) :
  Forall unknown_technology before ->
  getTechnologyFromTags (before ++ after)%list = getTechnologyFromTags after.
Proof.
  induction 1 as [|t before Ht _ IH]; [reflexivity|].
  cbn [app getTechnologyFromTags]. unfold unknown_technology in Ht. now rewrite Ht.
Qed.

Lemma technologyMappings_truthy (key value : string) :
  own_property technologyMappings key = Some value -> nonempty value = true.
Proof.
  unfold technologyMappings. cbn [own_property].
  repeat (destruct (String.eqb _ key); [intros [= <-]; reflexivity|]).
  discriminate.
Qed.

(** X6.  The technology label is that of the first tag, in tag order, that
    the label table knows (compared in lowercase); tags before it that the
    table does not know have no effect, and neither has anything after it.
    When no tag is known the label is [Programming]. *)
Theorem getTechnologyFromTags_first_known_tag :
  forall (before after : list string) (tag label : string),
    Forall unknown_technology before ->
    (own_property technologyMappings (toLowerCase tag) = Some label ->
     getTechnologyFromTags (before ++ tag :: after)%list = JStr label)
    /\ getTechnologyFromTags before = JStr "Programming".
Proof.
  intros before after tag label Hb. split.
  - intros Hown. rewrite (getTechnologyFromTags_skips_unknown _ _ Hb).
    cbn [getTechnologyFromTags]. unfold obj_lookup. rewrite Hown. cbn [truthy].
    now rewrite (technologyMappings_truthy _ _ Hown).
  - rewrite <- (app_nil_r before). now rewrite (getTechnologyFromTags_skips_unknown _ _ Hb).
Qed.

Lemma getTechnologyFromTags_first_known_tag_witness :
  Forall unknown_technology ["files"; "io"]
  /\ getTechnologyFromTags ["files"; "io"; "Python"; "js"] = JStr "Python".
Proof.
  assert (Hb : Forall unknown_technology ["files"; "io"]) by (repeat constructor).
  split; [exact Hb|].
  destruct (getTechnologyFromTags_first_known_tag ["files"; "io"] ["js"] "Python" "Python" Hb)
    as [Hfirst _].
  apply Hfirst. reflexivity.
Defined.

(** ** Body rewriting *)

Section Rewriting.

Variable matcher : string -> option (string * nat).

Lemma replace_all_scan (c : ascii) (r : string) :
  replace_all matcher 0 (String c r)
  = match matcher (String c r) with
    | Some (replacement, len) => replacement ++ replace_all matcher (Nat.pred len) r
    | None => String c (replace_all matcher 0 r)
    end.
Proof. reflexivity. Qed.

Lemma replace_all_skip (x rest : string) :
  replace_all matcher (String.length x) (x ++ rest) = replace_all matcher 0 rest.
Proof.
  induction x as [|c x IH]; cbn.
  - now destruct rest.
  - exact IH.
Qed.

(** A pattern whose matches all start with the character [first] changes
    nothing in a text without that character. *)
Lemma replace_all_without_first (first : ascii) (s : string) :
  (forall c r, Ascii.eqb c first = false -> matcher (String c r) = None) ->
  all_chars (fun c => negb (Ascii.eqb c first)) s = true ->
  replace_all matcher 0 s = s.
Proof.
  intros Hm. induction s as [|c r IH]; cbn; [reflexivity|].
  intros Hs. apply andb_prop in Hs as [Hc Hr]. apply negb_true_iff in Hc.
  now rewrite (Hm c r Hc), (IH Hr).
Qed.

End Rewriting.

Lemma strip_prefix_cons (a b : ascii) (p s : string) :
  strip_prefix (String a p) (String b s)
  = if Ascii.eqb a b then strip_prefix p s else None.
Proof. reflexivity. Qed.

Lemma strip_prefix_head (p : string) (a c : ascii) (r : string) :
  Ascii.eqb c a = false -> strip_prefix (String a p) (String c r) = None.
Proof. intros E. cbn. now rewrite Ascii.eqb_sym, E. Qed.

Lemma match_fence_needs_backtick (c : ascii) (r : string) :
  Ascii.eqb c "`" = false -> match_fence (String c r) = None.
Proof. intros E. unfold match_fence, fence. now rewrite strip_prefix_head. Qed.

Lemma match_mermaid_needs_backtick (c : ascii) (r : string) :
  Ascii.eqb c "`" = false -> match_mermaid (String c r) = None.
Proof.
  intros E. unfold match_mermaid, fence.
  change ("```" ++ nl) with (String "`" ("``" ++ nl)). now rewrite strip_prefix_head.
Qed.

Lemma match_image_needs_bang (c : ascii) (r : string) :
  Ascii.eqb c "!" = false -> match_image (String c r) = None.
Proof. intros E. unfold match_image. now rewrite strip_prefix_head. Qed.

(** X7.  A body with no backtick passes [processCodeBlocks] unchanged, and a
    body with no exclamation mark passes [processImagePlaceholders]
    unchanged. *)
Theorem plain_body_is_not_rewritten :
  forall content : string,
    (all_chars (fun c => negb (Ascii.eqb c "`")) content = true ->
     processCodeBlocks content = content)
    /\ (all_chars (fun c => negb (Ascii.eqb c "!")) content = true ->
        processImagePlaceholders content = content).
Proof.
  intros content. split; intros Hc.
  - unfold processCodeBlocks.
    rewrite (replace_all_without_first match_fence "`" content
               match_fence_needs_backtick Hc).
    exact (replace_all_without_first match_mermaid "`" content
             match_mermaid_needs_backtick Hc).
  - exact (replace_all_without_first match_image "!" content match_image_needs_bang Hc).
Qed.

Lemma plain_body_is_not_rewritten_witness :
  all_chars (fun c => negb (Ascii.eqb c "`")) "Open the file, then read it." = true
  /\ processCodeBlocks "Open the file, then read it." = "Open the file, then read it.".
Proof.
  split; [reflexivity|].
  destruct (plain_body_is_not_rewritten "Open the file, then read it.") as [Hcode _].
  apply Hcode. reflexivity.
Defined.

Lemma strip_prefix_before_paren (p t rest : string) :
  all_chars (fun c => negb (Ascii.eqb c ")")) p = true ->
  strip_prefix p t = None ->
  strip_prefix p (t ++ String ")" rest) = None.
Proof.
  revert t. induction p as [|a p IH]; intros t Hp Ht; [discriminate|].
  cbn in Hp. apply andb_prop in Hp as [Ha Hp].
  destruct t as [|b t]; cbn in *.
  - apply negb_true_iff in Ha. now rewrite Ha.
  - destruct (Ascii.eqb a b); [now apply IH | reflexivity].
Qed.

(** The image pattern at the head of a well-formed reference. *)
Lemma match_image_reference (alt target rest : string) :
  nonempty alt = true ->
  all_chars (fun c => negb (Ascii.eqb c "]")) alt = true ->
  nonempty target = true ->
  all_chars (fun c => negb (Ascii.eqb c ")")) target = true ->
  strip_prefix "PLACEHOLDER:" target = None ->
  match_image ("![" ++ alt ++ "](" ++ target ++ ")" ++ rest)
  = Some ("![" ++ alt ++ "](PLACEHOLDER: " ++ alt ++ " - " ++ target ++ ")",
          2 + String.length alt + 2 + String.length target + 1).
Proof.
  intros Ha1 Ha2 Ht1 Ht2 Hp. unfold match_image.
  rewrite strip_prefix_append.
  rewrite (span_append _ alt ("](" ++ target ++ ")" ++ rest) Ha2) by reflexivity.
  rewrite Ha1, (strip_prefix_append "](" (target ++ ")" ++ rest)).
  change (target ++ ")" ++ rest) with (target ++ String ")" rest).
  rewrite (strip_prefix_before_paren "PLACEHOLDER:" target rest eq_refl Hp).
  rewrite (span_append _ target (String ")" rest) Ht2) by reflexivity.
  now rewrite Ht1.
Qed.

(** The image pattern applied at a well-formed reference. *)
Lemma image_reference_rewritten :
  forall alt target rest : string,
    nonempty alt = true ->
    all_chars (fun c => negb (Ascii.eqb c "]")) alt = true ->
    nonempty target = true ->
    all_chars (fun c => negb (Ascii.eqb c ")")) target = true ->
    strip_prefix "PLACEHOLDER:" target = None ->
    processImagePlaceholders ("![" ++ alt ++ "](" ++ target ++ ")" ++ rest)
    = "![" ++ alt ++ "](PLACEHOLDER: " ++ alt ++ " - " ++ target ++ ")"
        ++ processImagePlaceholders rest.
Proof.
  intros alt target rest Ha1 Ha2 Ht1 Ht2 Hp.
  unfold processImagePlaceholders.
  pose proof (match_image_reference alt target rest Ha1 Ha2 Ht1 Ht2 Hp) as Hm.
  change ("![" ++ alt ++ "](" ++ target ++ ")" ++ rest)
    with (String "!" (String "[" (alt ++ "](" ++ target ++ ")" ++ rest))) in Hm |- *.
  rewrite replace_all_scan, Hm.
  assert (Hk : replace_all match_image
                 (Nat.pred (2 + String.length alt + 2 + String.length target + 1))
                 (String "[" (alt ++ "](" ++ target ++ ")" ++ rest))
               = replace_all match_image 0 rest).
  { rewrite <- (replace_all_skip match_image ("[" ++ alt ++ "](" ++ target ++ ")") rest).
    f_equal.
    - cbn. rewrite !length_append. cbn. rewrite !length_append. cbn. lia.
    - cbn. repeat (rewrite append_assoc; cbn). reflexivity. }
  rewrite Hk. now rewrite !append_assoc.
Qed.

(** X8.  An image reference [![alt](target)] with a non-empty alternative
    text free of closing brackets and a non-empty target free of closing
    parentheses, not yet a placeholder, is rewritten to
    [![alt](PLACEHOLDER: alt - target)]; rewriting then goes on with the
    text after the reference. *)
Theorem image_reference_becomes_placeholder :
  forall alt target rest : string,
    nonempty alt = true ->
    all_chars (fun c => negb (Ascii.eqb c "]")) alt = true ->
    nonempty target = true ->
    all_chars (fun c => negb (Ascii.eqb c ")")) target = true ->
    strip_prefix "PLACEHOLDER:" target = None ->
    processImagePlaceholders ("![" ++ alt ++ "](" ++ target ++ ")" ++ rest)
    = "![" ++ alt ++ "](PLACEHOLDER: " ++ alt ++ " - " ++ target ++ ")"
        ++ processImagePlaceholders rest.
Proof. exact image_reference_rewritten. Qed.

Lemma image_reference_becomes_placeholder_witness :
  strip_prefix "PLACEHOLDER:" "images/open.png" = None
  /\ processImagePlaceholders ("![" ++ "Diagram" ++ "](" ++ "images/open.png" ++ ")" ++ " shows it.")
     = "![Diagram](PLACEHOLDER: Diagram - images/open.png) shows it.".
Proof.
  split; [reflexivity|].
  rewrite (image_reference_becomes_placeholder "Diagram" "images/open.png" " shows it.");
    reflexivity.
Defined.

(** X9.  Rewriting is stable on such a reference when neither its parts nor
    the text after it hold another exclamation mark: a second pass over the
    rewritten text changes nothing. *)
Theorem image_placeholder_is_stable :
  forall alt target rest : string,
    nonempty alt = true ->
    all_chars (fun c => negb (Ascii.eqb c "]")) alt = true ->
    nonempty target = true ->
    all_chars (fun c => negb (Ascii.eqb c ")")) target = true ->
    strip_prefix "PLACEHOLDER:" target = None ->
    all_chars (fun c => negb (Ascii.eqb c "!")) (alt ++ target ++ rest) = true ->
    processImagePlaceholders
      (processImagePlaceholders ("![" ++ alt ++ "](" ++ target ++ ")" ++ rest))
    = processImagePlaceholders ("![" ++ alt ++ "](" ++ target ++ ")" ++ rest).
Proof.
  intros alt target rest Ha1 Ha2 Ht1 Ht2 Hp Hbang.
  rewrite (image_reference_rewritten alt target rest Ha1 Ha2 Ht1 Ht2 Hp).
  rewrite !all_chars_append in Hbang.
  apply andb_prop in Hbang as [Hba Hbang]. apply andb_prop in Hbang as [Hbt Hbr].
  assert (Hrest : processImagePlaceholders rest = rest)
    by exact (replace_all_without_first match_image "!" rest match_image_needs_bang Hbr).
  rewrite Hrest. unfold processImagePlaceholders.
  pose proof (match_image_skips_placeholder alt
                (" " ++ alt ++ " - " ++ target ++ ")" ++ rest) Ha2) as Hskip.
  change ("![" ++ alt ++ "](PLACEHOLDER: " ++ alt ++ " - " ++ target ++ ")" ++ rest)
    with (String "!" ("[" ++ alt ++ "](PLACEHOLDER: " ++ alt ++ " - " ++ target ++ ")" ++ rest)).
  change ("![" ++ alt ++ "](PLACEHOLDER:" ++ " " ++ alt ++ " - " ++ target ++ ")" ++ rest)
    with (String "!" ("[" ++ alt ++ "](PLACEHOLDER: " ++ alt ++ " - " ++ target ++ ")" ++ rest))
    in Hskip.
  rewrite replace_all_scan, Hskip. f_equal.
  apply (replace_all_without_first match_image "!" _ match_image_needs_bang).
  rewrite !all_chars_append. cbn [all_chars append].
  now rewrite Hba, Hbt, Hbr.
Qed.

Lemma image_placeholder_is_stable_witness :
  all_chars (fun c => negb (Ascii.eqb c "!")) ("Diagram" ++ "images/open.png" ++ " shows it.") = true
  /\ processImagePlaceholders
       (processImagePlaceholders ("![" ++ "Diagram" ++ "](" ++ "images/open.png" ++ ")" ++ " shows it."))
     = processImagePlaceholders ("![" ++ "Diagram" ++ "](" ++ "images/open.png" ++ ")" ++ " shows it.").
Proof.
  split; [reflexivity|].
  apply (image_placeholder_is_stable "Diagram" "images/open.png" " shows it."); reflexivity.
Defined.

(** Without that restriction a second pass can wrap again: a target that
    itself holds a reference is rewritten at the second pass. *)
Example image_rewriting_can_wrap_again :
  processImagePlaceholders "![p](![a](b)" = "![p](PLACEHOLDER: p - ![a](b)"
  /\ processImagePlaceholders "![p](PLACEHOLDER: p - ![a](b)"
     = "![p](PLACEHOLDER: p - ![a](PLACEHOLDER: a - b)".
Proof. split; reflexivity. Qed.

(** ** Fence languages *)

Lemma word_char_lowered (c : ascii) :
  is_word_char c = true -> is_word_char (lower_char c) = true.
Proof. destruct c as [[] [] [] [] [] [] [] []]; vm_compute; congruence. Qed.

Lemma word_char_no_fence (c : ascii) :
  is_word_char c = true ->
  Ascii.eqb c "`" = false /\ Ascii.eqb (ascii_of_nat 10) c = false.
Proof. destruct c as [[] [] [] [] [] [] [] []]; vm_compute; intuition congruence. Qed.

Lemma word_lowered (s : string) :
  all_chars is_word_char s = true -> all_chars is_word_char (toLowerCase s) = true.
Proof.
  unfold toLowerCase. induction s as [|c s IH]; cbn; [reflexivity|].
  intros H. apply andb_prop in H as [Hc Hs].
  now rewrite (word_char_lowered c Hc), (IH Hs).
Qed.

Lemma word_without_backtick (s : string) :
  all_chars is_word_char s = true ->
  all_chars (fun c => negb (Ascii.eqb c "`")) s = true.
Proof.
  induction s as [|c s IH]; cbn; [reflexivity|].
  intros H. apply andb_prop in H as [Hc Hs].
  destruct (word_char_no_fence c Hc) as [E _]. now rewrite E, (IH Hs).
Qed.

Lemma nonempty_lowered (s : string) : nonempty (toLowerCase s) = nonempty s.
Proof. now destruct s. Qed.

Lemma own_property_value (table : list (string * string)) (key v : string) :
  own_property table key = Some v -> In v (map snd table).
Proof.
  induction table as [|[k w] table IH]; cbn; [discriminate|].
  destruct (String.eqb k key); [intros [= ->]; now left | intros H; right; now apply IH].
Qed.

Lemma languageMappings_canonical :
  forallb canonical_language (map snd languageMappings) = true.
Proof. vm_compute. reflexivity. Qed.

(** Away from the members of [Object.prototype], every fence language is
    relabelled with a canonical name. *)
Lemma mappedLanguage_canonical (language : string) :
  nonempty language = true ->
  all_chars is_word_char language = true ->
  existsb (String.eqb (toLowerCase language)) objectPrototypeKeys = false ->
  exists name, mappedLanguage language = JStr name /\ canonical_language name = true.
Proof.
  intros Hn Hw Hp. unfold mappedLanguage, lookup_or, obj_lookup. rewrite Hp.
  destruct (own_property languageMappings (toLowerCase language)) as [v|] eqn:Hv.
  - apply own_property_value in Hv.
    pose proof (proj1 (forallb_forall _ _) languageMappings_canonical v Hv) as Hc.
    exists v. split; [|exact Hc].
    unfold canonical_language in Hc.
    repeat (apply andb_prop in Hc as [Hc ?]).
    cbn [truthy]. now rewrite Hc.
  - exists (toLowerCase language). split; [reflexivity|].
    unfold canonical_language, mappedLanguage, lookup_or, obj_lookup.
    rewrite !toLowerCase_idempotent, Hv, Hp, nonempty_lowered, Hn, (word_lowered _ Hw).
    cbn. now rewrite !String.eqb_refl.
Qed.

Lemma match_fence_language (language rest : string) :
  nonempty language = true ->
  all_chars is_word_char language = true ->
  match rest with String c _ => is_word_char c = false | EmptyString => True end ->
  match_fence (fence ++ language ++ rest)
  = Some (fence ++ to_string (mappedLanguage language), 3 + String.length language).
Proof.
  intros Hn Hw Hr. unfold match_fence.
  rewrite strip_prefix_append, (span_append is_word_char language rest Hw Hr), Hn.
  reflexivity.
Qed.

Lemma fence_pass_language (language rest : string) :
  nonempty language = true ->
  all_chars is_word_char language = true ->
  match rest with String c _ => is_word_char c = false | EmptyString => True end ->
  all_chars (fun c => negb (Ascii.eqb c "`")) rest = true ->
  replace_all match_fence 0 (fence ++ language ++ rest)
  = fence ++ to_string (mappedLanguage language) ++ rest.
Proof.
  intros Hn Hw Hr Hb.
  pose proof (match_fence_language language rest Hn Hw Hr) as Hm.
  change (fence ++ language ++ rest) with (String "`" ("``" ++ language ++ rest)) in Hm |- *.
  rewrite replace_all_scan, Hm.
  assert (Hk : replace_all match_fence (Nat.pred (3 + String.length language))
                 ("``" ++ language ++ rest)
               = replace_all match_fence 0 rest).
  { rewrite <- (replace_all_skip match_fence ("``" ++ language) rest).
    f_equal; cbn; rewrite ?length_append, ?append_assoc; reflexivity. }
  rewrite Hk, (replace_all_without_first match_fence "`" rest match_fence_needs_backtick Hb).
  now rewrite !append_assoc.
Qed.

(** The diagram pass leaves a fence alone that carries a language. *)
Lemma mermaid_pass_labelled_fence (name rest : string) :
  nonempty name = true ->
  all_chars is_word_char name = true ->
  all_chars (fun c => negb (Ascii.eqb c "`")) rest = true ->
  replace_all match_mermaid 0 (fence ++ name ++ rest) = fence ++ name ++ rest.
Proof.
  intros Hn Hw Hb. destruct name as [|c name]; [discriminate|].
  cbn in Hw. apply andb_prop in Hw as [Hc Hw].
  destruct (word_char_no_fence c Hc) as [Hc1 Hc2].
  assert (Hx : replace_all match_mermaid 0 (String c name ++ rest) = String c name ++ rest).
  { apply (replace_all_without_first match_mermaid "`" _ match_mermaid_needs_backtick).
    rewrite all_chars_append. cbn. now rewrite Hc1, (word_without_backtick name Hw), Hb. }
  set (x := String c name ++ rest) in *.
  assert (Hq : Ascii.eqb "`" c = false) by now rewrite Ascii.eqb_sym.
  assert (H1 : match_mermaid (String "`" x) = None).
  { unfold match_mermaid, fence, nl, x. cbn [append].
    now rewrite !strip_prefix_cons, !Ascii.eqb_refl, Hq. }
  assert (H2 : match_mermaid (String "`" (String "`" x)) = None).
  { unfold match_mermaid, fence, nl, x. cbn [append].
    now rewrite !strip_prefix_cons, !Ascii.eqb_refl, Hq. }
  assert (H3 : match_mermaid (String "`" (String "`" (String "`" x))) = None).
  { unfold match_mermaid, fence, nl, x. cbn [append].
    now rewrite !strip_prefix_cons, !Ascii.eqb_refl, Hc2. }
  change (fence ++ x) with (String "`" (String "`" (String "`" x))).
  now rewrite replace_all_scan, H3, replace_all_scan, H2, replace_all_scan, H1, Hx.
Qed.

(** X10.  A fence that opens with a language word (not a member of
    [Object.prototype]) in a body with no other backtick is relabelled with
    the mapped language, which is a canonical name; the relabelled body is
    then a fixed point of [processCodeBlocks]. *)
Theorem fence_language_is_canonicalised :
  forall language rest : string,
    nonempty language = true ->
    all_chars is_word_char language = true ->
    existsb (String.eqb (toLowerCase language)) objectPrototypeKeys = false ->
    match rest with String c _ => is_word_char c = false | EmptyString => True end ->
    all_chars (fun c => negb (Ascii.eqb c "`")) rest = true ->
    exists name,
      mappedLanguage language = JStr name
      /\ canonical_language name = true
      /\ processCodeBlocks (fence ++ language ++ rest) = fence ++ name ++ rest
      /\ processCodeBlocks (fence ++ name ++ rest) = fence ++ name ++ rest.
Proof.
  intros language rest Hn Hw Hp Hr Hb.
  destruct (mappedLanguage_canonical language Hn Hw Hp) as [name [Hm Hc]].
  exists name. split; [exact Hm|]. split; [exact Hc|].
  unfold canonical_language in Hc.
  apply andb_prop in Hc as [Hc Hfix]. apply andb_prop in Hc as [Hc _].
  apply andb_prop in Hc as [Hc _]. apply andb_prop in Hc as [Hnn Hnw].
  apply jsv_eqb_eq in Hfix.
  unfold processCodeBlocks. split.
  - rewrite (fence_pass_language language rest Hn Hw Hr Hb), Hm. cbn [to_string].
    exact (mermaid_pass_labelled_fence name rest Hnn Hnw Hb).
  - rewrite (fence_pass_language name rest Hnn Hnw Hr Hb), Hfix. cbn [to_string].
    exact (mermaid_pass_labelled_fence name rest Hnn Hnw Hb).
Qed.

Lemma fence_language_is_canonicalised_witness :
  existsb (String.eqb (toLowerCase "JS")) objectPrototypeKeys = false
  /\ exists name,
       mappedLanguage "JS" = JStr name
       /\ canonical_language name = true
       /\ processCodeBlocks (fence ++ "JS" ++ nl ++ "let x = 1;")
          = fence ++ name ++ nl ++ "let x = 1;"
       /\ processCodeBlocks (fence ++ name ++ nl ++ "let x = 1;")
          = fence ++ name ++ nl ++ "let x = 1;".
Proof.
  split; [reflexivity|].
  apply (fence_language_is_canonicalised "JS" (nl ++ "let x = 1;")); reflexivity.
Defined.

(** The language pass leaves a fence alone that carries no language. *)
Lemma fence_pass_bare_fence (x : string) :
  match x with String c _ => is_word_char c = false | EmptyString => True end ->
  all_chars (fun c => negb (Ascii.eqb c "`")) x = true ->
  replace_all match_fence 0 (fence ++ x) = fence ++ x.
Proof.
  intros Hx Hb.
  assert (Hr : replace_all match_fence 0 x = x)
    by exact (replace_all_without_first match_fence "`" x match_fence_needs_backtick Hb).
  assert (Hq : match x with String c _ => Ascii.eqb "`" c = false | EmptyString => True end).
  { destruct x as [|c x]; [exact I|]. cbn in Hb. apply andb_prop in Hb as [Hb _].
    apply negb_true_iff in Hb. now rewrite Ascii.eqb_sym. }
  assert (H1 : match_fence (String "`" x) = None).
  { unfold match_fence, fence. destruct x as [|c x]; [reflexivity|].
    now rewrite !strip_prefix_cons, !Ascii.eqb_refl, Hq. }
  assert (H2 : match_fence (String "`" (String "`" x)) = None).
  { unfold match_fence, fence. destruct x as [|c x]; [reflexivity|].
    now rewrite !strip_prefix_cons, !Ascii.eqb_refl, Hq. }
  assert (H3 : match_fence (String "`" (String "`" (String "`" x))) = None).
  { unfold match_fence.
    change (String "`" (String "`" (String "`" x))) with (fence ++ x).
    rewrite strip_prefix_append. destruct x as [|c x]; [reflexivity|].
    cbn [span]. now rewrite Hx. }
  change (fence ++ x) with (String "`" (String "`" (String "`" x))).
  now rewrite replace_all_scan, H3, replace_all_scan, H2, replace_all_scan, H1, Hr.
Qed.

Lemma mermaidKeywords_words :
  forallb (fun kw => nonempty kw && all_chars is_word_char kw)%bool mermaidKeywords = true.
Proof. reflexivity. Qed.

Lemma match_mermaid_keyword (kw rest : string) :
  In kw mermaidKeywords ->
  match_mermaid (fence ++ nl ++ kw ++ rest)
  = Some (fence ++ "mermaid" ++ nl ++ kw, 4 + String.length kw).
Proof.
  intros Hkw. unfold match_mermaid.
  rewrite <- (append_assoc fence nl (kw ++ rest)), strip_prefix_append.
  unfold mermaidKeywords in Hkw |- *. cbn [In] in Hkw.
  repeat (destruct Hkw as [<- | Hkw]; [now destruct rest|]).
  contradiction.
Qed.

(** X11.  A fence with no language whose first line starts with one of the
    diagram keywords is labelled [mermaid] (in a body with no other
    backtick), and the labelled body is a fixed point of
    [processCodeBlocks]. *)
Theorem diagram_fence_is_labelled_mermaid :
  forall kw rest : string,
    In kw mermaidKeywords ->
    all_chars (fun c => negb (Ascii.eqb c "`")) rest = true ->
    processCodeBlocks (fence ++ nl ++ kw ++ rest) = fence ++ "mermaid" ++ nl ++ kw ++ rest
    /\ processCodeBlocks (fence ++ "mermaid" ++ nl ++ kw ++ rest)
       = fence ++ "mermaid" ++ nl ++ kw ++ rest.
Proof.
  intros kw rest Hkw Hb.
  pose proof (proj1 (forallb_forall _ _) mermaidKeywords_words kw Hkw) as Hw.
  apply andb_prop in Hw as [_ Hw].
  assert (Hx : all_chars (fun c => negb (Ascii.eqb c "`")) (nl ++ kw ++ rest) = true).
  { rewrite !all_chars_append, (word_without_backtick kw Hw), Hb. reflexivity. }
  unfold processCodeBlocks. split.
  - rewrite (fence_pass_bare_fence (nl ++ kw ++ rest) eq_refl Hx).
    pose proof (match_mermaid_keyword kw rest Hkw) as Hm.
    change (fence ++ nl ++ kw ++ rest) with (String "`" ("``" ++ nl ++ kw ++ rest)) in Hm |- *.
    rewrite replace_all_scan, Hm.
    assert (Hk : replace_all match_mermaid (Nat.pred (4 + String.length kw))
                   ("``" ++ nl ++ kw ++ rest)
                 = replace_all match_mermaid 0 rest).
    { rewrite <- (replace_all_skip match_mermaid ("``" ++ nl ++ kw) rest).
      f_equal; cbn; rewrite ?length_append, ?append_assoc; reflexivity. }
    rewrite Hk, (replace_all_without_first match_mermaid "`" rest
                   match_mermaid_needs_backtick Hb).
    cbn. repeat (rewrite append_assoc; cbn). reflexivity.
  - rewrite (fence_pass_language "mermaid" (nl ++ kw ++ rest) eq_refl eq_refl eq_refl Hx).
    exact (mermaid_pass_labelled_fence "mermaid" (nl ++ kw ++ rest) eq_refl eq_refl Hx).
Qed.

Lemma diagram_fence_is_labelled_mermaid_witness :
  In "flowchart" mermaidKeywords
  /\ processCodeBlocks (fence ++ nl ++ "flowchart" ++ " TD; A-->B")
     = fence ++ "mermaid" ++ nl ++ "flowchart" ++ " TD; A-->B".
Proof.
  split; [right; left; reflexivity|].
  destruct (diagram_fence_is_labelled_mermaid "flowchart" " TD; A-->B") as [Hfirst _];
    [right; left; reflexivity | reflexivity | exact Hfirst].
Defined.

(** ** A second validation *)

Lemma generateUniqueId_hex32 (key : string) :
  exists w, generateUniqueId key = Sha256.hex32 w.
Proof.
  unfold generateUniqueId.
  destruct (hex_starts_with_first_word (Sha256.utf8 (salt ++ "-" ++ key))) as (w & rest & E).
  exists w. rewrite E.
  change 8 with (String.length (Sha256.hex32 w)) at 1.
  apply substring_all_prefix.
Qed.

Lemma generateUniqueId_passes (key : string) :
  nonempty (generateUniqueId key) = true /\ is_hex8 (generateUniqueId key) = true.
Proof.
  destruct (generateUniqueId_hex32 key) as [w ->]. split; [reflexivity|].
  unfold is_hex8. now rewrite hex32_length, hex32_lower_hex.
Qed.

Lemma opt_string_eqb_refl (a : option string) : opt_eqb String.eqb a a = true.
Proof. destruct a; cbn; [apply String.eqb_refl | reflexivity]. Qed.

Lemma existsb_In_string (k : string) (l : list string) :
  existsb (String.eqb k) l = true -> In k l.
Proof.
  intros H. apply existsb_exists in H as (x & Hx & E).
  apply String.eqb_eq in E. now subst.
Qed.

(** What the rename table gives is kept by the rename table. *)
Lemma renamed_category_fixed (c : jsv) :
  let renamed := lookup_or categoryMappings (to_string c) c in
  lookup_or categoryMappings (to_string renamed) renamed = renamed.
Proof.
  cbv zeta. unfold lookup_or at 2 3 4, obj_lookup.
  destruct (own_property categoryMappings (to_string c)) as [v|] eqn:Ev.
  - apply own_property_value in Ev. cbn in Ev.
    repeat (destruct Ev as [<- | Ev]; [reflexivity|]). contradiction.
  - destruct (existsb (String.eqb (to_string c)) objectPrototypeKeys) eqn:Ep.
    + apply existsb_In_string in Ep. cbn [truthy]. cbn in Ep.
      repeat (destruct Ep as [<- | Ep]; [reflexivity|]). contradiction.
    + unfold lookup_or, obj_lookup. now rewrite Ev, Ep.
Qed.

Lemma stable_taxonomy_keeps (cats : taxonomy) (c : jsv) :
  stable_taxonomy cats = true ->
  category_exists cats c = true ->
  jsv_eqb c (JStr "programming") = false ->
  lookup_or categoryMappings (to_string c) c = c.
Proof.
  unfold stable_taxonomy, category_exists. intros Hs Hc Hp.
  apply existsb_exists in Hc as (cat & Hin & Hc). apply jsv_eqb_eq in Hc. subst c.
  pose proof (proj1 (forallb_forall _ _) Hs cat Hin) as Hk. cbn [jsv_eqb] in Hp.
  cbv beta in Hk. rewrite Hp in Hk. cbn [orb] in Hk. now apply jsv_eqb_eq in Hk.
Qed.

(** Over such a taxonomy, mapping a mapped category again gives the same
    category, whatever the subcategory. *)
Lemma mapCategory_idempotent (cats : taxonomy) (c : jsv) (sub sub' : option string)
    (tgs : list string) :
  stable_taxonomy cats = true ->
  mapCategory cats (mapCategory cats c sub tgs) sub' tgs = mapCategory cats c sub tgs.
Proof.
  intros Hs.
  pose proof (renamed_category_fixed c) as Hfix. cbv zeta in Hfix.
  assert (Hsignal : forall name : string,
             String.eqb name "programming" = false ->
             lookup_or categoryMappings name (JStr name) = JStr name ->
             (if (jsv_eqb (JStr name) (JStr "programming")
                  || negb (category_exists cats (JStr name)))%bool
              then JStr name
              else lookup_or categoryMappings (to_string (JStr name)) (JStr name))
             = JStr name).
  { intros name Hp Hk. cbn [jsv_eqb to_string]. rewrite Hp, Hk.
    now destruct (negb _). }
  unfold mapCategory.
  destruct (jsv_eqb c (JStr "programming") || negb (category_exists cats c))%bool eqn:Ec.
  - destruct (some_tag_in _ _);
      [cbv iota; exact (Hsignal "databases" eq_refl eq_refl)|].
    destruct (some_tag_in _ _);
      [cbv iota; exact (Hsignal "system-devops" eq_refl eq_refl)|].
    destruct (some_tag_in _ _);
      [cbv iota; exact (Hsignal "web-frontend" eq_refl eq_refl)|].
    destruct (some_tag_in _ _);
      [cbv iota; exact (Hsignal "mobile" eq_refl eq_refl)|].
    cbv iota. rewrite Hfix.
    match goal with |- context [if ?b then _ else _] => now destruct b end.
  - apply orb_false_elim in Ec as [Ep Ex]. apply negb_false_iff in Ex.
    rewrite !(stable_taxonomy_keeps cats c Hs Ex Ep), Ep, Ex. reflexivity.
Qed.

Lemma mapSubcategory_idempotent (c : jsv) (sub : option string) (tgs : list string) :
  mapSubcategory c (mapSubcategory c sub tgs) tgs = mapSubcategory c sub tgs.
Proof.
  unfold mapSubcategory.
  destruct (opt_eqb String.eqb sub (Some "general")) eqn:Eg; [|now rewrite Eg].
  repeat match goal with
         | |- context [if ?b then _ else _] =>
             match b with
             | opt_eqb _ _ _ => fail 1
             | _ => destruct b
             end
         end; try reflexivity.
  now rewrite Eg.
Qed.

(** Once categories are mapped, the mapping block changes nothing and
    prints nothing. *)
Lemma autoFixCategories_settled (cats : taxonomy) (m m' : Metadata) :
  stable_taxonomy cats = true ->
  category m' = mapped_category cats m ->
  subcategory m' = mapped_subcategory cats m ->
  tags m' = tags m ->
  autoFixCategories cats m' = (m', []).
Proof.
  intros Hs Hc Hsub Ht. unfold autoFixCategories, mapped_category, mapped_subcategory in *.
  rewrite Ht.
  destruct (category m) as [c|] eqn:Ec; [|now rewrite Hc].
  destruct (tags m) as [tgs|] eqn:Etg; [|now destruct (category m')].
  destruct (truthy c) eqn:Etr.
  - rewrite Hc, Hsub.
    destruct (truthy (mapCategory cats c (subcategory m) tgs)); [|reflexivity].
    rewrite (mapCategory_idempotent cats c (subcategory m) _ tgs Hs), jsv_eqb_refl.
    cbn [negb]. rewrite Hsub, mapSubcategory_idempotent, opt_string_eqb_refl.
    reflexivity.
  - rewrite Hc, Etr. reflexivity.
Qed.

(** Once the identifier is generated, the identifier block changes nothing
    and prints nothing. *)
Lemma fixUniqueId_settled (m : Metadata) :
  fixUniqueId (fst (fixUniqueId m)) = (fst (fixUniqueId m), []).
Proof.
  unfold fixUniqueId at 2 3.
  destruct (sourceStackOverflowId m) as [sid|] eqn:Es;
    [|cbn [fst]; unfold fixUniqueId; now rewrite Es].
  destruct (nonempty sid) eqn:En;
    [|cbn [fst]; unfold fixUniqueId; now rewrite Es, En].
  destruct (generateUniqueId_passes sid) as [Hne _].
  assert (Hset : fixUniqueId (set_uniqueId (Some (generateUniqueId sid)) m)
                 = (set_uniqueId (Some (generateUniqueId sid)) m, [])).
  { unfold fixUniqueId. cbn [sourceStackOverflowId uniqueId set_uniqueId].
    rewrite Es, En. cbn [truthy_str]. rewrite Hne. cbn [negb].
    now rewrite opt_string_eqb_refl. }
  destruct (truthy_str (uniqueId m)) eqn:Eu; cbn [negb fst]; [|exact Hset].
  destruct (opt_eqb String.eqb (uniqueId m) (Some (generateUniqueId sid))) eqn:Ee;
    cbn [negb fst]; [|exact Hset].
  unfold fixUniqueId. now rewrite Es, En, Eu, Ee.
Qed.

Lemma autoFixCategories_notes (cats : taxonomy) (m : Metadata) :
  filter is_warning (snd (autoFixCategories cats m)) = [].
Proof.
  unfold autoFixCategories.
  destruct (category m) as [c|]; [|reflexivity].
  destruct (tags m) as [tgs|]; [|reflexivity].
  destruct (truthy c); [|reflexivity].
  destruct (negb (jsv_eqb _ c)); cbn [subcategory set_category];
    destruct (negb (opt_eqb String.eqb _ _)); reflexivity.
Qed.

Lemma fixUniqueId_notes (m : Metadata) : filter is_warning (snd (fixUniqueId m)) = [].
Proof.
  unfold fixUniqueId.
  destruct (sourceStackOverflowId m) as [sid|]; [|reflexivity].
  destruct (nonempty sid); [|reflexivity].
  destruct (negb (truthy_str _)); [reflexivity|].
  destruct (negb (opt_eqb _ _ _)); reflexivity.
Qed.

Section Revalidation.

Context `{Host}.

Lemma qualityNotes_warnings (m : Metadata) :
  filter is_warning (qualityNotes m) = qualityNotes m.
Proof.
  unfold qualityNotes.
  destruct (qualityMetrics m) as [q|]; [|reflexivity].
  destruct (codeBlocks q) as [cb|], (wordCount q) as [wc|]; cbn;
    repeat match goal with |- context [if ?b then _ else _] => destruct b end;
    reflexivity.
Qed.

Lemma settled_settled (cats : taxonomy) (m : Metadata) :
  stable_taxonomy cats = true ->
  autoFixCategories cats (settled cats m) = (settled cats m, [])
  /\ fixUniqueId (settled cats m) = (settled cats m, []).
Proof.
  intros Hs. destruct (settled_effect cats m) as (U & C & S & _).
  split.
  - apply (autoFixCategories_settled cats m (settled cats m) Hs C S).
    unfold untouched in U. tauto.
  - unfold settled. apply fixUniqueId_settled.
Qed.

End Revalidation.

(** X12.  Over a taxonomy whose categories the rename table keeps, a second
    validation of the record the first one left behind assigns nothing:
    the record stays as it is, the same errors are returned, and only the
    quality warnings of the first run are printed again. *)
Theorem validateJsonStructure_settles :
  forall (H : Host) (cats : taxonomy) (jsonData : JsonData),
    stable_taxonomy cats = true ->
    let first := validateJsonStructure cats jsonData in
    let second := validateJsonStructure cats (validated first) in
    validated second = validated first
    /\ errors second = errors first
    /\ notes second = filter is_warning (notes first).
Proof.
  intros H cats jsonData Hs. cbv zeta.
  destruct (metadata jsonData) as [m|] eqn:Em.
  - destruct (validate_unfold cats jsonData m Em) as (He & Hv & Hn). cbv zeta in He, Hv, Hn.
    destruct (settled_settled cats m Hs) as [Ha Hf].
    rewrite Hv, He, Hn.
    rewrite !filter_app, autoFixCategories_notes, fixUniqueId_notes, qualityNotes_warnings.
    unfold validateJsonStructure. cbn [metadata content]. rewrite Ha, Hf.
    cbn [errors validated notes].
    destruct (truthy_str (content jsonData)); repeat split; reflexivity.
  - unfold validateJsonStructure. rewrite Em. cbn [validated]. rewrite Em.
    repeat split; reflexivity.
Qed.

Lemma validateJsonStructure_settles_witness :
  stable_taxonomy sampleTaxonomy = true
  /\ validated (validateJsonStructure (H := canonicalHost) sampleTaxonomy
                  (validated (validateJsonStructure (H := canonicalHost) sampleTaxonomy sampleJson)))
     = validated (validateJsonStructure (H := canonicalHost) sampleTaxonomy sampleJson).
Proof.
  split; [reflexivity|].
  destruct (validateJsonStructure_settles canonicalHost sampleTaxonomy sampleJson eq_refl)
    as (Hsame & _).
  exact Hsame.
Defined.

(** Over a taxonomy that still has an old name the second validation can
    file the record elsewhere: [devops] is renamed at the first run, the new
    name is unknown to the taxonomy, and the tags decide at the second. *)
Example validateJsonStructure_remaps_old_names :
  stable_taxonomy oldTaxonomy = false
  /\ option_map category
       (metadata (validated (validateJsonStructure (H := canonicalHost) oldTaxonomy oldNameJson)))
     = Some (Some (JStr "system-devops"))
  /\ option_map category
       (metadata (validated
          (validateJsonStructure (H := canonicalHost) oldTaxonomy
             (validated (validateJsonStructure (H := canonicalHost) oldTaxonomy oldNameJson)))))
     = Some (Some (JStr "databases")).
Proof. repeat split; vm_compute; reflexivity. Qed.

(** ** What validation guarantees *)

Lemma required_fields_present (m : Metadata) (field : string) :
  requiredFieldErrors m = [] -> In field requiredFields -> field_truthy m field = true.
Proof.
  intros He Hin. destruct (field_truthy m field) eqn:Ef; [reflexivity|].
  pose proof (missing_field_reported m field Hin Ef) as Hrep.
  rewrite He in Hrep. contradiction.
Qed.

Lemma truthy_str_some (v : option string) :
  truthy_str v = true -> exists s, v = Some s /\ nonempty s = true.
Proof. destruct v as [s|]; [intros E; now exists s | discriminate]. Qed.

Lemma formatErrors_hex8 (m : Metadata) (u : string) :
  formatErrors m = [] -> uniqueId m = Some u -> nonempty u = true -> is_hex8 u = true.
Proof.
  unfold formatErrors. intros He Hu Hn. rewrite Hu, Hn in He.
  destruct (is_hex8 u); [reflexivity | discriminate].
Qed.

Section Guarantees.

Context `{Host}.

(** The checks of a record that passes validation. *)
Lemma valid_checks (cats : taxonomy) (jsonData : JsonData) :
  isValid (validateJsonStructure cats jsonData) = true ->
  exists m body,
    metadata jsonData = Some m
    /\ content jsonData = Some body /\ nonempty body = true
    /\ validated (validateJsonStructure cats jsonData)
       = mkJsonData (Some (settled cats m)) (Some body)
    /\ requiredFieldErrors (settled cats m) = []
    /\ formatErrors (settled cats m) = []
    /\ categoryErrors cats (settled cats m) = []
    /\ qualityErrors (settled cats m) = [].
Proof.
  intros Hv. destruct (metadata jsonData) as [m|] eqn:Em.
  - destruct (validate_unfold cats jsonData m Em) as (He & Hd & _). cbv zeta in He, Hd.
    unfold isValid in Hv. rewrite He in Hv.
    destruct (truthy_str (content jsonData)) eqn:Ec; [|discriminate].
    apply truthy_str_some in Ec as (body & Eb & Hb).
    cbn [app] in Hv.
    destruct (requiredFieldErrors (settled cats m)) eqn:E1; [|discriminate].
    destruct (formatErrors (settled cats m)) eqn:E2; [|discriminate].
    destruct (categoryErrors cats (settled cats m)) eqn:E3; [|discriminate].
    destruct (qualityErrors (settled cats m)) eqn:E4; [|discriminate].
    exists m, body. rewrite Hd, Eb. repeat split; try reflexivity; assumption.
  - unfold validateJsonStructure, isValid in Hv. rewrite Em in Hv. discriminate.
Qed.

End Guarantees.

(** X13.  The note about missing code blocks is never printed: its test
    asks for a count that is truthy and equal to zero. *)
Theorem no_code_blocks_note_is_never_printed :
  forall (H : Host) (cats : taxonomy) (jsonData : JsonData),
    Forall (fun n => n <> NoCodeBlocks) (notes (validateJsonStructure cats jsonData)).
Proof.
  intros H cats jsonData.
  destruct (metadata jsonData) as [m|] eqn:Em.
  - destruct (validate_unfold cats jsonData m Em) as (_ & _ & Hn). cbv zeta in Hn.
    rewrite Hn. apply Forall_app; split; [|apply Forall_app; split].
    + unfold autoFixCategories.
      destruct (category m) as [c|]; [|constructor].
      destruct (tags m) as [tgs|]; [|constructor].
      destruct (truthy c); [|constructor].
      destruct (negb (jsv_eqb _ c)); cbn [subcategory set_category];
        destruct (negb (opt_eqb String.eqb _ _)); cbn [snd app];
        repeat constructor; discriminate.
    + unfold fixUniqueId.
      destruct (sourceStackOverflowId (fst (autoFixCategories cats m))) as [sid|]; [|constructor].
      destruct (nonempty sid); [|constructor].
      destruct (negb (truthy_str _)); [repeat constructor; discriminate|].
      destruct (negb (opt_eqb _ _ _)); repeat constructor; discriminate.
    + unfold qualityNotes.
      destruct (qualityMetrics (settled cats m)) as [q|];
        [|repeat constructor; discriminate].
      destruct (codeBlocks q) as [cb|], (wordCount q) as [wc|];
        try destruct (Z.eqb cb 0); cbn [negb andb app];
        repeat match goal with |- context [if ?b then _ else _] => destruct b end;
        repeat constructor; discriminate.
  - unfold validateJsonStructure. rewrite Em. constructor.
Qed.

(** What the composer makes of a record that passed validation. *)
Lemma valid_conversion (H : Host) (cats : taxonomy) (now : string) (jsonData : JsonData) :
  isValid (validateJsonStructure cats jsonData) = true ->
  exists m s u c,
    metadata (validated (validateJsonStructure cats jsonData)) = Some m
    /\ slug m = Some s /\ uniqueId m = Some u
    /\ nonempty u = true /\ is_hex8 u = true
    /\ convertJsonToMdx now (validated (validateJsonStructure cats jsonData)) = Some c
    /\ mdxFilename c = normalizeSlug s ++ "-" ++ u ++ ".mdx"
    /\ filename (result c) = Some (mdxFilename c)
    /\ uniqueId (result c) = Some u.
Proof.
  intros Hv.
  destruct (valid_checks cats jsonData Hv)
    as (m0 & body & _ & _ & _ & Hd & Hreq & Hfmt & _).
  set (m := settled cats m0) in *.
  pose proof (required_fields_present m "title" Hreq) as Ht.
  pose proof (required_fields_present m "slug" Hreq) as Hs.
  pose proof (required_fields_present m "uniqueId" Hreq) as Hu.
  pose proof (required_fields_present m "description" Hreq) as Hdesc.
  unfold requiredFields in Ht, Hs, Hu, Hdesc. cbn [In] in Ht, Hs, Hu, Hdesc.
  apply truthy_str_some in Ht as (t & Et & _); [|tauto].
  apply truthy_str_some in Hs as (s & Es & _); [|tauto].
  apply truthy_str_some in Hu as (u & Eu & Hne); [|tauto].
  apply truthy_str_some in Hdesc as (d & Ed & _); [|tauto].
  exists m, s, u. rewrite Hd. unfold convertJsonToMdx. cbn [metadata content].
  rewrite Et, Es. unfold generateMdxFrontmatter, set_slug, set_title.
  cbn [title slug description uniqueId]. rewrite Ed, Eu.
  eexists. split; [reflexivity|]. split; [reflexivity|]. split; [reflexivity|].
  split; [exact Hne|].
  split; [exact (formatErrors_hex8 m u Hfmt Eu Hne)|].
  split; [reflexivity|]. repeat split; reflexivity.
Qed.

(** ** The run on disk *)

Section Run.

Context `{Host}.

Lemma processFile_valid (cats : taxonomy) (now : string) (f : fileRun)
    (jsonData : JsonData) (c : Conversion) :
  parsed f = Some jsonData ->
  isValid (validateJsonStructure cats jsonData) = true ->
  convertJsonToMdx now (validated (validateJsonStructure cats jsonData)) = Some c ->
  processFile cats now f
  = if mdxWritten f then Converted c
    else if failureLogged f then ProcessingFailed else Aborted.
Proof. intros Hp Hv Hc. unfold processFile. now rewrite Hp, Hv, Hc. Qed.

(** A pass pushes a conversion exactly for a file that [converts]. *)
Lemma processFile_converted (cats : taxonomy) (now : string) (f : fileRun) :
  (converts cats f = true ->
   exists jsonData c,
     parsed f = Some jsonData
     /\ convertJsonToMdx now (validated (validateJsonStructure cats jsonData)) = Some c
     /\ processFile cats now f = Converted c)
  /\ (converts cats f = false -> forall c, processFile cats now f <> Converted c).
Proof.
  unfold converts, processFile. split.
  - destruct (parsed f) as [jd|]; [|discriminate].
    intros Hc. apply andb_prop in Hc as [Hv Hw].
    destruct (valid_conversion H cats now jd Hv)
      as (m & s & u & c & _ & _ & _ & _ & _ & Hconv & _).
    exists jd, c. rewrite Hv, Hconv, Hw. repeat split; reflexivity.
  - destruct (parsed f) as [jd|]; [|intros _ c; destruct (failureLogged f); discriminate].
    destruct (isValid (validateJsonStructure cats jd)); cbn [andb].
    + intros -> c.
      destruct (convertJsonToMdx now _); destruct (failureLogged f); discriminate.
    + intros _ c. destruct (errorsLogged f); [discriminate|].
      destruct (failureLogged f); discriminate.
Qed.

Lemma processJsonFiles_batch (cats : taxonomy) (now : string) (files : list fileRun)
    (batch : list Conversion) :
  processJsonFiles cats now files = Some batch ->
  Forall2 (fun f c =>
             exists jsonData,
               parsed f = Some jsonData
               /\ isValid (validateJsonStructure cats jsonData) = true
               /\ convertJsonToMdx now (validated (validateJsonStructure cats jsonData))
                  = Some c)
          (filter (converts cats) files) batch.
Proof.
  revert batch. induction files as [|f files IH]; intros batch; cbn [processJsonFiles filter].
  - intros [= <-]. constructor.
  - destruct (processFile_converted cats now f) as [Hyes Hno].
    destruct (converts cats f) eqn:Ec.
    + destruct (Hyes eq_refl) as (jd & c & Hp & Hconv & ->).
      destruct (processJsonFiles cats now files) as [rest|]; [|discriminate].
      intros [= <-]. constructor; [|now apply IH].
      exists jd. split; [exact Hp|]. split; [|exact Hconv].
      unfold converts in Ec. rewrite Hp in Ec. now apply andb_prop in Ec as [Hv _].
    + specialize (Hno eq_refl).
      destruct (processFile cats now f) as [c| | |];
        [exfalso; exact (Hno c eq_refl) | apply IH | apply IH | discriminate].
Qed.



(** Every conversion of a run carries a truthy identifier. *)
Lemma processJsonFiles_identified (cats : taxonomy) (now : string) (files : list fileRun)
    (batch : list Conversion) :
  processJsonFiles cats now files = Some batch ->
  Forall (fun c => truthy_str (uniqueId (result c)) = true) batch.
Proof.
  intros Hrun. pose proof (processJsonFiles_batch cats now files batch Hrun) as Hall.
  clear Hrun.
  induction Hall as [|f c fs cs (jd & _ & Hv & Hc) _ IH]; [constructor|].
  constructor; [|exact IH].
  destruct (valid_conversion H cats now jd Hv)
    as (m & s & u & c' & _ & _ & _ & Hne & _ & Hconv & _ & _ & Hid).
  rewrite Hconv in Hc. injection Hc as <-. now rewrite Hid.
Qed.

End Run.

(** X14.  A file that passes validation is set aside only when the write of
    its MDX file throws.  Validation leaves the composer every field it
    dereferences, so the composition itself succeeds and names the file by
    the normalized slug and an identifier of eight lowercase hexadecimal
    digits; the pass then pushes that conversion when the write returns,
    and takes the [catch] block when it throws. *)
Theorem valid_file_fails_only_at_the_write :
  forall (H : Host) (cats : taxonomy) (now : string) (f : fileRun) (jsonData : JsonData),
    parsed f = Some jsonData ->
    isValid (validateJsonStructure cats jsonData) = true ->
    exists m s u c,
      metadata (validated (validateJsonStructure cats jsonData)) = Some m
      /\ slug m = Some s /\ uniqueId m = Some u /\ is_hex8 u = true
      /\ convertJsonToMdx now (validated (validateJsonStructure cats jsonData)) = Some c
      /\ mdxFilename c = normalizeSlug s ++ "-" ++ u ++ ".mdx"
      /\ filename (result c) = Some (mdxFilename c)
      /\ (mdxWritten f = true -> processFile cats now f = Converted c)
      /\ (mdxWritten f = false ->
          processFile cats now f = if failureLogged f then ProcessingFailed else Aborted).
Proof.
  intros H cats now f jsonData Hp Hv.
  destruct (valid_conversion H cats now jsonData Hv)
    as (m & s & u & c & Hm & Hs & Hu & _ & Hhex & Hc & Hname & Hfile & _).
  pose proof (processFile_valid cats now f jsonData c Hp Hv Hc) as Hpass.
  exists m, s, u, c.
  split; [exact Hm|]. split; [exact Hs|]. split; [exact Hu|]. split; [exact Hhex|].
  split; [exact Hc|]. split; [exact Hname|]. split; [exact Hfile|].
  split; intros Hw; rewrite Hw in Hpass; exact Hpass.
Qed.

(** The record with a slug of three hundred characters passes validation;
    its file name has 313 characters, and when the write throws the file is
    set aside. *)
Lemma valid_file_fails_only_at_the_write_witness :
  isValid (validateJsonStructure (H := canonicalHost) sampleTaxonomy longSlugJson) = true
  /\ exists c,
       convertJsonToMdx (H := canonicalHost) monday
         (validated (validateJsonStructure (H := canonicalHost) sampleTaxonomy longSlugJson))
       = Some c
       /\ String.length (mdxFilename c) = 313
       /\ processFile (H := canonicalHost) sampleTaxonomy monday
            (mkFileRun (Some longSlugJson) false true true) = ProcessingFailed
       /\ processFile (H := canonicalHost) sampleTaxonomy monday
            (mkFileRun (Some longSlugJson) true true true) = Converted c.
Proof.
  assert (Hvalid : isValid (validateJsonStructure (H := canonicalHost) sampleTaxonomy
                              longSlugJson) = true) by (vm_compute; reflexivity).
  split; [exact Hvalid|].
  destruct (valid_file_fails_only_at_the_write canonicalHost sampleTaxonomy monday
              (mkFileRun (Some longSlugJson) false true true) longSlugJson eq_refl Hvalid)
    as (m & s & u & c & _ & _ & _ & _ & Hc & _ & _ & _ & Hthrown).
  destruct (valid_file_fails_only_at_the_write canonicalHost sampleTaxonomy monday
              (mkFileRun (Some longSlugJson) true true true) longSlugJson eq_refl Hvalid)
    as (m' & s' & u' & c' & _ & _ & _ & _ & Hc' & _ & _ & Hwritten & _).
  exists c. split; [exact Hc|].
  split.
  { vm_compute in Hc. injection Hc as <-. vm_compute. reflexivity. }
  split; [exact (Hthrown eq_refl)|].
  rewrite Hc in Hc'. injection Hc' as <-. exact (Hwritten eq_refl).
Defined.



(** ** The catalog after a run *)

Lemma or_str_truthy (a : option string) (b : string) :
  nonempty b = true -> truthy_str (or_str a (Some b)) = true.
Proof. intros Hb. unfold or_str. destruct (truthy_str a) eqn:Ea; [exact Ea | exact Hb]. Qed.

Lemma filter_all (keep : Article.t -> bool) (articles : list Article.t) :
  Forall (fun a => keep a = true) articles -> filter keep articles = articles.
Proof.
  induction 1 as [|a articles Ha _ IH]; cbn; [reflexivity|]. now rewrite Ha, IH.
Qed.

(** X15.  The index entry of a converted article points to the file the
    composer wrote: its [filename] is the composer's file name, and its
    title, slug and identifier are those of the conversion result. *)
Theorem index_entry_names_the_written_file :
  forall (H : Host) (now later : string) (jsonData : JsonData) (c : Conversion)
         (e : Article.t),
    convertJsonToMdx now jsonData = Some c ->
    indexEntry later c = Some e ->
    Article.filename e = Some (mdxFilename c)
    /\ Article.filename e = filename (result c)
    /\ Article.title e = title (result c)
    /\ Article.slug e = slug (result c)
    /\ Article.id e = uniqueId (result c).
Proof.
  intros H now later jsonData c e Hc He.
  unfold convertJsonToMdx in Hc.
  destruct (metadata jsonData) as [m|]; [|discriminate].
  destruct (content jsonData) as [body|]; [|discriminate].
  destruct (title m) as [t|]; [|discriminate].
  destruct (slug m) as [s|]; [|discriminate].
  destruct (generateMdxFrontmatter now _) as [frontmatter|]; [|discriminate].
  injection Hc as <-.
  unfold indexEntry in He. cbn [result] in He.
  match type of He with
  | match ?tech with Some _ => _ | None => _ end = _ => destruct tech; [|discriminate]
  end.
  injection He as <-. cbn. repeat split; reflexivity.
Qed.

Lemma index_entry_names_the_written_file_witness :
  exists c e,
    convertJsonToMdx (H := canonicalHost) monday undatedJson = Some c
    /\ indexEntry tuesday c = Some e
    /\ Article.filename e = Some "reading-files-in-python-20c31c35.mdx"
    /\ Article.filename e = Some (mdxFilename c).
Proof.
  assert (Hc : exists c, convertJsonToMdx (H := canonicalHost) monday undatedJson = Some c)
    by (vm_compute; eexists; reflexivity).
  destruct Hc as [c Hc].
  assert (He : exists e, indexEntry tuesday c = Some e
                         /\ Article.filename e = Some "reading-files-in-python-20c31c35.mdx").
  { vm_compute in Hc. injection Hc as <-. vm_compute. eexists. split; reflexivity. }
  destruct He as (e & He & Hname).
  exists c, e. split; [exact Hc|]. split; [exact He|]. split; [exact Hname|].
  destruct (index_entry_names_the_written_file canonicalHost monday tuesday undatedJson c e
              Hc He) as [Hfile _].
  exact Hfile.
Defined.

Section Reload.

Context `{Host}.

(** In memory, every article of the merged index passes the filter of
    [loadArticleIndex]. *)
Lemma merged_articles_pass (cats : taxonomy) (now later : string)
    (fileArticles : option (list Article.t)) (files : list fileRun)
    (batch : list Conversion) (idx : Index.t) :
  nonempty later = true ->
  processJsonFiles cats now files = Some batch ->
  updateArticleIndex later (loadArticleIndex fileArticles) batch = Some idx ->
  Forall (fun a => truthy_str (Article.id a) = true
                   /\ truthy_jsv (Article.technology a) = true
                   /\ truthy_str (Article.publishedAt a) = true)
         (Index.articles idx).
Proof.
  intros Hlater Hrun Hidx.
  destruct (updateArticleIndex_unfold _ _ _ _ Hidx) as (kept & es & Hkept & Hes & Harts & _).
  rewrite Harts. apply Forall_app. split.
  - subst kept. apply Forall_forall. intros a Ha.
    apply filter_In in Ha as [Ha _].
    unfold loadArticleIndex in Ha. destruct fileArticles as [articles|]; [|contradiction].
    apply filter_In in Ha as [_ Ha].
    apply andb_prop in Ha as [Ha Hpub]. apply andb_prop in Ha as [Hid Htech]. auto.
  - pose proof (processJsonFiles_identified cats now files batch Hrun) as Hids.
    clear Hidx Harts Hkept Hrun.
    induction Hes as [|c e batch es Hce _ IH]; [constructor|].
    apply Forall_cons_iff in Hids as [Hid Hids].
    constructor; [|exact (IH Hids)].
    destruct (indexEntry_fields later c e Hce) as (_ & _ & Eid & Htech).
    rewrite Eid. split; [exact Hid|]. split; [exact Htech|].
    unfold indexEntry in Hce.
    match type of Hce with
    | match ?tech with Some _ => _ | None => _ end = _ => destruct tech; [|discriminate]
    end.
    injection Hce as <-. cbn [Article.publishedAt]. now apply or_str_truthy.
Qed.

End Reload.

Lemma reloaded_as_written (a : Article.t) : storedAsWritten a = true -> reloaded a = a.
Proof.
  unfold storedAsWritten, reloaded, isJsonValue. destruct a as [i t s c sc d tech r p f de tg fn lu].
  cbn. intros Hs. apply andb_prop in Hs as [Hc Ht].
  destruct c as [[?|?]|], tech as [[?|?]|]; try discriminate; reflexivity.
Qed.

Lemma reloaded_all_as_written (articles : list Article.t) :
  Forall (fun a => storedAsWritten a = true) articles -> map reloaded articles = articles.
Proof.
  induction 1 as [|a articles Ha _ IH]; cbn; [reflexivity|].
  now rewrite (reloaded_as_written a Ha), IH.
Qed.

(** X16.  The index written after a run, read back from its file once it
    has become the catalog, loses an article at the next load only for its
    technology: identifiers and publication dates always pass the filter of
    [loadArticleIndex], but a technology that is a function (the label of a
    tag that names a method of [Object.prototype]) is not written by
    [JSON.stringify] and the article is filtered out.  When every article has a string for its category and
    its technology the index loads back in full, as it was in memory. *)
Theorem written_index_loads_back :
  forall (H : Host) (cats : taxonomy) (now later : string)
         (fileArticles : option (list Article.t)) (files : list fileRun)
         (batch : list Conversion) (idx : Index.t),
    nonempty later = true ->
    processJsonFiles cats now files = Some batch ->
    updateArticleIndex later (loadArticleIndex fileArticles) batch = Some idx ->
    loadArticleIndex (Some (map reloaded (Index.articles idx)))
    = filter (fun a => truthy_jsv (Article.technology a)) (map reloaded (Index.articles idx))
    /\ (Forall (fun a => storedAsWritten a = true) (Index.articles idx) ->
        loadArticleIndex (Some (map reloaded (Index.articles idx))) = Index.articles idx).
Proof.
  intros H cats now later fileArticles files batch idx Hlater Hrun Hidx.
  pose proof (merged_articles_pass cats now later fileArticles files batch idx
                Hlater Hrun Hidx) as Hpass.
  assert (Hfilter : loadArticleIndex (Some (map reloaded (Index.articles idx)))
                    = filter (fun a => truthy_jsv (Article.technology a))
                             (map reloaded (Index.articles idx))).
  { unfold loadArticleIndex. apply filter_ext_in. intros a' Ha'.
    apply in_map_iff in Ha' as (a & <- & Ha).
    destruct (proj1 (Forall_forall _ _) Hpass a Ha) as (Hid & _ & Hpub).
    unfold reloaded. cbn [Article.id Article.technology Article.publishedAt].
    rewrite Hid, Hpub. cbn [andb]. now rewrite andb_true_r. }
  split; [exact Hfilter|].
  intros Hstored. rewrite Hfilter, (reloaded_all_as_written _ Hstored).
  apply filter_all. apply Forall_forall. intros a Ha.
  now destruct (proj1 (Forall_forall _ _) Hpass a Ha) as (_ & Htech & _).
Qed.

Lemma written_index_loads_back_witness :
  exists batch idx,
    processJsonFiles (H := canonicalHost) sampleTaxonomy monday [undisturbed datedJson]
    = Some batch
    /\ updateArticleIndex tuesday (loadArticleIndex (Some [sampleArticle])) batch = Some idx
    /\ Forall (fun a => storedAsWritten a = true) (Index.articles idx)
    /\ loadArticleIndex (Some (map reloaded (Index.articles idx))) = Index.articles idx.
Proof.
  assert (Hrun : exists batch,
             processJsonFiles (H := canonicalHost) sampleTaxonomy monday
               [undisturbed datedJson] = Some batch) by (vm_compute; eexists; reflexivity).
  destruct Hrun as [batch Hrun].
  assert (Hidx : exists idx,
             updateArticleIndex tuesday (loadArticleIndex (Some [sampleArticle])) batch
             = Some idx
             /\ Forall (fun a => storedAsWritten a = true) (Index.articles idx)).
  { vm_compute in Hrun. injection Hrun as <-. vm_compute.
    eexists. split; [reflexivity|]. repeat constructor. }
  destruct Hidx as (idx & Hidx & Hstored).
  exists batch, idx. split; [exact Hrun|]. split; [exact Hidx|]. split; [exact Hstored|].
  destruct (written_index_loads_back canonicalHost sampleTaxonomy monday tuesday
              (Some [sampleArticle]) [undisturbed datedJson] batch idx eq_refl Hrun Hidx)
    as [_ Hfull].
  exact (Hfull Hstored).
Defined.

(** A first tag that names a method of [Object.prototype] gives the article
    a function for its technology: the record passes validation and its
    article is in the merged index, but not among the articles loaded from
    the index file. *)
Example method_tag_article_is_lost_at_reload :
  option_map
    (fun idx =>
       (map Article.technology (Index.articles idx),
        map Article.slug (loadArticleIndex (Some (Index.articles idx))),
        map Article.slug (loadArticleIndex (Some (map reloaded (Index.articles idx))))))
    (updateArticleIndex tuesday (loadArticleIndex (Some [sampleArticle]))
       (successfulConversions (H := canonicalHost) sampleTaxonomy monday [methodTagJson]))
  = Some ([Some (JStr "MySQL"); Some (JProto "constructor")],
          [Some "joins-in-mysql"; Some "reading-files-in-python"],
          [Some "joins-in-mysql"]).
Proof. vm_compute. reflexivity. Qed.

(** X17.  The merge loses no article except by replacement: an article of
    the catalog stays exactly when no new article has its slug, every
    article of the result is a catalog article or the entry of a new one,
    the stamp is the instant of the merge, and an empty batch leaves the
    catalog as it was. *)
Theorem updateArticleIndex_keeps_the_rest :
  forall (now : string) (existing : list Article.t) (batch : list Conversion) (idx : Index.t),
    updateArticleIndex now existing batch = Some idx ->
    Index.lastUpdated idx = now
    /\ (forall a, In a existing ->
                  (In (Article.slug a) (batch_slugs batch) \/ In a (Index.articles idx)))
    /\ (forall a, In a (Index.articles idx) ->
                  (In a existing /\ ~ In (Article.slug a) (batch_slugs batch))
                  \/ exists c, In c batch /\ indexEntry now c = Some a)
    /\ List.length (Index.articles idx)
       = List.length (filter (fun a => negb (existsb (opt_eqb String.eqb (Article.slug a))
                                                     (batch_slugs batch))) existing)
         + List.length batch
    /\ (batch = [] -> Index.articles idx = existing).
Proof.
  intros now existing batch idx Hidx.
  destruct (updateArticleIndex_unfold _ _ _ _ Hidx) as (kept & es & Hkept & Hes & Harts & _).
  assert (Hstamp : Index.lastUpdated idx = now).
  { unfold updateArticleIndex in Hidx.
    destruct (indexEntries now batch); [|discriminate]. now injection Hidx as <-. }
  assert (Hkeep : forall a,
             negb (existsb (fun newArticle =>
                              opt_eqb String.eqb (slug (result newArticle)) (Article.slug a))
                           batch)
             = negb (existsb (opt_eqb String.eqb (Article.slug a)) (batch_slugs batch))).
  { intros a. f_equal. unfold batch_slugs. clear. induction batch as [|c batch IH]; cbn;
      [reflexivity|]. rewrite IH. f_equal.
    destruct (slug (result c)) as [x|], (Article.slug a) as [y|]; cbn;
      try reflexivity. apply String.eqb_sym. }
  split; [exact Hstamp|]. split; [|split; [|split]].
  - intros a Ha.
    destruct (existsb (fun newArticle =>
                         opt_eqb String.eqb (slug (result newArticle)) (Article.slug a))
                      batch) eqn:Ex.
    + left. now apply existsb_slug.
    + right. rewrite Harts. apply in_or_app. left. subst kept.
      apply filter_In. split; [exact Ha | now rewrite Ex].
  - intros a Ha. rewrite Harts in Ha. apply in_app_or in Ha as [Ha | Ha].
    + left. subst kept. apply filter_In in Ha as [Ha Hf]. split; [exact Ha|].
      intros Hs. apply existsb_slug in Hs. rewrite Hs in Hf. discriminate.
    + right. clear -Hes Ha. induction Hes as [|c e batch es Hce _ IH]; [contradiction|].
      destruct Ha as [<- | Ha].
      * exists c. split; [now left | exact Hce].
      * destruct (IH Ha) as (c' & Hc' & E). exists c'. split; [now right | exact E].
  - rewrite Harts, length_app. f_equal.
    + subst kept. f_equal. apply filter_ext. exact Hkeep.
    + symmetry. clear -Hes. induction Hes; cbn; congruence.
  - intros Hempty. rewrite Harts, Hkept. subst batch. inversion Hes. rewrite app_nil_r.
    clear. induction existing as [|a existing IH]; [reflexivity|].
    cbn [filter existsb negb]. f_equal. exact IH.
Qed.

Lemma updateArticleIndex_keeps_the_rest_witness :
  exists idx,
    updateArticleIndex tuesday [sampleArticle] sampleBatch = Some idx
    /\ Index.lastUpdated idx = tuesday
    /\ In sampleArticle (Index.articles idx).
Proof.
  assert (Hidx : exists idx, updateArticleIndex tuesday [sampleArticle] sampleBatch = Some idx)
    by (vm_compute; eexists; reflexivity).
  destruct Hidx as [idx Hidx]. exists idx. split; [exact Hidx|].
  destruct (updateArticleIndex_keeps_the_rest tuesday [sampleArticle] sampleBatch idx Hidx)
    as (Hstamp & Hkept & _).
  split; [exact Hstamp|].
  destruct (Hkept sampleArticle (or_introl eq_refl)) as [Hslug | Hin]; [|exact Hin].
  exfalso. vm_compute in Hslug. destruct Hslug as [Hslug | []]. discriminate.
Defined.

(** ** Adapted records *)

Lemma not_C_not_too_short (l : list string) :
  forallb not_C l = true -> Forall (fun e => e <> too_short_error) l.
Proof.
  intros Hl. apply Forall_forall. intros e Hin ->.
  rewrite forallb_forall in Hl. specialize (Hl _ Hin). discriminate.
Qed.

Section Adapter.

Context `{Host}.

Lemma adapted_settled (cats : taxonomy) (data : Upstream.t) :
  exists m0,
    metadata (convertFormat data) = Some m0
    /\ qualityMetrics (settled cats m0) = None
    /\ generatedAt (settled cats m0) = None
    /\ publishedAt (settled cats m0) = None
    /\ technology (settled cats m0) = None.
Proof.
  eexists. split; [reflexivity|].
  match goal with |- context [settled cats ?m] =>
    destruct (settled_effect cats m) as (U & _)
  end.
  unfold untouched in U.
  repeat match goal with H : _ /\ _ |- _ => destruct H end.
  repeat split; etransitivity; try eassumption; reflexivity.
Qed.

End Adapter.

(** X18.  An adapted record never fails the word-count check, whatever
    [word_count] the upstream file reports: the adapter passes no quality
    metrics, so validation only prints that none were provided. *)
Theorem adapted_record_skips_the_word_count :
  forall (H : Host) (cats : taxonomy) (data : Upstream.t),
    Forall (fun e => e <> too_short_error)
           (errors (validateJsonStructure cats (convertFormat data)))
    /\ In NoQualityMetrics (notes (validateJsonStructure cats (convertFormat data))).
Proof.
  intros H cats data.
  destruct (adapted_settled cats data) as (m0 & Hm & Hq & _).
  destruct (validate_unfold cats (convertFormat data) m0 Hm) as (He & _ & Hn).
  cbv zeta in He, Hn. rewrite He, Hn. split.
  - apply Forall_app; split;
      [|apply Forall_app; split; [|apply Forall_app; split; [|apply Forall_app; split]]].
    + destruct (truthy_str _); repeat constructor; discriminate.
    + apply not_C_not_too_short, requiredFieldErrors_not_C.
    + apply not_C_not_too_short, formatErrors_not_C.
    + apply not_C_not_too_short, categoryErrors_not_C.
    + unfold qualityErrors. rewrite Hq. constructor.
  - apply in_or_app. right. apply in_or_app. right.
    unfold qualityNotes. rewrite Hq. now left.
Qed.

(** The upstream sample reports fifty words and is valid once adapted. *)
Example adapted_sample_is_valid :
  Upstream.word_count sampleUpstream = Some 50%Z
  /\ isValid (validateJsonStructure (H := canonicalHost) sampleTaxonomy
                (convertFormat sampleUpstream)) = true.
Proof. split; vm_compute; reflexivity. Qed.

(** X19.  An adapted record is dated by the clock alone: the adapter passes
    neither [generatedAt] nor [publishedAt], so the [lastUpdated] of the
    conversion result is the instant of the conversion and the index entry
    is published and updated at the instant of the merge, whatever dates
    the upstream file brings. *)
Theorem adapted_record_is_dated_by_the_clock :
  forall (H : Host) (cats : taxonomy) (now later : string) (data : Upstream.t)
         (c : Conversion) (e : Article.t),
    convertJsonToMdx now (validated (validateJsonStructure cats (convertFormat data)))
    = Some c ->
    indexEntry later c = Some e ->
    lastUpdated (result c) = Some now
    /\ Article.publishedAt e = Some later
    /\ Article.lastUpdated e = Some later.
Proof.
  intros H cats now later data c e Hc He.
  destruct (adapted_settled cats data) as (m0 & Hm & _ & Hg & Hp & _).
  destruct (validate_unfold cats (convertFormat data) m0 Hm) as (_ & Hv & _).
  cbv zeta in Hv. rewrite Hv in Hc. clear Hv.
  set (m := settled cats m0) in *.
  unfold convertJsonToMdx in Hc. cbn [metadata content] in Hc.
  destruct (content (convertFormat data)) as [body|]; [|discriminate].
  destruct (title m) as [t|]; [|discriminate].
  destruct (slug m) as [s|]; [|discriminate].
  destruct (generateMdxFrontmatter now _) as [frontmatter|]; [|discriminate].
  injection Hc as <-.
  unfold indexEntry in He. cbn [result] in He.
  match type of He with
  | match ?tech with Some _ => _ | None => _ end = _ => destruct tech; [|discriminate]
  end.
  injection He as <-.
  unfold set_slug, set_title.
  cbn [result lastUpdated generatedAt publishedAt Article.publishedAt Article.lastUpdated].
  rewrite Hg, Hp. repeat split; reflexivity.
Qed.

Lemma adapted_record_is_dated_by_the_clock_witness :
  exists c e,
    convertJsonToMdx (H := canonicalHost) monday
      (validated (validateJsonStructure (H := canonicalHost) sampleTaxonomy
                    (convertFormat sampleUpstream))) = Some c
    /\ indexEntry tuesday c = Some e
    /\ Upstream.lastUpdated sampleUpstream = Some "2024-06-01T00:00:00.000Z"
    /\ lastUpdated (result c) = Some monday
    /\ Article.publishedAt e = Some tuesday.
Proof.
  assert (Hc : exists c,
             convertJsonToMdx (H := canonicalHost) monday
               (validated (validateJsonStructure (H := canonicalHost) sampleTaxonomy
                             (convertFormat sampleUpstream))) = Some c)
    by (vm_compute; eexists; reflexivity).
  destruct Hc as [c Hc].
  assert (He : exists e, indexEntry tuesday c = Some e).
  { vm_compute in Hc. injection Hc as <-. vm_compute. eexists. reflexivity. }
  destruct He as [e He].
  exists c, e. split; [exact Hc|]. split; [exact He|]. split; [reflexivity|].
  destruct (adapted_record_is_dated_by_the_clock canonicalHost sampleTaxonomy monday tuesday
              sampleUpstream c e Hc He) as (Hlast & Hpub & _).
  split; [exact Hlast | exact Hpub].
Defined.

(** ** The two composers *)

Section Composers.

Context `{Host}.

Lemma earlier_truncateTitle_default (t : string) :
  Earlier.truncateTitle t None = truncateTitle t (Some 70).
Proof. reflexivity. Qed.

Lemma truncateTitle_within (t : string) (m : nat) :
  String.length t <= m -> truncateTitle t (Some m) = t.
Proof. intros Ht. cbn [truncateTitle]. apply Nat.leb_le in Ht. now rewrite Ht. Qed.

Lemma truncateTitle_short (t : string) (m : nat) :
  String.length (truncateTitle t (Some m)) <= m.
Proof.
  destruct (truncateTitle_cut t m) as (k & E & [Hk | Ht]).
  - rewrite E. pose proof (substring_length_le k t). lia.
  - now rewrite (truncateTitle_within t m Ht).
Qed.

(** The template of the earlier composer is the template of the newer one. *)
Lemma earlier_frontmatter_short (now : string) (m : Metadata) (t : string) :
  title m = Some t -> String.length t <= 70 ->
  Earlier.generateMdxFrontmatter now m = generateMdxFrontmatter now m.
Proof.
  intros Et Ht. unfold Earlier.generateMdxFrontmatter, generateMdxFrontmatter.
  rewrite Et. destruct (slug m) as [s|]; [|reflexivity].
  destruct (description m) as [d|]; [|reflexivity].
  rewrite earlier_truncateTitle_default, (truncateTitle_within t 70 Ht).
  cbn [truncateTitle String.concat]. f_equal.
  repeat (rewrite ?append_assoc; cbn [append]; f_equal).
Qed.

End Composers.

(** X20.  The earlier composer cuts the title once: the title it returns
    is a prefix of the input title of at most 70 characters, which the
    frontmatter template leaves as it is; the body is written unchanged
    after the frontmatter, and the returned record carries no identifier
    although the file name does. *)
Theorem earlier_composer_caps_the_title :
  forall (H : Host) (now : string) (jsonData : JsonData) (c : Conversion),
    Earlier.convertJsonToMdx now jsonData = Some c ->
    exists m t t' frontmatter,
      metadata jsonData = Some m /\ title m = Some t
      /\ title (result c) = Some t'
      /\ String.length t' <= 70
      /\ (exists rest, t = t' ++ rest)
      /\ Earlier.truncateTitle t' None = t'
      /\ mdxContent c = frontmatter ++ show_str (content jsonData)
      /\ uniqueId (result c) = None
      /\ mdxFilename c
         = show_str (option_map normalizeSlug (slug m)) ++ "-" ++ show_str (uniqueId m) ++ ".mdx".
Proof.
  intros H now jsonData c Hc. unfold Earlier.convertJsonToMdx in Hc.
  destruct (metadata jsonData) as [m|]; [|discriminate].
  destruct (title m) as [t|] eqn:Et; [|discriminate].
  destruct (slug m) as [s|] eqn:Es; [|discriminate].
  destruct (Earlier.generateMdxFrontmatter now _) as [frontmatter|]; [|discriminate].
  injection Hc as <-.
  exists m, t, (truncateTitle t (Some 70)), frontmatter.
  split; [reflexivity|]. split; [exact Et|]. split; [reflexivity|].
  split; [apply truncateTitle_short|].
  split.
  { destruct (truncateTitle_cut t 70) as (k & E & _). rewrite E. apply substring_prefix. }
  split.
  { rewrite earlier_truncateTitle_default. apply truncateTitle_within, truncateTitle_short. }
  split; [reflexivity|]. split; [reflexivity|]. rewrite Es. reflexivity.
Qed.

Lemma earlier_composer_caps_the_title_witness :
  exists c t',
    Earlier.convertJsonToMdx (H := canonicalHost) monday longTitleJson = Some c
    /\ title (result c) = Some t'
    /\ String.length t' <= 70.
Proof.
  assert (Hc : exists c,
             Earlier.convertJsonToMdx (H := canonicalHost) monday longTitleJson = Some c)
    by (vm_compute; eexists; reflexivity).
  destruct Hc as [c Hc].
  destruct (earlier_composer_caps_the_title canonicalHost monday longTitleJson c Hc)
    as (m & t & t' & frontmatter & _ & _ & Ht' & Hlen & _).
  exists c, t'. split; [exact Hc|]. split; [exact Ht' | exact Hlen].
Defined.

(** X21.  On a record whose title has at most 70 characters and whose body
    has neither a backtick nor an exclamation mark, the two composers
    write the same file: same name, same text. *)
Theorem composers_agree_on_plain_records :
  forall (H : Host) (now : string) (jsonData : JsonData) (m : Metadata) (t body : string),
    metadata jsonData = Some m ->
    title m = Some t ->
    String.length t <= 70 ->
    content jsonData = Some body ->
    all_chars (fun c => negb (Ascii.eqb c "`")) body = true ->
    all_chars (fun c => negb (Ascii.eqb c "!")) body = true ->
    written (Earlier.convertJsonToMdx now jsonData) = written (convertJsonToMdx now jsonData).
Proof.
  intros H now jsonData m t body Hm Et Ht Hbody Htick Hbang.
  assert (Hcode : processCodeBlocks body = body).
  { unfold processCodeBlocks.
    rewrite (replace_all_without_first match_fence "`" body match_fence_needs_backtick Htick).
    exact (replace_all_without_first match_mermaid "`" body
             match_mermaid_needs_backtick Htick). }
  assert (Himage : processImagePlaceholders body = body)
    by exact (replace_all_without_first match_image "!" body match_image_needs_bang Hbang).
  unfold Earlier.convertJsonToMdx, convertJsonToMdx. rewrite Hm, Hbody, Et.
  destruct (slug m) as [s|]; [|reflexivity].
  rewrite earlier_truncateTitle_default, (truncateTitle_within t 70 Ht).
  cbn [truncateTitle]. rewrite Hcode, Himage.
  rewrite (earlier_frontmatter_short now (set_slug (Some (normalizeSlug s))
                                            (set_title (Some t) m)) t eq_refl Ht).
  destruct (generateMdxFrontmatter now _) as [frontmatter|]; reflexivity.
Qed.

Lemma composers_agree_on_plain_records_witness :
  String.length "Reading files in Python" <= 70
  /\ written (Earlier.convertJsonToMdx (H := canonicalHost) monday
                (mkJsonData (Some sampleMetadata) (Some "Open the file, then read it.")))
     = written (convertJsonToMdx (H := canonicalHost) monday
                  (mkJsonData (Some sampleMetadata) (Some "Open the file, then read it."))).
Proof.
  assert (Hshort : String.length "Reading files in Python" <= 70) by (cbn; lia).
  split; [exact Hshort|].
  exact (composers_agree_on_plain_records canonicalHost monday
           (mkJsonData (Some sampleMetadata) (Some "Open the file, then read it."))
           sampleMetadata "Reading files in Python" "Open the file, then read it."
           eq_refl eq_refl Hshort eq_refl eq_refl eq_refl).
Defined.

(** With a longer title the files differ: the earlier composer cuts it. *)
Example composers_differ_on_long_titles :
  option_map (fun c => option_map String.length (title (result c)))
    (Earlier.convertJsonToMdx (H := canonicalHost) monday longTitleJson)
  <> option_map (fun c => option_map String.length (title (result c)))
       (convertJsonToMdx (H := canonicalHost) monday longTitleJson).
Proof. vm_compute. discriminate. Qed.

(** ** Input file names *)

Lemma substring_after (a b : string) (n : nat) :
  substring (String.length a) n (a ++ b) = substring 0 n b.
Proof. induction a as [|c a IH]; [reflexivity | exact IH]. Qed.

Lemma substring_self (s : string) : substring 0 (String.length s) s = s.
Proof. induction s as [|c s IH]; cbn; [reflexivity | now rewrite IH]. Qed.

Lemma substring_split (s : string) (i : nat) :
  i <= String.length s ->
  s = substring 0 i s ++ substring i (String.length s - i) s.
Proof.
  revert i. induction s as [|c s IH]; intros [|i] Hi; cbn in *; try lia.
  - reflexivity.
  - now rewrite substring_self.
  - rewrite <- (IH i) by lia. reflexivity.
Qed.

Lemma endsWith_append (stem suffix : string) : endsWith (stem ++ suffix) suffix = true.
Proof.
  unfold endsWith. rewrite length_append.
  replace (String.length stem + String.length suffix - String.length suffix)
    with (String.length stem) by lia.
  rewrite substring_after, substring_self, String.eqb_refl.
  replace (Nat.leb _ _) with true; [reflexivity|].
  symmetry. apply Nat.leb_le. lia.
Qed.

Lemma endsWith_stem (s suffix : string) :
  endsWith s suffix = true -> exists stem, s = stem ++ suffix.
Proof.
  unfold endsWith. intros E. apply andb_prop in E as [Hle E].
  apply Nat.leb_le in Hle. apply String.eqb_eq in E.
  exists (substring 0 (String.length s - String.length suffix) s).
  pose proof (substring_split s (String.length s - String.length suffix)) as Hs.
  replace (String.length s - (String.length s - String.length suffix))
    with (String.length suffix) in Hs by lia.
  rewrite E in Hs. apply Hs. lia.
Qed.

(** X23.  The input files of a run are JSON files of the directory, and
    never a metadata companion ([<file>.metadata.json], which
    [moveProcessedFile] moves along) nor an error log
    ([<name>_errors.json], which [logError] writes). *)
Theorem jsonFiles_skips_companions_and_logs :
  forall (listing : list string) (stem : string),
    ~ In (stem ++ ".metadata.json") (jsonFiles listing)
    /\ ~ In (stem ++ "_errors.json") (jsonFiles listing)
    /\ (forall file, In file (jsonFiles listing) ->
                     In file listing /\ exists name, file = name ++ ".json").
Proof.
  intros listing stem. unfold jsonFiles. split; [|split].
  - intros Hin. apply filter_In in Hin as [_ Hf].
    rewrite (endsWith_append stem ".metadata.json") in Hf.
    cbn [negb] in Hf. rewrite andb_false_r in Hf. discriminate.
  - intros Hin. apply filter_In in Hin as [_ Hf].
    rewrite (endsWith_append stem "_errors.json") in Hf.
    cbn [negb] in Hf. rewrite andb_false_r in Hf. discriminate.
  - intros file Hin. apply filter_In in Hin as [Hin Hf]. split; [exact Hin|].
    apply andb_prop in Hf as [Hf _]. apply andb_prop in Hf as [Hf _].
    now apply endsWith_stem.
Qed.

Example jsonFiles_sample :
  jsonFiles [ "a.json"; "a.json.metadata.json"; "a_errors.json"; "notes.txt"; ".json" ]
  = [ "a.json"; ".json" ].
Proof. reflexivity. Qed.

(** ** The two validators *)

Lemma fixUniqueId_no_key (m : Metadata) :
  truthy_str (sourceStackOverflowId m) = false -> fixUniqueId m = (m, []).
Proof.
  unfold fixUniqueId. destruct (sourceStackOverflowId m) as [sid|]; [|reflexivity].
  cbn [truthy_str]. now intros ->.
Qed.

(** X24.  For a record without a source key the newer validator is the
    earlier one followed by the word-count check: it returns the earlier
    validator's errors, then the word-count error if the input's metrics
    call for it, and both leave the same record behind. *)
Theorem validators_agree_without_source_key :
  forall (H : Host) (cats : taxonomy) (jsonData : JsonData) (m : Metadata),
    metadata jsonData = Some m ->
    truthy_str (sourceStackOverflowId m) = false ->
    errors (validateJsonStructure cats jsonData)
    = (errors (Legacy.validateJsonStructure cats jsonData) ++ qualityErrors m)%list
    /\ validated (validateJsonStructure cats jsonData)
       = validated (Legacy.validateJsonStructure cats jsonData).
Proof.
  intros H cats jsonData m Hm Hkey.
  unfold validateJsonStructure, Legacy.validateJsonStructure. rewrite Hm.
  destruct (autoFixCategories_effect cats m) as (U & _). cbv zeta in U.
  destruct (autoFixCategories cats m) as [m1 n1]. cbn [fst] in U.
  unfold untouched in U. destruct U as (_ & _ & _ & _ & _ & _ & Hsid & Hq & _).
  rewrite fixUniqueId_no_key by (now rewrite Hsid).
  cbn [errors validated]. split; [|reflexivity].
  unfold qualityErrors. rewrite Hq. now rewrite <- !app_assoc.
Qed.

Lemma validators_agree_without_source_key_witness :
  truthy_str (sourceStackOverflowId keylessMetadata) = false
  /\ errors (validateJsonStructure (H := canonicalHost) sampleTaxonomy keylessJson)
     = (errors (Legacy.validateJsonStructure sampleTaxonomy keylessJson)
          ++ [too_short_error])%list.
Proof.
  split; [reflexivity|].
  destruct (validators_agree_without_source_key canonicalHost sampleTaxonomy keylessJson
              keylessMetadata eq_refl eq_refl) as [Herrors _].
  exact Herrors.
Defined.

(** With a source key they part: the earlier validator keeps the
    identifier of the file, the newer one replaces it. *)
Example validators_differ_with_source_key :
  option_map uniqueId
    (metadata (validated (Legacy.validateJsonStructure sampleTaxonomy sampleJson)))
  = Some None
  /\ option_map uniqueId
       (metadata (validated (validateJsonStructure (H := canonicalHost) sampleTaxonomy sampleJson)))
     = Some (Some "20c31c35").
Proof. split; vm_compute; reflexivity. Qed.
